(** * QuickChart MCP server: request normalisation, configuration building
      and URL encoding

    A shallow embedding of the core of the QuickChart tool server
    ([validateChartType], [generateChartConfig], [generateChartUrl] and the
    [generate_chart] / [download_chart] branches of [callToolHandler]), of
    the builder, the encoder and the download branch of its two variants
    ([src/index.ts], [src/http-server.ts]), with the properties of its
    specification and further properties of the code.

    Modelling conventions.
    - Caller input is an arbitrary JSON value (the tool-call arguments are
      parsed from a JSON-RPC envelope), embedded as the inductive [value].
      The only function value the program ever creates is the datalabels
      formatter [(value) => value]; it is the constructor [VFun].
    - JavaScript numbers are restricted to integers ([Z]); no property below
      depends on fractional arithmetic.
    - Strings are sequences of bytes, read as the UTF-8 encoding of
      well-formed Unicode text. Percent-encoding works byte by byte, as
      [encodeURIComponent] and [URLSearchParams] do on the UTF-8 encoding.
      The program tells ill-formed text from well-formed text in one place:
      [encodeURIComponent] applied to the caller's [dot] throws a [URIError]
      on a lone surrogate, which JSON text can carry. A lone surrogate is
      recognised by the three bytes of its generalised UTF-8 encoding
      ([has_lone_surrogate]). On the other paths no error depends on it:
      [JSON.stringify] writes it as an escape and [URLSearchParams] replaces
      it, where the model prints its bytes.
    - Objects are association lists in insertion order (the order
      [JSON.stringify] prints); a well-formed object has pairwise distinct
      keys ([wf_value]). Keys that are canonical array indices are not
      reordered.
    - A JavaScript exception that is not an [McpError] is the outcome
      [JsErr]; the tool handlers turn it into [InternalError].
    - The collaborators of the download path (file system, clock, HTTP
      client, [path] module) are the fields of a record [Sys], with the
      texts of the two errors of the runtime that the branch can meet; a run
      of [download_chart] returns its outcome together with the list of its
      events. [download_chart_request] is the branch on the arguments as the
      caller sent them, any JSON value; [download_chart] is the branch on
      arguments of the declared type, a configuration and an optional
      string.

    The file has two parts: the definitions (the program, a decoder for the
    URLs it builds, the vocabulary of the statements, example inputs), then
    the properties. *)

From Stdlib Require Import String Ascii List ZArith Lia Bool Arith.
From Stdlib Require Import DecimalString DecimalZ DecimalPos DecimalNat.
Import ListNotations.
Local Open Scope list_scope.
Local Open Scope string_scope.

(* ------------------------------------------------------------------ *)
(** ** JSON-like values *)

#[local] Set Warnings "-register-all".

(** The one closure of the program: [(value: number) => value]. *)
Inductive closure : Type := FormatterIdentity.

Inductive value : Type :=
| VUndefined
| VNull
| VBool (b : bool)
| VNum (n : Z)
| VStr (s : string)
| VArr (xs : list value)
| VObj (fields : list (string * value))
| VFun (f : closure).

Definition props := list (string * value).

(** Induction principle reaching below arrays and objects. *)
Section ValueInd.
Variable P : value -> Prop.
Hypothesis Hundef : P VUndefined.
Hypothesis Hnull : P VNull.
Hypothesis Hbool : forall b, P (VBool b).
Hypothesis Hnum : forall n, P (VNum n).
Hypothesis Hstr : forall s, P (VStr s).
Hypothesis Harr : forall xs, Forall P xs -> P (VArr xs).
Hypothesis Hobj : forall fs, Forall (fun kv => P (snd kv)) fs -> P (VObj fs).
Hypothesis Hfun : forall f, P (VFun f).

Fixpoint value_ind' (v : value) : P v :=
  match v with
  | VUndefined => Hundef
  | VNull => Hnull
  | VBool b => Hbool b
  | VNum n => Hnum n
  | VStr s => Hstr s
  | VArr xs =>
      Harr xs ((fix go (l : list value) : Forall P l :=
                  match l with
                  | [] => Forall_nil _
                  | x :: r => Forall_cons x (value_ind' x) (go r)
                  end) xs)
  | VObj fs =>
      Hobj fs ((fix go (l : props) : Forall (fun kv => P (snd kv)) l :=
                  match l with
                  | [] => Forall_nil _
                  | kv :: r => Forall_cons kv (value_ind' (snd kv)) (go r)
                  end) fs)
  | VFun f => Hfun f
  end.
End ValueInd.

(** [!!x]: the falsy values are [undefined], [null], [false], [0] and the
    empty string. *)
Definition truthy (v : value) : bool :=
  match v with
  | VUndefined | VNull => false
  | VBool b => b
  | VNum n => negb (Z.eqb n 0)
  | VStr s => negb (String.eqb s "")
  | VArr _ | VObj _ | VFun _ => true
  end.

Definition falsy (v : value) : bool := negb (truthy v).

(** [Array.isArray(x)] *)
Definition is_array (v : value) : bool :=
  match v with VArr _ => true | _ => false end.

(** [typeof x === 'string'] *)
Definition is_string (v : value) : bool :=
  match v with VStr _ => true | _ => false end.

(** [typeof x === 'object'] (which also holds of [null] and of arrays) *)
Definition typeof_object (v : value) : bool :=
  match v with VNull | VArr _ | VObj _ => true | _ => false end.

Definition is_undefined (v : value) : bool :=
  match v with VUndefined => true | _ => false end.

(** [x === 'lit'] for a string literal *)
Definition strict_eq_str (v : value) (lit : string) : bool :=
  match v with VStr s => String.eqb s lit | _ => false end.

(* ------------------------------------------------------------------ *)
(** ** Objects as ordered association lists *)

Fixpoint obj_get (fs : props) (k : string) : option value :=
  match fs with
  | [] => None
  | (k', v) :: r => if String.eqb k' k then Some v else obj_get r k
  end.

(** [o[k] = v]: an existing key keeps its position, a new key goes last. *)
Fixpoint obj_set (fs : props) (k : string) (v : value) : props :=
  match fs with
  | [] => [(k, v)]
  | (k', v') :: r =>
      if String.eqb k' k then (k', v) :: r else (k', v') :: obj_set r k v
  end.

Fixpoint obj_remove (fs : props) (k : string) : props :=
  match fs with
  | [] => []
  | (k', v') :: r =>
      if String.eqb k' k then obj_remove r k else (k', v') :: obj_remove r k
  end.

(** [{...base, ...extra}] once [extra] is reduced to its own properties. *)
Definition obj_spread (base extra : props) : props :=
  fold_left (fun acc kv => obj_set acc (fst kv) (snd kv)) extra base.

Definition nat_to_string (n : nat) : string :=
  NilZero.string_of_uint (Nat.to_uint n).

Definition Z_to_string (z : Z) : string :=
  NilZero.string_of_int (Z.to_int z).

Fixpoint index_from (i : nat) (xs : list value) : props :=
  match xs with
  | [] => []
  | x :: r => (nat_to_string i, x) :: index_from (S i) r
  end.

Fixpoint chars_of (s : string) : list value :=
  match s with
  | EmptyString => []
  | String c r => VStr (String c EmptyString) :: chars_of r
  end.

(** The own enumerable properties copied by a spread [...x]: those of an
    object, the indexed elements of an array or of a string, and nothing for
    the other primitives, [null] and [undefined]. *)
Definition own_props (v : value) : props :=
  match v with
  | VObj fs => fs
  | VArr xs => index_from 0 xs
  | VStr s => index_from 0 (chars_of s)
  | _ => []
  end.

(** [x.k] for the property names the program reads (none of them is an
    inherited member or an array index); only called on values that are not
    [null] or [undefined]. *)
Definition get_prop (v : value) (k : string) : value :=
  match v with
  | VObj fs => match obj_get fs k with Some x => x | None => VUndefined end
  | _ => VUndefined
  end.

(** [x?.k] *)
Definition get_prop_opt (v : value) (k : string) : value :=
  match v with
  | VUndefined | VNull => VUndefined
  | _ => get_prop v k
  end.

(** [x?.[i]] *)
Definition get_index_opt (v : value) (i : nat) : value :=
  match v with
  | VArr xs => nth i xs VUndefined
  | VStr s => nth i (chars_of s) VUndefined
  | VObj fs =>
      match obj_get fs (nat_to_string i) with Some x => x | None => VUndefined end
  | _ => VUndefined
  end.

(** [a || b] *)
Definition js_or (a b : value) : value := if truthy a then a else b.

(** Well-formed values: every object has pairwise distinct keys. *)
Fixpoint wf_value (v : value) : Prop :=
  match v with
  | VArr xs =>
      (fix all (l : list value) : Prop :=
         match l with [] => True | x :: r => wf_value x /\ all r end) xs
  | VObj fs =>
      NoDup (map fst fs) /\
      (fix all (l : props) : Prop :=
         match l with [] => True | kv :: r => wf_value (snd kv) /\ all r end) fs
  | _ => True
  end.

(* ------------------------------------------------------------------ *)
(** ** Outcomes *)

Inductive ErrorCode : Type := InvalidParams | InternalError | MethodNotFound.

(** A call returns, throws an [McpError] with a code and a message, or
    throws some other JavaScript exception with a message. *)
Inductive result (A : Type) : Type :=
| Ok (a : A)
| McpErr (code : ErrorCode) (msg : string)
| JsErr (msg : string).
Arguments Ok {A} a.
Arguments McpErr {A} code msg.
Arguments JsErr {A} msg.

Definition bind {A B : Type} (r : result A) (k : A -> result B) : result B :=
  match r with
  | Ok a => k a
  | McpErr c m => McpErr c m
  | JsErr m => JsErr m
  end.

Notation "x <- r ;; k" := (bind r (fun x => k))
  (at level 61, r at next level, right associativity).
Notation "r ;;; k" := (bind r (fun _ => k))
  (at level 61, right associativity).

Fixpoint mapM {A B : Type} (f : A -> result B) (l : list A) : result (list B) :=
  match l with
  | [] => Ok []
  | x :: r => y <- f x ;; ys <- mapM f r ;; Ok (y :: ys)
  end.

(** [l.forEach(f)] for a callback that may throw. *)
Fixpoint forEachM {A : Type} (f : A -> result unit) (l : list A) : result unit :=
  match l with
  | [] => Ok tt
  | x :: r => f x ;;; forEachM f r
  end.

Definition fails_with {A : Type} (r : result A) (c : ErrorCode) : Prop :=
  exists msg, r = McpErr c msg.

(* ------------------------------------------------------------------ *)
(** ** Coercion to string *)

Definition join (sep : string) (l : list string) : string := String.concat sep l.

(** [ToString]. An object coerces through [Object.prototype.toString]
    unless it has an own [toString] property: a JSON value is never
    callable, so the coercion then ends in a [TypeError] ([None]). An array
    joins its elements with commas, [null] and [undefined] as empty text. *)
Fixpoint to_string (v : value) : option string :=
  match v with
  | VUndefined => Some "undefined"
  | VNull => Some "null"
  | VBool true => Some "true"
  | VBool false => Some "false"
  | VNum n => Some (Z_to_string n)
  | VStr s => Some s
  | VArr xs =>
      (fix go (l : list value) : option string :=
         match l with
         | [] => Some ""
         | x :: r =>
             match (match x with
                    | VUndefined | VNull => Some ""
                    | _ => to_string x
                    end), r with
             | Some sx, [] => Some sx
             | Some sx, _ :: _ =>
                 match go r with
                 | Some sr => Some (sx ++ "," ++ sr)
                 | None => None
                 end
             | None, _ => None
             end
         end) xs
  | VObj fs =>
      match obj_get fs "toString" with
      | Some _ => None
      | None => Some "[object Object]"
      end
  | VFun FormatterIdentity => Some "(value) => value"
  end.

(** A template literal or [String(x)] applied to [x]. *)
Definition js_String (v : value) : result string :=
  match to_string v with
  | Some s => Ok s
  | None => JsErr "Cannot convert object to primitive value"
  end.

(* ------------------------------------------------------------------ *)
(** ** Percent-encoding *)

Definition in_range (lo hi : nat) (c : ascii) : bool :=
  let n := nat_of_ascii c in Nat.leb lo n && Nat.leb n hi.

Definition is_alnum (c : ascii) : bool :=
  in_range 48 57 c || in_range 65 90 c || in_range 97 122 c.

Fixpoint mem_ascii (c : ascii) (s : string) : bool :=
  match s with
  | EmptyString => false
  | String d r => Ascii.eqb c d || mem_ascii c r
  end.

Definition hex_upper (n : nat) : ascii :=
  ascii_of_nat (if Nat.ltb n 10 then 48 + n else 55 + n).

Definition hex_lower (n : nat) : ascii :=
  ascii_of_nat (if Nat.ltb n 10 then 48 + n else 87 + n).

(** [%XX] with upper-case hexadecimal digits. *)
Definition pct (c : ascii) : string :=
  let n := nat_of_ascii c in
  String "%" (String (hex_upper (n / 16)) (String (hex_upper (n mod 16)) EmptyString)).

(** [encodeURIComponent] leaves letters, digits and [- _ . ! ~ * ' ( )]. *)
Definition uri_unreserved (c : ascii) : bool :=
  is_alnum c || mem_ascii c "-_.!~*'()".

Fixpoint encodeURIComponent (s : string) : string :=
  match s with
  | EmptyString => EmptyString
  | String c r =>
      (if uri_unreserved c then String c EmptyString else pct c)
        ++ encodeURIComponent r
  end.

(** A lone surrogate in the text: the byte [ED] followed by a byte from
    [A0] to [BF]. *)
Fixpoint has_lone_surrogate (s : string) : bool :=
  match s with
  | EmptyString => false
  | String c r =>
      (Nat.eqb (nat_of_ascii c) 237
       && match r with
          | String d _ => in_range 160 191 d
          | EmptyString => false
          end)
      || has_lone_surrogate r
  end.

(** [encodeURIComponent(s)] on text of the caller: a [URIError] when the
    text holds a lone surrogate. *)
Definition encodeURIComponent_call (s : string) : result string :=
  if has_lone_surrogate s then JsErr "URI malformed"
  else Ok (encodeURIComponent s).

(** The [application/x-www-form-urlencoded] serialiser behind
    [URLSearchParams.prototype.toString]: letters, digits and [* - . _] are
    kept, a space becomes [+], every other byte is percent-encoded. *)
Definition form_unreserved (c : ascii) : bool :=
  is_alnum c || mem_ascii c "*-._".

Fixpoint form_encode (s : string) : string :=
  match s with
  | EmptyString => EmptyString
  | String c r =>
      (if form_unreserved c then String c EmptyString
       else if Ascii.eqb c " " then "+"
       else pct c) ++ form_encode r
  end.

Definition URLSearchParams := list (string * string).

Definition URLSearchParams_toString (params : URLSearchParams) : string :=
  join "&" (map (fun kv => form_encode (fst kv) ++ "=" ++ form_encode (snd kv)) params).

(* ------------------------------------------------------------------ *)
(** ** [JSON.stringify] *)

Definition dquote : string := String (ascii_of_nat 34) EmptyString.

Definition backslash : string := String (ascii_of_nat 92) EmptyString.

(** [QuoteJSONString]: the quote, the backslash and the control characters
    are escaped. *)
Definition json_escape_char (c : ascii) : string :=
  let n := nat_of_ascii c in
  if Nat.eqb n 8 then "\b"
  else if Nat.eqb n 9 then "\t"
  else if Nat.eqb n 10 then "\n"
  else if Nat.eqb n 12 then "\f"
  else if Nat.eqb n 13 then "\r"
  else if Nat.eqb n 34 then backslash ++ dquote
  else if Nat.eqb n 92 then backslash ++ backslash
  else if Nat.ltb n 32 then
    "\u00" ++ String (hex_lower (n / 16)) (String (hex_lower (n mod 16)) EmptyString)
  else String c EmptyString.

Fixpoint json_escape (s : string) : string :=
  match s with
  | EmptyString => EmptyString
  | String c r => json_escape_char c ++ json_escape r
  end.

Definition json_quote (s : string) : string := dquote ++ json_escape s ++ dquote.

(** [JSON.stringify(v)]; [None] is the result [undefined]. A property whose
    value is [undefined] or a function is left out of an object, and such an
    element of an array is printed as [null]. *)
Fixpoint JSON_stringify (v : value) : option string :=
  match v with
  | VUndefined | VFun _ => None
  | VNull => Some "null"
  | VBool true => Some "true"
  | VBool false => Some "false"
  | VNum n => Some (Z_to_string n)
  | VStr s => Some (json_quote s)
  | VArr xs =>
      Some ("[" ++ join ","
                   (map (fun x => match JSON_stringify x with
                                  | Some s => s
                                  | None => "null"
                                  end) xs) ++ "]")
  | VObj fs =>
      Some ("{" ++ join ","
                   (flat_map (fun kv => match JSON_stringify (snd kv) with
                                        | Some s => [json_quote (fst kv) ++ ":" ++ s]
                                        | None => []
                                        end) fs) ++ "}")
  end.

(* ------------------------------------------------------------------ *)
(** ** The program *)

(** The three endpoints, read once from the environment. *)
Record Env : Type := {
  QUICKCHART_BASE_URL : string;
  QUICKCHART_GRAPHVIZ_URL : string;
  QUICKCHART_WORDCLOUD_URL : string
}.

(** The defaults of the [getenv] calls. *)
Definition default_env : Env := {|
  QUICKCHART_BASE_URL := "https://quickchart.io/chart";
  QUICKCHART_GRAPHVIZ_URL := "https://quickchart.io/graphviz";
  QUICKCHART_WORDCLOUD_URL := "https://quickchart.io/wordcloud"
|}.

Definition validTypes : list string :=
  ["bar"; "line"; "pie"; "doughnut"; "radar";
   "polarArea"; "scatter"; "bubble"; "radialGauge"; "speedometer";
   "graphviz"; "wordcloud"].

(** [validTypes.includes(x)] *)
Definition includes (l : list string) (v : value) : bool :=
  match v with
  | VStr s => existsb (String.eqb s) l
  | _ => false
  end.

Definition validateChartType (type : value) : result unit :=
  if negb (includes validTypes type) then
    McpErr InvalidParams ("Invalid chart type. Must be one of: " ++ join ", " validTypes)
  else Ok tt.

(** The text of a value that is known to be a string. *)
Definition text_of (v : value) : string :=
  match v with VStr s => s | _ => "" end.

Definition array_elems (v : value) : list value :=
  match v with VArr xs => xs | _ => [] end.

(** The fields the builder writes itself in the object literal returned by
    the callback of [datasets.map], before [additionalConfig] is spread. *)
Definition builder_fields (dataset : value) : props :=
  [("label", js_or (get_prop dataset "label") (VStr ""));
   ("data", get_prop dataset "data");
   ("backgroundColor", get_prop dataset "backgroundColor");
   ("borderColor", get_prop dataset "borderColor")].

(** The callback of [datasets.map] in [generateChartConfig]. *)
Definition normalize_dataset (dataset : value) : result value :=
  if falsy dataset || falsy (get_prop dataset "data") then
    McpErr InvalidParams "Each dataset must have a data property"
  else
    Ok (VObj (obj_spread (builder_fields dataset)
                (own_props (js_or (get_prop dataset "additionalConfig") (VObj []))))).

(** The [plugins] block merged into the options of a gauge chart. *)
Definition gauge_plugins : value :=
  VObj [("datalabels",
         VObj [("display", VBool true); ("formatter", VFun FormatterIdentity)])].

(** [datasets?.[0]?.data?.[0]] *)
Definition first_reading (datasets : value) : value :=
  get_index_opt (get_prop_opt (get_index_opt datasets 0) "data") 0.

(** [dataset.data[0]] for a dataset that passed the [data] check. *)
Definition first_point (dataset : value) : value :=
  get_index_opt (get_prop dataset "data") 0.

(** The callback of [datasets.forEach] for scatter and bubble charts. *)
Definition check_point_format (type : value) (dataset : value) : result unit :=
  if negb (is_array (first_point dataset)) then
    McpErr InvalidParams
      (text_of type ++ " requires data points in [x, y"
         ++ (if strict_eq_str type "bubble" then ", r" else "") ++ "] format")
  else Ok tt.

Definition generateChartConfig (args : value) : result value :=
  if falsy args then
    McpErr InvalidParams "No arguments provided to generateChartConfig"
  else if falsy (get_prop args "type") then
    McpErr InvalidParams "Chart type is required"
  else
    let type := get_prop args "type" in
    validateChartType type ;;;
    if strict_eq_str type "graphviz" || strict_eq_str type "wordcloud" then
      Ok (VObj [("type", type)])
    else if falsy (get_prop args "datasets") || negb (is_array (get_prop args "datasets")) then
      McpErr InvalidParams "Datasets must be a non-empty array"
    else
      let labels := get_prop args "labels" in
      let datasets := get_prop args "datasets" in
      let title := get_prop args "title" in
      let options :=
        match get_prop args "options" with VUndefined => VObj [] | o => o end in
      ds <- mapM normalize_dataset (array_elems datasets) ;;
      let config_options :=
        obj_spread (obj_spread [] (own_props options))
          (own_props (if truthy title
                      then VObj [("title", VObj [("display", VBool true); ("text", title)])]
                      else title)) in
      let config :=
        [("type", type);
         ("data", VObj [("labels", js_or labels (VArr [])); ("datasets", VArr ds)]);
         ("options", VObj config_options)] in
      if strict_eq_str type "radialGauge" || strict_eq_str type "speedometer" then
        if falsy (first_reading datasets) then
          McpErr InvalidParams (text_of type ++ " requires a single numeric value")
        else
          Ok (VObj (obj_set config "options"
                      (VObj (obj_set (obj_spread [] config_options)
                               "plugins" gauge_plugins))))
      else if strict_eq_str type "scatter" || strict_eq_str type "bubble" then
        forEachM (check_point_format type) (array_elems datasets) ;;;
        Ok (VObj config)
      else Ok (VObj config).

(** [params.append(name, x)]: the value is coerced to a string. *)
Definition append (params : URLSearchParams) (name : string) (v : value)
  : result URLSearchParams :=
  s <- js_String v ;; Ok (params ++ [(name, s)])%list.

(** [if (args.key) params.append(name, args.key)], with or without an
    explicit [String(...)] around the value. *)
Definition append_if_truthy (args : value) (key name : string)
    (params : URLSearchParams) : result URLSearchParams :=
  if truthy (get_prop args key) then append params name (get_prop args key)
  else Ok params.

(** [if (args.key !== undefined) params.append(name, String(args.key))] *)
Definition append_if_defined (args : value) (key name : string)
    (params : URLSearchParams) : result URLSearchParams :=
  if negb (is_undefined (get_prop args key)) then append params name (get_prop args key)
  else Ok params.

(** The value of [JSON.stringify(x)] as a JavaScript value. *)
Definition JSON_stringify_value (v : value) : value :=
  match JSON_stringify v with Some s => VStr s | None => VUndefined end.

(** [if (args.key) params.append(name, JSON.stringify(args.key))] *)
Definition append_if_truthy_json (args : value) (key name : string)
    (params : URLSearchParams) : result URLSearchParams :=
  if truthy (get_prop args key) then
    append params name (JSON_stringify_value (get_prop args key))
  else Ok params.

Definition generateChartUrl (env : Env) (config : value) (args : value)
  : result string :=
  if strict_eq_str (get_prop config "type") "graphviz" then
    if falsy (get_prop_opt args "dot") || negb (is_string (get_prop args "dot")) then
      McpErr InvalidParams "DOT language code is required for graphviz charts"
    else
      encodedDot <- encodeURIComponent_call (text_of (get_prop args "dot")) ;;
      let format := js_or (get_prop args "graphvizFormat") (VStr "png") in
      let layout := js_or (get_prop args "graphvizLayout") (VStr "dot") in
      l <- js_String layout ;;
      f <- js_String format ;;
      Ok (QUICKCHART_GRAPHVIZ_URL env ++ "?graph=" ++ encodedDot
            ++ "&layout=" ++ l ++ "&format=" ++ f)
  else if strict_eq_str (get_prop config "type") "wordcloud" then
    if falsy (get_prop_opt args "text") || negb (is_string (get_prop args "text")) then
      McpErr InvalidParams "Text is required for wordcloud charts"
    else
      params <- append [] "text" (get_prop args "text") ;;
      params <- append_if_truthy args "wordcloudFormat" "format" params ;;
      params <- append_if_truthy args "width" "width" params ;;
      params <- append_if_truthy args "height" "height" params ;;
      params <- append_if_truthy args "backgroundColor" "backgroundColor" params ;;
      params <- append_if_truthy args "fontFamily" "fontFamily" params ;;
      params <- append_if_truthy args "fontWeight" "fontWeight" params ;;
      params <- append_if_truthy args "loadGoogleFonts" "loadGoogleFonts" params ;;
      params <- append_if_truthy args "fontScale" "fontScale" params ;;
      params <- append_if_truthy args "scale" "scale" params ;;
      params <- append_if_truthy args "padding" "padding" params ;;
      params <- append_if_truthy args "rotation" "rotation" params ;;
      params <- append_if_truthy args "maxNumWords" "maxNumWords" params ;;
      params <- append_if_truthy args "minWordLength" "minWordLength" params ;;
      params <- append_if_truthy args "case" "case" params ;;
      params <- append_if_truthy_json args "colors" "colors" params ;;
      params <- append_if_defined args "removeStopwords" "removeStopwords" params ;;
      params <- append_if_defined args "cleanWords" "cleanWords" params ;;
      params <- append_if_truthy args "language" "language" params ;;
      params <- append_if_defined args "useWordList" "useWordList" params ;;
      Ok (QUICKCHART_WORDCLOUD_URL env ++ "?" ++ URLSearchParams_toString params)
  else
    let encodedConfig :=
      encodeURIComponent (match JSON_stringify config with
                          | Some s => s
                          | None => "undefined"
                          end) in
    Ok (QUICKCHART_BASE_URL env ++ "?c=" ++ encodedConfig).

(** [error?.message || 'Unknown error'] *)
Definition message_or_unknown (m : string) : string :=
  if String.eqb m "" then "Unknown error" else m.

(** The [generate_chart] branch of [callToolHandler]: the URL is the text
    payload; an [McpError] is rethrown and any other exception is wrapped
    into [InternalError]. *)
Definition generate_chart (env : Env) (args : value) : result string :=
  match (config <- generateChartConfig args ;; generateChartUrl env config args) with
  | Ok url => Ok url
  | McpErr c m => McpErr c m
  | JsErr m =>
      McpErr InternalError ("Failed to generate chart: " ++ message_or_unknown m)
  end.

(* ------------------------------------------------------------------ *)
(** ** The download path *)

(** The outcome of a call to an external collaborator (HTTP client, file
    system): a value, or an error with its [code] and [message]. *)
Inductive io_result (A : Type) : Type :=
| IoOk (a : A)
| IoFail (code : string) (message : string).
Arguments IoOk {A} a.
Arguments IoFail {A} code message.

(** The collaborators of [download_chart], and the messages of the two
    [TypeError]s of the runtime that the branch can meet. *)
Record Sys : Type := {
  homedir : string;                              (* os.homedir() *)
  path_join : string -> string -> string;        (* path.join *)
  path_dirname : string -> string;               (* path.dirname on a string *)
  path_type_error : value -> string;             (* message of path.dirname(x), x not a string *)
  destructure_error : value -> string;           (* message of const { config } = x, x null or undefined *)
  access_W_OK : string -> bool;                  (* fs.promises.access(p, W_OK) resolves *)
  now_iso : string;                              (* new Date().toISOString() *)
  axios_get : string -> io_result string;        (* axios.get(url, arraybuffer) *)
  writeFile : string -> string -> io_result unit (* fs.promises.writeFile *)
}.

(** What a run does, in order: the access checks, the lines written to the
    error console, the fetch and the write; [EvBuild] marks the point where
    [generateChartConfig] is called. *)
Inductive event : Type :=
| EvAccess (path : string)
| EvLog (msg : string)
| EvBuild
| EvFetch (url : string)
| EvWrite (path : string).

Definition IO (A : Type) : Type := list event -> result A * list event.

Definition io_ret {A : Type} (a : A) : IO A := fun t => (Ok a, t).

Definition io_bind {A B : Type} (m : IO A) (k : A -> IO B) : IO B :=
  fun t =>
    match m t with
    | (Ok a, t') => k a t'
    | (McpErr c msg, t') => (McpErr c msg, t')
    | (JsErr msg, t') => (JsErr msg, t')
    end.

Definition io_lift {A : Type} (r : result A) : IO A := fun t => (r, t).

Definition emit (ev : event) : IO unit := fun t => (Ok tt, (t ++ [ev])%list).

Notation "x <~ m ;; k" := (io_bind m (fun x => k))
  (at level 61, m at next level, right associativity).
Notation "m ~;; k" := (io_bind m (fun _ => k))
  (at level 61, right associativity).

(** [await fs.promises.access(p, fs.constants.W_OK)] inside a [try]. *)
Definition access (sys : Sys) (p : string) : IO bool :=
  emit (EvAccess p) ~;; io_ret (access_W_OK sys p).

(** [s.replace(/:/g, '-')] *)
Fixpoint replace_colons (s : string) : string :=
  match s with
  | EmptyString => EmptyString
  | String c r => String (if Ascii.eqb c ":" then "-"%char else c) (replace_colons r)
  end.

(** [s.replace(/\..+/, '')] on one line of text: everything from the first
    dot that is followed by something is removed. *)
Fixpoint cut_fraction (s : string) : string :=
  match s with
  | EmptyString => EmptyString
  | String c r =>
      if Ascii.eqb c "." && negb (String.eqb r "") then EmptyString
      else String c (cut_fraction r)
  end.

(** [s.replace('T', '_')]: the first occurrence only. *)
Fixpoint replace_first_T (s : string) : string :=
  match s with
  | EmptyString => EmptyString
  | String c r => if Ascii.eqb c "T" then String "_" r else String c (replace_first_T r)
  end.

Definition timestamp (sys : Sys) : string :=
  replace_first_T (cut_fraction (replace_colons (now_iso sys))).

(** One of the three lifting steps: [config.data.k] moves to the top level
    when it is truthy and the top-level [k] is falsy. *)
Definition lift_nested (config : value) (k : string) (normalizedConfig : props) : props :=
  let data := get_prop config "data" in
  if truthy data && typeof_object data && truthy (get_prop data k)
       && falsy (get_prop (VObj normalizedConfig) k)
  then obj_set normalizedConfig k (get_prop data k)
  else normalizedConfig.

Definition normalizedConfig (config : value) : value :=
  let n := obj_spread [] (own_props config) in
  let n := lift_nested config "datasets" n in
  let n := lift_nested config "labels" n in
  let n := lift_nested config "type" n in
  VObj n.

(** The default output path: [Desktop] under the home directory when it is
    writable, else the home directory itself. *)
Definition default_outputPath (sys : Sys) (n : value) : IO string :=
  let homeDir := homedir sys in
  let desktopDir := path_join sys homeDir "Desktop" in
  ok <~ access sys desktopDir ;;
  baseDir <~ (if ok : bool then io_ret desktopDir
              else emit (EvLog "Desktop not accessible, using home directory instead")
                   ~;; io_ret homeDir) ;;
  let chartType := js_or (get_prop n "type") (VStr "chart") in
  ct <~ io_lift (js_String chartType) ;;
  let outputPath := path_join sys baseDir (ct ++ "_" ++ timestamp sys ++ ".png") in
  emit (EvLog ("No output path provided, using: " ++ outputPath)) ~;;
  io_ret outputPath.

(** [let outputPath = userProvidedPath; if (!outputPath) { ... }] *)
Definition resolve_outputPath (sys : Sys) (n : value)
    (userProvidedPath : option string) : IO string :=
  match userProvidedPath with
  | Some p => if String.eqb p "" then default_outputPath sys n else io_ret p
  | None => default_outputPath sys n
  end.

(** The inner [catch] around the fetch and the write. *)
Definition translate_write_error {A : Type} (outputPath : string)
    (code message : string) : result A :=
  if String.eqb code "EACCES" || String.eqb code "EROFS" then
    McpErr InvalidParams ("Cannot write to " ++ outputPath ++ ": Permission denied")
  else if String.eqb code "ENOENT" then
    McpErr InvalidParams ("Cannot write to " ++ outputPath ++ ": Directory does not exist")
  else JsErr message.

Definition fetch_and_write (sys : Sys) (url outputPath : string) : IO unit :=
  emit (EvFetch url) ~;;
  match axios_get sys url with
  | IoFail code message => io_lift (translate_write_error outputPath code message)
  | IoOk data =>
      emit (EvWrite outputPath) ~;;
      match writeFile sys outputPath data with
      | IoFail code message => io_lift (translate_write_error outputPath code message)
      | IoOk _ => io_ret tt
      end
  end.

(** The [download_chart] branch once the configuration is normalised: the
    final validation, the output path, the access check, the build, the
    fetch and the write. *)
Definition download_normalized (sys : Sys) (env : Env) (n : value)
    (userProvidedPath : option string) : IO string :=
  if falsy (get_prop n "type") || falsy (get_prop n "datasets") then
    io_lift (McpErr InvalidParams
      "Config must include type and datasets properties (either at root level or inside data object)")
  else
    outputPath <~ resolve_outputPath sys n userProvidedPath ;;
    let outputDir := path_dirname sys outputPath in
    ok <~ access sys outputDir ;;
    if negb ok then
      io_lift (McpErr InvalidParams
        ("Output directory does not exist or is not writable: " ++ outputDir))
    else
      emit EvBuild ~;;
      chartConfig <~ io_lift (generateChartConfig n) ;;
      url <~ io_lift (generateChartUrl env chartConfig VUndefined) ;;
      fetch_and_write sys url outputPath ~;;
      io_ret ("Chart saved to " ++ outputPath).

(** The body of the [try] of the [download_chart] branch on arguments of
    the declared type: [config] is there and [outputPath] is a string when
    it is given. *)
Definition download_chart_body (sys : Sys) (env : Env) (config : value)
    (userProvidedPath : option string) : IO string :=
  if falsy config || negb (typeof_object config) then
    io_lift (McpErr InvalidParams "Config must be a valid chart configuration object")
  else
    download_normalized sys env (normalizedConfig config) userProvidedPath.

(** The [download_chart] branch of [callToolHandler] on arguments of the
    declared type, run from an empty trace: the outer [catch] rethrows an
    [McpError] and wraps anything else into [InternalError]. *)
Definition download_chart (sys : Sys) (env : Env) (config : value)
    (userProvidedPath : option string) : result string * list event :=
  match download_chart_body sys env config userProvidedPath [] with
  | (JsErr m, t) =>
      (McpErr InternalError ("Failed to download chart: " ++ message_or_unknown m), t)
  | r => r
  end.

(** [x === undefined || x === null]: what cannot be destructured. *)
Definition is_nullish (v : value) : bool :=
  match v with VUndefined | VNull => true | _ => false end.

(** [path.dirname(outputPath)]: a [TypeError] for anything but a string. *)
Definition dirname_call (sys : Sys) (outputPath : value) : result string :=
  match outputPath with
  | VStr p => Ok (path_dirname sys p)
  | v => JsErr (path_type_error sys v)
  end.

(** The body of the [try] of the [download_chart] branch on
    [request.params.arguments] as the caller sent them. The cast of the
    arguments checks nothing: the destructuring throws on [undefined] and
    [null], and [outputPath] is whatever the caller put there. *)
Definition download_chart_request_body (sys : Sys) (env : Env) (arguments : value)
  : IO string :=
  if is_nullish arguments then io_lift (JsErr (destructure_error sys arguments))
  else
    let config := get_prop arguments "config" in
    let userProvidedPath := get_prop arguments "outputPath" in
    if falsy config || negb (typeof_object config) then
      io_lift (McpErr InvalidParams "Config must be a valid chart configuration object")
    else
      let n := normalizedConfig config in
      if falsy (get_prop n "type") || falsy (get_prop n "datasets") then
        io_lift (McpErr InvalidParams
          "Config must include type and datasets properties (either at root level or inside data object)")
      else
        outputPath <~ (if falsy userProvidedPath
                       then p <~ default_outputPath sys n ;; io_ret (VStr p)
                       else io_ret userProvidedPath) ;;
        outputDir <~ io_lift (dirname_call sys outputPath) ;;
        ok <~ access sys outputDir ;;
        if negb ok then
          io_lift (McpErr InvalidParams
            ("Output directory does not exist or is not writable: " ++ outputDir))
        else
          emit EvBuild ~;;
          chartConfig <~ io_lift (generateChartConfig n) ;;
          url <~ io_lift (generateChartUrl env chartConfig VUndefined) ;;
          fetch_and_write sys url (text_of outputPath) ~;;
          io_ret ("Chart saved to " ++ text_of outputPath).

(** The [download_chart] branch of [callToolHandler] on the arguments as
    the caller sent them, run from an empty trace. *)
Definition download_chart_request (sys : Sys) (env : Env) (arguments : value)
  : result string * list event :=
  match download_chart_request_body sys env arguments [] with
  | (JsErr m, t) =>
      (McpErr InternalError ("Failed to download chart: " ++ message_or_unknown m), t)
  | r => r
  end.

Definition is_fetch_or_write (ev : event) : bool :=
  match ev with EvFetch _ | EvWrite _ => true | _ => false end.

Definition is_build (ev : event) : bool :=
  match ev with EvBuild => true | _ => false end.

(* ------------------------------------------------------------------ *)
(** ** The variant without graphs and word clouds

    [src/index.ts] and [src/http-server.ts] hold an earlier
    [validateChartType], whose list stops at [speedometer], and the
    builder and the encoder that go with it. *)

Module StdioVariant.

Definition validTypes : list string :=
  ["bar"; "line"; "pie"; "doughnut"; "radar";
   "polarArea"; "scatter"; "bubble"; "radialGauge"; "speedometer"].

Definition validateChartType (type : value) : result unit :=
  if negb (includes validTypes type) then
    McpErr InvalidParams ("Invalid chart type. Must be one of: " ++ join ", " validTypes)
  else Ok tt.

(** [generateChartConfig] of the variant: the datasets are checked before
    the type is validated, and no type is passed through without data. *)
Definition generateChartConfig (args : value) : result value :=
  if falsy args then
    McpErr InvalidParams "No arguments provided to generateChartConfig"
  else if falsy (get_prop args "type") then
    McpErr InvalidParams "Chart type is required"
  else if falsy (get_prop args "datasets") || negb (is_array (get_prop args "datasets")) then
    McpErr InvalidParams "Datasets must be a non-empty array"
  else
    let type := get_prop args "type" in
    let labels := get_prop args "labels" in
    let datasets := get_prop args "datasets" in
    let title := get_prop args "title" in
    let options :=
      match get_prop args "options" with VUndefined => VObj [] | o => o end in
    validateChartType type ;;;
    ds <- mapM normalize_dataset (array_elems datasets) ;;
    let config_options :=
      obj_spread (obj_spread [] (own_props options))
        (own_props (if truthy title
                    then VObj [("title", VObj [("display", VBool true); ("text", title)])]
                    else title)) in
    let config :=
      [("type", type);
       ("data", VObj [("labels", js_or labels (VArr [])); ("datasets", VArr ds)]);
       ("options", VObj config_options)] in
    if strict_eq_str type "radialGauge" || strict_eq_str type "speedometer" then
      if falsy (first_reading datasets) then
        McpErr InvalidParams (text_of type ++ " requires a single numeric value")
      else
        Ok (VObj (obj_set config "options"
                    (VObj (obj_set (obj_spread [] config_options)
                             "plugins" gauge_plugins))))
    else if strict_eq_str type "scatter" || strict_eq_str type "bubble" then
      forEachM (check_point_format type) (array_elems datasets) ;;;
      Ok (VObj config)
    else Ok (VObj config).

(** [generateChartUrl] of the variant: the chart endpoint only. *)
Definition generateChartUrl (env : Env) (config : value) : string :=
  let encodedConfig :=
    encodeURIComponent (match JSON_stringify config with
                        | Some s => s
                        | None => "undefined"
                        end) in
  QUICKCHART_BASE_URL env ++ "?c=" ++ encodedConfig.

(** The [generate_chart] branch of the variant. *)
Definition generate_chart (env : Env) (args : value) : result string :=
  match (config <- generateChartConfig args ;; Ok (generateChartUrl env config)) with
  | Ok url => Ok url
  | McpErr c m => McpErr c m
  | JsErr m =>
      McpErr InternalError ("Failed to generate chart: " ++ message_or_unknown m)
  end.

End StdioVariant.

(* ------------------------------------------------------------------ *)
(** ** The download path of the HTTP variant

    [src/http-server.ts] answers [download_chart] with the image itself,
    base64-encoded, and touches no file. *)

Module HttpVariant.

(** The alphabet of [Buffer.prototype.toString('base64')]. *)
Definition base64_digit (n : nat) : ascii :=
  if Nat.ltb n 26 then ascii_of_nat (65 + n)
  else if Nat.ltb n 52 then ascii_of_nat (97 + (n - 26))
  else if Nat.ltb n 62 then ascii_of_nat (48 + (n - 52))
  else if Nat.eqb n 62 then "+"%char
  else "/"%char.

(** [Buffer.from(data).toString('base64')] on a sequence of bytes. *)
Fixpoint base64 (data : string) : string :=
  match data with
  | EmptyString => EmptyString
  | String a EmptyString =>
      let x := nat_of_ascii a in
      String (base64_digit (x / 4))
        (String (base64_digit ((x mod 4) * 16)) "==")
  | String a (String b EmptyString) =>
      let x := nat_of_ascii a in
      let y := nat_of_ascii b in
      String (base64_digit (x / 4))
        (String (base64_digit ((x mod 4) * 16 + y / 16))
           (String (base64_digit ((y mod 16) * 4)) "="))
  | String a (String b (String c rest)) =>
      let x := nat_of_ascii a in
      let y := nat_of_ascii b in
      let z := nat_of_ascii c in
      String (base64_digit (x / 4))
        (String (base64_digit ((x mod 4) * 16 + y / 16))
           (String (base64_digit ((y mod 16) * 4 + z / 64))
              (String (base64_digit (z mod 64)) (base64 rest))))
  end.

(** The two content items of a successful answer. *)
Definition image_content (base64Image : string) : value :=
  VArr [VObj [("type", VStr "text");
              ("text", VStr ("Chart generated successfully. Image data (base64): "
                             ++ String.substring 0 100 base64Image ++ "..."))];
        VObj [("type", VStr "image");
              ("data", VStr base64Image);
              ("mimeType", VStr "image/png")]].

(** The body of the [try] of the [download_chart] branch on
    [request.params.arguments] as the caller sent them: the destructuring,
    which throws on [undefined] and [null] and whose [outputPath] is not
    used; the same normalisation and validation; then the build, the fetch
    and the encoding; an error of the fetch is thrown again as it is. *)
Definition download_chart_body (sys : Sys) (env : Env) (arguments : value) : IO value :=
  if is_nullish arguments then io_lift (JsErr (destructure_error sys arguments))
  else
    let config := get_prop arguments "config" in
    if falsy config || negb (typeof_object config) then
      io_lift (McpErr InvalidParams "Config must be a valid chart configuration object")
    else
      let n := normalizedConfig config in
      if falsy (get_prop n "type") || falsy (get_prop n "datasets") then
        io_lift (McpErr InvalidParams
          "Config must include type and datasets properties (either at root level or inside data object)")
      else
        emit EvBuild ~;;
        chartConfig <~ io_lift (StdioVariant.generateChartConfig n) ;;
        let url := StdioVariant.generateChartUrl env chartConfig in
        emit (EvFetch url) ~;;
        match axios_get sys url with
        | IoFail code message => io_lift (JsErr message)
        | IoOk data => io_ret (image_content (base64 data))
        end.

Definition download_chart (sys : Sys) (env : Env) (arguments : value)
  : result value * list event :=
  match download_chart_body sys env arguments [] with
  | (JsErr m, t) =>
      (McpErr InternalError ("Failed to download chart: " ++ message_or_unknown m), t)
  | r => r
  end.

End HttpVariant.

(* ------------------------------------------------------------------ *)
(** ** A concrete system for examples *)

Module Posix.

(** The text before the last slash, scanning with the text read so far
    and the text up to the last slash seen. *)
Fixpoint dirname_scan (s : string) (seen upto : string) : string :=
  match s with
  | EmptyString => upto
  | String c r =>
      if Ascii.eqb c "/" then dirname_scan r (seen ++ "/") seen
      else dirname_scan r (seen ++ String c EmptyString) upto
  end.

Definition has_slash (s : string) : bool := mem_ascii "/" s.

Definition dirname (p : string) : string :=
  if negb (has_slash p) then "."
  else let d := dirname_scan p "" "" in
       if String.eqb d "" then "/" else d.

Definition join2 (a b : string) : string := a ++ "/" ++ b.

(** How the message of [path.dirname] names what it received. *)
Definition received (v : value) : string :=
  match v with
  | VUndefined => "undefined"
  | VNull => "null"
  | VBool true => "type boolean (true)"
  | VBool false => "type boolean (false)"
  | VNum n => "type number (" ++ Z_to_string n ++ ")"
  | VStr s => "type string ('" ++ s ++ "')"
  | VArr _ => "an instance of Array"
  | VObj _ => "an instance of Object"
  | VFun _ => "function "
  end.

Definition type_error (v : value) : string :=
  "The " ++ dquote ++ "path" ++ dquote
    ++ " argument must be of type string. Received " ++ received v.

Definition destructure_message (v : value) : string :=
  "Cannot destructure property 'config' of 'request.params.arguments' as it is "
    ++ match v with VNull => "null" | _ => "undefined" end ++ ".".

(** A machine whose home is [/home/u]; [writable] lists the directories
    that pass the access check; every fetch returns the bytes [PNG] and
    every write succeeds. *)
Definition sys (writable : list string) : Sys := {|
  homedir := "/home/u";
  path_join := join2;
  path_dirname := dirname;
  path_type_error := type_error;
  destructure_error := destructure_message;
  access_W_OK := fun p => existsb (String.eqb p) writable;
  now_iso := "2024-05-06T07:08:09.123Z";
  axios_get := fun _ => IoOk "PNG";
  writeFile := fun _ _ => IoOk tt
|}.

End Posix.

(* ------------------------------------------------------------------ *)
(** ** The decoding side of a test harness *)

Module Harness.

Definition hex_val (c : ascii) : option nat :=
  let n := nat_of_ascii c in
  if in_range 48 57 c then Some (n - 48)
  else if in_range 65 70 c then Some (n - 55)
  else if in_range 97 102 c then Some (n - 87)
  else None.

(** [decodeURIComponent] on bytes; [None] is the [URIError] of a
    malformed escape. *)
Fixpoint decodeURIComponent (s : string) : option string :=
  match s with
  | EmptyString => Some EmptyString
  | String c r =>
      if Ascii.eqb c "%" then
        match r with
        | String h (String l r') =>
            match hex_val h, hex_val l, decodeURIComponent r' with
            | Some a, Some b, Some d => Some (String (ascii_of_nat (16 * a + b)) d)
            | _, _, _ => None
            end
        | _ => None
        end
      else option_map (String c) (decodeURIComponent r)
  end.

Fixpoint strip_prefix (p s : string) : option string :=
  match p, s with
  | EmptyString, _ => Some s
  | String a p', String b s' => if Ascii.eqb a b then strip_prefix p' s' else None
  | _, _ => None
  end.

Definition is_ws (c : ascii) : bool :=
  let n := nat_of_ascii c in
  Nat.eqb n 32 || Nat.eqb n 9 || Nat.eqb n 10 || Nat.eqb n 13.

Fixpoint skip_ws (s : string) : string :=
  match s with
  | String c r => if is_ws c then skip_ws r else s
  | EmptyString => EmptyString
  end.

Definition is_digit (c : ascii) : bool := in_range 48 57 c.

Fixpoint span_digits (s : string) : string * string :=
  match s with
  | String c r =>
      if is_digit c then let (d, rest) := span_digits r in (String c d, rest)
      else (EmptyString, s)
  | EmptyString => (EmptyString, EmptyString)
  end.

(** An optional minus sign and the digits after it. *)
Definition span_number (s : string) : string * string :=
  match s with
  | String c r =>
      if Ascii.eqb c "-" then let (d, rest) := span_digits r in (String c d, rest)
      else span_digits s
  | EmptyString => (EmptyString, EmptyString)
  end.

(** What follows the digits is a fraction or an exponent. *)
Definition starts_fraction (s : string) : bool :=
  match s with
  | String e _ => Ascii.eqb e "." || Ascii.eqb e "e" || Ascii.eqb e "E"
  | EmptyString => false
  end.

(** An integer literal in canonical form (no leading zero, no negative
    zero); a fraction or an exponent is outside the model. *)
Definition parse_number (s : string) : option (Z * string) :=
  let (lit, rest) := span_number s in
  match NilZero.int_of_string lit with
  | Some i =>
      let z := Z.of_int i in
      if String.eqb (Z_to_string z) lit && negb (starts_fraction rest)
      then Some (z, rest) else None
  | None => None
  end.

Definition unescape (e : ascii) : option ascii :=
  let n := nat_of_ascii e in
  if Nat.eqb n 34 then Some e
  else if Nat.eqb n 92 then Some e
  else if Ascii.eqb e "/" then Some e
  else if Ascii.eqb e "b" then Some (ascii_of_nat 8)
  else if Ascii.eqb e "f" then Some (ascii_of_nat 12)
  else if Ascii.eqb e "n" then Some (ascii_of_nat 10)
  else if Ascii.eqb e "r" then Some (ascii_of_nat 13)
  else if Ascii.eqb e "t" then Some (ascii_of_nat 9)
  else None.

(** The rest of a string literal after its opening quote. *)
Fixpoint parse_chars (s : string) : option (string * string) :=
  match s with
  | EmptyString => None
  | String c r =>
      let n := nat_of_ascii c in
      if Nat.eqb n 34 then Some (EmptyString, r)
      else if Nat.eqb n 92 then
        match r with
        | String e r' =>
            if Ascii.eqb e "u" then
              match r' with
              | String h1 (String h2 (String h3 (String h4 r''))) =>
                  match hex_val h1, hex_val h2, hex_val h3, hex_val h4,
                        parse_chars r'' with
                  | Some 0, Some 0, Some a, Some b, Some (t, rest) =>
                      Some (String (ascii_of_nat (16 * a + b)) t, rest)
                  | _, _, _, _, _ => None
                  end
              | _ => None
              end
            else
              match unescape e, parse_chars r' with
              | Some x, Some (t, rest) => Some (String x t, rest)
              | _, _ => None
              end
        | EmptyString => None
        end
      else if Nat.ltb n 32 then None
      else
        match parse_chars r with
        | Some (t, rest) => Some (String c t, rest)
        | None => None
        end
  end.

Fixpoint parse_value (fuel : nat) (s : string) : option (value * string) :=
  match fuel with
  | O => None
  | S f =>
      match skip_ws s with
      | EmptyString => None
      | String c r as t =>
          let n := nat_of_ascii c in
          if Nat.eqb n 34 then
            match parse_chars r with
            | Some (x, rest) => Some (VStr x, rest)
            | None => None
            end
          else if Ascii.eqb c "[" then
            match skip_ws r with
            | String d r' =>
                if Ascii.eqb d "]" then Some (VArr [], r')
                else match parse_elements f r with
                     | Some (xs, rest) => Some (VArr xs, rest)
                     | None => None
                     end
            | EmptyString => None
            end
          else if Ascii.eqb c "{" then
            match skip_ws r with
            | String d r' =>
                if Ascii.eqb d "}" then Some (VObj [], r')
                else match parse_members f r with
                     | Some (fs, rest) => Some (VObj (obj_spread [] fs), rest)
                     | None => None
                     end
            | EmptyString => None
            end
          else
            match strip_prefix "null" t, strip_prefix "true" t,
                  strip_prefix "false" t with
            | Some rest, _, _ => Some (VNull, rest)
            | _, Some rest, _ => Some (VBool true, rest)
            | _, _, Some rest => Some (VBool false, rest)
            | None, None, None =>
                match parse_number t with
                | Some (z, rest) => Some (VNum z, rest)
                | None => None
                end
            end
      end
  end
with parse_elements (fuel : nat) (s : string) : option (list value * string) :=
  match fuel with
  | O => None
  | S f =>
      match parse_value f s with
      | Some (v, rest) =>
          match skip_ws rest with
          | String d r =>
              if Ascii.eqb d "]" then Some ([v], r)
              else if Ascii.eqb d "," then
                match parse_elements f r with
                | Some (vs, rest') => Some (v :: vs, rest')
                | None => None
                end
              else None
          | EmptyString => None
          end
      | None => None
      end
  end
with parse_members (fuel : nat) (s : string) : option (props * string) :=
  match fuel with
  | O => None
  | S f =>
      match skip_ws s with
      | String q r =>
          if Nat.eqb (nat_of_ascii q) 34 then
            match parse_chars r with
            | Some (k, rest) =>
                match skip_ws rest with
                | String colon r1 =>
                    if Ascii.eqb colon ":" then
                      match parse_value f r1 with
                      | Some (v, rest1) =>
                          match skip_ws rest1 with
                          | String d r2 =>
                              if Ascii.eqb d "}" then Some ([(k, v)], r2)
                              else if Ascii.eqb d "," then
                                match parse_members f r2 with
                                | Some (fs, rest2) => Some ((k, v) :: fs, rest2)
                                | None => None
                                end
                              else None
                          | EmptyString => None
                          end
                      | None => None
                      end
                    else None
                | EmptyString => None
                end
            | None => None
            end
          else None
      | EmptyString => None
      end
  end.

(** [JSON.parse]; [None] is a [SyntaxError]. *)
Definition JSON_parse (s : string) : option value :=
  match parse_value (2 * String.length s + 2) s with
  | Some (v, rest) => if String.eqb (skip_ws rest) "" then Some v else None
  | None => None
  end.

(** Percent-decoding and parsing the [c=] parameter of a chart URL. *)
Definition decode_chart_url (env : Env) (url : string) : option value :=
  match strip_prefix (QUICKCHART_BASE_URL env ++ "?c=") url with
  | Some q =>
      match decodeURIComponent q with
      | Some j => JSON_parse j
      | None => None
      end
  | None => None
  end.

(** The structure [JSON.stringify] can carry: properties holding
    [undefined] or a function are dropped, such array elements are
    [null]. *)
Fixpoint json_image (v : value) : value :=
  match v with
  | VArr xs =>
      VArr (map (fun x => match x with
                          | VUndefined | VFun _ => VNull
                          | _ => json_image x
                          end) xs)
  | VObj fs =>
      VObj (flat_map (fun kv => match snd kv with
                                | VUndefined | VFun _ => []
                                | _ => [(fst kv, json_image (snd kv))]
                                end) fs)
  | _ => v
  end.

(** The same structure up to properties that hold [undefined], which a
    deep comparison treats as absent. Functions are kept. *)
Fixpoint drop_undefined (v : value) : value :=
  match v with
  | VArr xs => VArr (map drop_undefined xs)
  | VObj fs =>
      VObj (flat_map (fun kv => match snd kv with
                                | VUndefined => []
                                | _ => [(fst kv, drop_undefined (snd kv))]
                                end) fs)
  | _ => v
  end.

End Harness.

(* ------------------------------------------------------------------ *)
(** ** Vocabulary of the statements *)

Definition has_data (dataset : value) : Prop :=
  truthy dataset = true /\ truthy (get_prop dataset "data") = true.

Definition is_gauge (type : value) : bool :=
  strict_eq_str type "radialGauge" || strict_eq_str type "speedometer".

Definition is_point_chart (type : value) : bool :=
  strict_eq_str type "scatter" || strict_eq_str type "bubble".

Definition is_placeholder_type (type : value) : bool :=
  strict_eq_str type "graphviz" || strict_eq_str type "wordcloud".

Definition is_object (v : value) : bool :=
  match v with VObj _ => true | _ => false end.

(** The output path as the declared type has it: the string of the caller,
    or none. *)
Definition path_argument (outputPath : value) : option string :=
  match outputPath with VStr p => Some p | _ => None end.

(** An output path outside the declared type that the branch goes on with:
    a truthy value that is not a string. *)
Definition ill_typed_path (outputPath : value) : bool :=
  truthy outputPath && negb (is_string outputPath).

(** [msg] contains [name]. *)
Definition mentions (msg name : string) : bool :=
  match String.index 0 name msg with Some _ => true | None => false end.

(** Following the specification: the optional word-cloud parameters in their
    fixed order, each with the name of the argument and the name of the
    query parameter. *)
Definition wordcloud_optional : list (string * string) :=
  [("wordcloudFormat", "format"); ("width", "width"); ("height", "height");
   ("backgroundColor", "backgroundColor"); ("fontFamily", "fontFamily");
   ("fontWeight", "fontWeight"); ("loadGoogleFonts", "loadGoogleFonts");
   ("fontScale", "fontScale"); ("scale", "scale"); ("padding", "padding");
   ("rotation", "rotation"); ("maxNumWords", "maxNumWords");
   ("minWordLength", "minWordLength"); ("case", "case"); ("colors", "colors");
   ("removeStopwords", "removeStopwords"); ("cleanWords", "cleanWords");
   ("language", "language"); ("useWordList", "useWordList")].

(** Following the specification: [colors] is serialised as a JSON array
    string, every other value is coerced to its string form. *)
Definition param_text (key : string) (v : value) : string :=
  if String.eqb key "colors" then text_of (JSON_stringify_value v)
  else match to_string v with Some s => s | None => "" end.

(** Following the specification: a parameter is in the query string exactly
    when the raw arguments have it. *)
Definition present_param (args : value) (kn : string * string) : URLSearchParams :=
  match get_prop args (fst kn) with
  | VUndefined => []
  | v => [(snd kn, param_text (fst kn) v)]
  end.

Definition present_params (args : value) : URLSearchParams :=
  flat_map (present_param args) wordcloud_optional.

(** The three flags tested with [!== undefined]. *)
Definition is_flag (key : string) : bool :=
  existsb (String.eqb key) ["removeStopwords"; "cleanWords"; "useWordList"].

Definition is_scalar (v : value) : bool :=
  match v with VStr _ | VNum _ | VBool _ => true | _ => false end.

(** The values a caller sets: [colors] is an array; every other parameter is
    a string, a number or a boolean, and truthy unless it is a flag. *)
Definition param_ok (key : string) (v : value) : bool :=
  match v with
  | VUndefined => true
  | _ => if String.eqb key "colors" then is_array v
         else is_scalar v && (is_flag key || truthy v)
  end.

Definition params_ok (args : value) : bool :=
  forallb (fun kn => param_ok (fst kn) (get_prop args (fst kn))) wordcloud_optional.

(** The builder reads five fields of its argument and nothing else. *)
Definition same_fields (a b : props) : Prop :=
  forall k, In k ["type"; "datasets"; "labels"; "title"; "options"] ->
            get_prop (VObj a) k = get_prop (VObj b) k.

(** Following the specification: the nested value may be lifted when [data]
    is an object that holds a truthy value under the key. *)
Definition nested_available (config : value) (k : string) : bool :=
  let data := get_prop config "data" in
  truthy data && typeof_object data && truthy (get_prop data k).

(** The nested form of a flat configuration: [datasets] moves under a new
    [data] field. *)
Definition nest_datasets (flat : props) : value :=
  VObj (obj_set (obj_remove flat "datasets") "data"
          (VObj [("datasets", get_prop (VObj flat) "datasets")])).

Definition formatter_of (config : value) : value :=
  get_prop (get_prop (get_prop (get_prop config "options") "plugins") "datalabels")
    "formatter".

(* ------------------------------------------------------------------ *)
(** ** JSON text and its reading *)

Definition starts_digit (s : string) : bool :=
  match s with String c _ => Harness.is_digit c | EmptyString => false end.

Definition printable (v : value) : bool :=
  match v with VUndefined | VFun _ => false | _ => true end.

(** The text of a value inside an array. *)
Definition print (v : value) : string :=
  match JSON_stringify v with Some s => s | None => "null" end.

(** What is read back from [print v]. *)
Definition image (v : value) : value :=
  match v with VUndefined | VFun _ => VNull | _ => Harness.json_image v end.

Definition ends_value (rest : string) : bool :=
  match rest with
  | EmptyString => true
  | String c _ => Ascii.eqb c "," || Ascii.eqb c "]" || Ascii.eqb c "}"
  end.

(** The fuel the parser needs to read [print v] back. *)
Fixpoint need (v : value) : nat :=
  match v with
  | VArr xs =>
      S ((fix go (l : list value) : nat :=
            match l with
            | [] => 0
            | x :: r => S (Nat.max (need x) (go r))
            end) xs)
  | VObj fs =>
      S ((fix go (l : props) : nat :=
            match l with
            | [] => 0
            | kv :: r =>
                if printable (snd kv) then S (Nat.max (need (snd kv)) (go r))
                else go r
            end) fs)
  | _ => 1
  end.

Definition need_elements (xs : list value) : nat :=
  fold_right (fun x n => S (Nat.max (need x) n)) 0 xs.

Definition need_members (fs : props) : nat :=
  fold_right (fun kv n => S (Nat.max (need (snd kv)) n)) 0 fs.

Definition members (fs : props) : props :=
  filter (fun kv => printable (snd kv)) fs.

Definition print_member (kv : string * value) : string :=
  json_quote (fst kv) ++ ":" ++ print (snd kv).

Definition image_member (kv : string * value) : string * value :=
  (fst kv, image (snd kv)).

(** The first character of a number. *)
Definition number_start (c : ascii) : bool := Harness.is_digit c || Ascii.eqb c "-".

(** The first character of a printed value. *)
Definition value_start (c : ascii) : bool :=
  number_start c || Nat.eqb (nat_of_ascii c) 34 || Ascii.eqb c "[" || Ascii.eqb c "{"
  || Ascii.eqb c "n" || Ascii.eqb c "t" || Ascii.eqb c "f".

(** A value is read back from its text by a parser with enough fuel. *)
Definition reads_back (v : value) : Prop :=
  forall fuel rest,
    need v <= fuel -> ends_value rest = true ->
    Harness.parse_value fuel (print v ++ rest) = Some (image v, rest).

(** A value JSON can carry up to properties holding [undefined]: no
    function anywhere, and no [undefined] as an array element. *)
Fixpoint carried (v : value) : Prop :=
  match v with
  | VFun _ => False
  | VArr xs =>
      (fix all (l : list value) : Prop :=
         match l with
         | [] => True
         | x :: r => (x <> VUndefined /\ carried x) /\ all r
         end) xs
  | VObj fs =>
      (fix all (l : props) : Prop :=
         match l with [] => True | kv :: r => carried (snd kv) /\ all r end) fs
  | _ => True
  end.

(** A value parsed from JSON text: no [undefined] and no function. *)
Fixpoint json_input (v : value) : Prop :=
  match v with
  | VUndefined | VFun _ => False
  | VArr xs =>
      (fix all (l : list value) : Prop :=
         match l with [] => True | x :: r => json_input x /\ all r end) xs
  | VObj fs =>
      (fix all (l : props) : Prop :=
         match l with [] => True | kv :: r => json_input (snd kv) /\ all r end) fs
  | _ => True
  end.

Definition values_sat (P : value -> Prop) (fs : props) : Prop :=
  Forall (fun kv => P (snd kv)) fs.

(* ------------------------------------------------------------------ *)
(** ** Example inputs *)

(** Example requests. *)
Definition typo_example : value := VObj [("type", VStr "barr")].

Definition empty_type_example : value := VObj [("type", VStr "")].

Definition gauge_example : value :=
  VObj [("type", VStr "radialGauge");
        ("datasets", VArr [VObj [("data", VArr [VNum 50])]])].

Definition gauge_zero_example : value :=
  VObj [("type", VStr "speedometer");
        ("datasets", VArr [VObj [("data", VArr [VNum 0])]])].

Definition gauge_broken_second_example : value :=
  VObj [("type", VStr "radialGauge");
        ("datasets", VArr [VObj [("data", VArr [VNum 5])];
                           VObj [("label", VStr "x")]])].

Definition scatter_example : value :=
  VObj [("type", VStr "scatter");
        ("datasets", VArr [VObj [("data", VArr [VArr [VNum 1; VNum 2]])]])].

Definition scatter_bare_example : value :=
  VObj [("type", VStr "bubble");
        ("datasets", VArr [VObj [("data", VArr [VArr [VNum 1; VNum 2; VNum 3]])];
                           VObj [("data", VArr [VNum 7])]])].

Definition bar_override_example : value :=
  VObj [("type", VStr "bar");
        ("datasets",
         VArr [VObj [("label", VStr "sales"); ("data", VArr [VNum 1; VNum 2]);
                     ("borderColor", VStr "red");
                     ("additionalConfig",
                      VObj [("label", VStr "override"); ("fill", VBool false)])]])].

Definition wc_example : value :=
  VObj [("type", VStr "wordcloud"); ("text", VStr "a b c"); ("maxNumWords", VNum 5)].

Definition graph_example : value :=
  VObj [("type", VStr "graphviz"); ("dot", VStr "digraph G { A -> B; }")].

(** Example configurations for [download_chart]. *)
Definition flat_example : props :=
  [("type", VStr "bar"); ("labels", VArr [VStr "a"; VStr "b"]);
   ("datasets", VArr [VObj [("data", VArr [VNum 1; VNum 2])]])].

Definition nested_example : props :=
  [("type", VStr "bar"); ("labels", VArr [VStr "a"; VStr "b"]);
   ("data", VObj [("datasets", VArr [VObj [("data", VArr [VNum 1; VNum 2])]])])].

Definition conflicting_type_example : props :=
  [("type", VStr "");
   ("data", VObj [("type", VStr "bar");
                  ("datasets", VArr [VObj [("data", VArr [VNum 1])]])])].

Definition unknown_type_example : value :=
  VObj [("type", VStr "foo"); ("datasets", VArr [])].

Definition graph_download_example : value :=
  VObj [("type", VStr "graphviz"); ("dot", VStr "digraph G { A -> B; }");
        ("datasets", VArr [])].

(** The same configuration in a request with an output path, and in a
    request whose output path is a number. *)
Definition graph_download_request : value :=
  VObj [("config", graph_download_example); ("outputPath", VStr "/tmp/g.png")].

Definition graph_download_numeric_path : value :=
  VObj [("config", graph_download_example); ("outputPath", VNum 42)].

(** The configuration built for [gauge_example]. *)
Definition gauge_config : value :=
  VObj [("type", VStr "radialGauge");
        ("data",
         VObj [("labels", VArr []);
               ("datasets",
                VArr [VObj [("label", VStr ""); ("data", VArr [VNum 50]);
                            ("backgroundColor", VUndefined);
                            ("borderColor", VUndefined)]])]);
        ("options",
         VObj [("plugins",
                VObj [("datalabels",
                       VObj [("display", VBool true);
                             ("formatter", VFun FormatterIdentity)])])])].

Definition gauge_url : string :=
  "https://quickchart.io/chart?c=%7B%22type%22%3A%22radialGauge%22%2C%22data%22%3A%7B%22labels%22%3A%5B%5D%2C%22datasets%22%3A%5B%7B%22label%22%3A%22%22%2C%22data%22%3A%5B50%5D%7D%5D%7D%2C%22options%22%3A%7B%22plugins%22%3A%7B%22datalabels%22%3A%7B%22display%22%3Atrue%7D%7D%7D%7D".

(** What a harness reads back from [gauge_url]. *)
Definition gauge_decoded : value :=
  VObj [("type", VStr "radialGauge");
        ("data",
         VObj [("labels", VArr []);
               ("datasets",
                VArr [VObj [("label", VStr ""); ("data", VArr [VNum 50])]])]);
        ("options",
         VObj [("plugins",
                VObj [("datalabels", VObj [("display", VBool true)])])])].

(* ------------------------------------------------------------------ *)
(** ** Vocabulary of the further properties *)

(** One of the ten types that are drawn from datasets. *)
Definition is_chart_type (type : value) : bool :=
  includes StdioVariant.validTypes type.

(** One of the six types the builder has no check of its own for. *)
Definition is_plain_type (type : value) : bool :=
  includes ["bar"; "line"; "pie"; "doughnut"; "radar"; "polarArea"] type.

(** A dataset the callback of [datasets.map] throws on. *)
Definition lacks_data (dataset : value) : Prop :=
  falsy dataset = true \/ falsy (get_prop dataset "data") = true.

(** The options of the caller as the spread sees them: the own properties
    of [options], of the empty object when there is none. *)
Definition caller_options (args : value) : props :=
  own_props (match get_prop args "options" with VUndefined => VObj [] | o => o end).

(** The [title] block the builder writes into the options. *)
Definition title_block (title : value) : value :=
  VObj [("display", VBool true); ("text", title)].

Fixpoint string_forallb (p : ascii -> bool) (s : string) : bool :=
  match s with
  | EmptyString => true
  | String c r => p c && string_forallb p r
  end.

(** The characters [encodeURIComponent] can produce. *)
Definition url_safe (c : ascii) : bool := uri_unreserved c || Ascii.eqb c "%".

(** A digit or a dash: the characters of the date and of the time fields of
    an ISO timestamp. *)
Definition is_date_char (c : ascii) : bool := in_range 48 57 c || Ascii.eqb c "-".

(** The two validations of [download_chart], before and after the
    normalisation. *)
Definition passes_validation (config : value) : bool :=
  truthy config && typeof_object config
  && truthy (get_prop (normalizedConfig config) "type")
  && truthy (get_prop (normalizedConfig config) "datasets").

(** The requests that end before the first access check. *)
Definition stops_before_effects (arguments : value) : bool :=
  is_nullish arguments
  || negb (passes_validation (get_prop arguments "config"))
  || ill_typed_path (get_prop arguments "outputPath").

(** A run of [download_chart] that gets as far as the fetch of [url], with
    [outputPath] as the file to write. *)
Definition reaches_fetch (sys : Sys) (env : Env) (config : value)
    (userProvidedPath : option string) (outputPath url : string) : Prop :=
  passes_validation config = true /\
  fst (resolve_outputPath sys (normalizedConfig config) userProvidedPath []) = Ok outputPath /\
  access_W_OK sys (path_dirname sys outputPath) = true /\
  is_placeholder_type (get_prop (normalizedConfig config) "type") = false /\
  generate_chart env (normalizedConfig config) = Ok url.

(** The events of such a run up to the build. *)
Definition events_before_fetch (sys : Sys) (config : value)
    (userProvidedPath : option string) (outputPath : string) : list event :=
  (snd (resolve_outputPath sys (normalizedConfig config) userProvidedPath [])
   ++ [EvAccess (path_dirname sys outputPath); EvBuild])%list.

(** The fetch or the write fails with [code] and [message]. *)
Definition transfer_fails (sys : Sys) (url outputPath code message : string) : Prop :=
  axios_get sys url = IoFail code message \/
  exists data, axios_get sys url = IoOk data /\
               writeFile sys outputPath data = IoFail code message.

(** A step of the word-cloud query keeps the parameters it is given and
    adds to them, or throws the [TypeError] of a failed coercion. *)
Definition extends_or_throws (f : URLSearchParams -> result URLSearchParams) : Prop :=
  forall params,
    (exists extra, f params = Ok (params ++ extra)%list) \/
    f params = JsErr "Cannot convert object to primitive value".

(** The next [match] or [if] of the goal whose subject is not itself a
    case analysis. *)
Ltac break_match :=
  match goal with
  | |- context [match ?x with _ => _ end] =>
      lazymatch x with
      | context [match _ with _ => _ end] => fail
      | _ => destruct x eqn:?
      end
  | |- context [if ?x then _ else _] =>
      lazymatch x with
      | context [if _ then _ else _] => fail
      | context [match _ with _ => _ end] => fail
      | _ => destruct x eqn:?
      end
  end.

(* ------------------------------------------------------------------ *)
(** ** Further example inputs *)

Definition gauge_options_example : value :=
  VObj [("type", VStr "radialGauge");
        ("datasets", VArr [VObj [("data", VArr [VNum 42])]]);
        ("title", VStr "Load");
        ("options", VObj [("title", VStr "old"); ("legend", VBool false);
                          ("plugins", VObj [("legend", VBool true)])])].

Definition bar_plain : props :=
  [("type", VStr "bar"); ("datasets", VArr [VObj [("data", VArr [VNum 1; VNum 2])]])].

Definition bar_with_others : props :=
  [("dot", VStr "digraph { a -> b }"); ("type", VStr "bar"); ("width", VNum 300);
   ("datasets", VArr [VObj [("data", VArr [VNum 1; VNum 2])]]);
   ("text", VStr "words")].

Definition line_example : value :=
  VObj [("type", VStr "line");
        ("labels", VArr [VStr "Q1"; VStr "Q2"]);
        ("datasets", VArr [VObj [("label", VStr "sales"); ("data", VArr [VNum 3; VNum (-4)])]]);
        ("title", VStr "Sales")].

(** A machine without network: every fetch is refused. *)
Definition offline_sys : Sys := {|
  homedir := "/home/u";
  path_join := Posix.join2;
  path_dirname := Posix.dirname;
  path_type_error := Posix.type_error;
  destructure_error := Posix.destructure_message;
  access_W_OK := fun p => String.eqb p "/tmp";
  now_iso := "2024-05-06T07:08:09.123Z";
  axios_get := fun _ => IoFail "ECONNREFUSED" "connect ECONNREFUSED";
  writeFile := fun _ _ => IoOk tt
|}.

(** A machine whose disk is mounted read-only. *)
Definition readonly_sys : Sys := {|
  homedir := "/home/u";
  path_join := Posix.join2;
  path_dirname := Posix.dirname;
  path_type_error := Posix.type_error;
  destructure_error := Posix.destructure_message;
  access_W_OK := fun p => String.eqb p "/tmp";
  now_iso := "2024-05-06T07:08:09.123Z";
  axios_get := fun _ => IoOk "PNG";
  writeFile := fun _ _ => IoFail "EROFS" "read-only file system"
|}.

(* ------------------------------------------------------------------ *)
(** * Properties *)

(** ** Objects *)

Lemma obj_get_absent (fs : props) (k : string) :
  ~ In k (map fst fs) -> obj_get fs k = None.
Proof.
  induction fs as [|[k' v] r IH]; simpl; intro H; [reflexivity|].
  destruct (String.eqb_spec k' k) as [->|Hne].
  - exfalso. apply H. now left.
  - apply IH. intro Hin. apply H. now right.
Qed.

Lemma obj_get_set (fs : props) (k k' : string) (v : value) :
  obj_get (obj_set fs k v) k' = if String.eqb k k' then Some v else obj_get fs k'.
Proof.
  induction fs as [|[k0 v0] r IH]; simpl.
  - reflexivity.
  - destruct (String.eqb_spec k0 k) as [->|Hne]; simpl.
    + destruct (String.eqb_spec k k'); reflexivity.
    + rewrite IH.
      destruct (String.eqb_spec k0 k') as [->|Hne'].
      * destruct (String.eqb_spec k k'); [congruence | reflexivity].
      * reflexivity.
Qed.

Lemma obj_get_set_same (fs : props) (k : string) (v : value) :
  obj_get (obj_set fs k v) k = Some v.
Proof. rewrite obj_get_set, String.eqb_refl. reflexivity. Qed.

Lemma obj_get_set_other (fs : props) (k k' : string) (v : value) :
  k <> k' -> obj_get (obj_set fs k v) k' = obj_get fs k'.
Proof.
  intro H. rewrite obj_get_set.
  destruct (String.eqb_spec k k'); [contradiction | reflexivity].
Qed.

(** In a spread the later object wins on every key it has. *)
Lemma obj_get_spread (extra : props) :
  NoDup (map fst extra) ->
  forall (base : props) (k : string),
    obj_get (obj_spread base extra) k =
    match obj_get extra k with
    | Some v => Some v
    | None => obj_get base k
    end.
Proof.
  unfold obj_spread.
  induction extra as [|[k0 v0] r IH]; simpl; intros Hnd base k.
  - reflexivity.
  - inversion Hnd as [|? ? Hnotin Hnd']; subst.
    rewrite (IH Hnd').
    destruct (String.eqb_spec k0 k) as [->|Hne].
    + rewrite (obj_get_absent r k Hnotin). apply obj_get_set_same.
    + rewrite (obj_get_set_other _ _ _ _ Hne). reflexivity.
Qed.

Lemma obj_set_app_fresh (base : props) (k : string) (v : value) :
  ~ In k (map fst base) -> obj_set base k v = (base ++ [(k, v)])%list.
Proof.
  induction base as [|[k0 v0] r IH]; simpl; intro H; [reflexivity|].
  destruct (String.eqb_spec k0 k) as [->|Hne].
  - exfalso. apply H. now left.
  - f_equal. apply IH. intro Hin. apply H. now right.
Qed.

(** Copying a well-formed object yields the same object. *)
Lemma obj_spread_app (extra : props) :
  forall base : props,
    NoDup (map fst base ++ map fst extra)%list ->
    obj_spread base extra = (base ++ extra)%list.
Proof.
  unfold obj_spread.
  induction extra as [|[k0 v0] r IH]; simpl; intros base Hnd.
  - now rewrite app_nil_r.
  - rewrite obj_set_app_fresh.
    + rewrite IH.
      * now rewrite <- app_assoc.
      * rewrite map_app. simpl. rewrite <- app_assoc. exact Hnd.
    + apply NoDup_remove_2 in Hnd. intro Hin. apply Hnd.
      apply in_or_app. now left.
Qed.

Lemma obj_spread_nil (fs : props) :
  NoDup (map fst fs) -> obj_spread [] fs = fs.
Proof. intro H. now rewrite obj_spread_app. Qed.

Lemma obj_get_remove_other (fs : props) (k k' : string) :
  k <> k' -> obj_get (obj_remove fs k) k' = obj_get fs k'.
Proof.
  intro Hne. induction fs as [|[k0 v0] r IH]; simpl; [reflexivity|].
  destruct (String.eqb_spec k0 k) as [->|H0]; simpl.
  - rewrite IH. destruct (String.eqb_spec k k'); [contradiction | reflexivity].
  - rewrite IH. reflexivity.
Qed.

Lemma obj_get_remove_same (fs : props) (k : string) :
  obj_get (obj_remove fs k) k = None.
Proof.
  induction fs as [|[k0 v0] r IH]; simpl; [reflexivity|].
  destruct (String.eqb_spec k0 k) as [->|H0]; simpl; [exact IH|].
  destruct (String.eqb_spec k0 k); [contradiction | exact IH].
Qed.

Lemma in_keys_remove (fs : props) (k k' : string) :
  In k' (map fst (obj_remove fs k)) -> In k' (map fst fs).
Proof.
  induction fs as [|[k0 v0] r IH]; simpl; [tauto|].
  destruct (String.eqb k0 k); simpl; intuition.
Qed.

Lemma NoDup_obj_remove (fs : props) (k : string) :
  NoDup (map fst fs) -> NoDup (map fst (obj_remove fs k)).
Proof.
  induction fs as [|[k0 v0] r IH]; simpl; intro H; [constructor|].
  inversion H as [|? ? Hnotin Hnd]; subst.
  destruct (String.eqb k0 k); simpl; [auto|].
  constructor; [|auto]. intro Hin. apply Hnotin. eapply in_keys_remove; eauto.
Qed.

Lemma in_keys_set (fs : props) (k k' : string) (v : value) :
  In k' (map fst (obj_set fs k v)) -> k' = k \/ In k' (map fst fs).
Proof.
  induction fs as [|[k0 v0] r IH]; simpl.
  - intuition.
  - destruct (String.eqb_spec k0 k) as [->|Hne]; simpl; intuition.
Qed.

Lemma NoDup_obj_set (fs : props) (k : string) (v : value) :
  NoDup (map fst fs) -> NoDup (map fst (obj_set fs k v)).
Proof.
  induction fs as [|[k0 v0] r IH]; simpl; intro H.
  - constructor; [intros []|constructor].
  - inversion H as [|? ? Hnotin Hnd]; subst.
    destruct (String.eqb_spec k0 k) as [->|Hne]; simpl.
    + constructor; assumption.
    + constructor; [|auto]. intro Hin.
      destruct (in_keys_set _ _ _ _ Hin) as [->|Hin']; [congruence | contradiction].
Qed.

Lemma NoDup_obj_spread (extra base : props) :
  NoDup (map fst base) -> NoDup (map fst (obj_spread base extra)).
Proof.
  unfold obj_spread. revert base.
  induction extra as [|[k v] r IH]; intros base Hb; simpl; [exact Hb|].
  apply IH. now apply NoDup_obj_set.
Qed.

(** ** Values and the error monad *)

Lemma mapM_nth_error {A B : Type} (f : A -> result B) (l : list A) :
  forall (l' : list B) (i : nat) (x : A),
    mapM f l = Ok l' -> nth_error l i = Some x ->
    exists y, nth_error l' i = Some y /\ f x = Ok y.
Proof.
  induction l as [|a r IH]; intros l' i x Hm Hn.
  - destruct i; discriminate.
  - simpl in Hm. destruct (f a) as [y| |] eqn:Hfa; simpl in Hm; try discriminate.
    destruct (mapM f r) as [ys| |] eqn:Hr; simpl in Hm; try discriminate.
    inversion Hm; subst. destruct i as [|i]; simpl in *.
    + inversion Hn; subst. eauto.
    + eapply IH; eauto.
Qed.

Lemma truthy_is_array (v : value) : is_array v = true -> truthy v = true.
Proof. destruct v; simpl; congruence. Qed.

Lemma truthy_get_prop_obj (v : value) (k : string) :
  get_prop v k <> VUndefined -> exists fs, v = VObj fs.
Proof. destruct v; simpl; try congruence. eauto. Qed.

Lemma strict_eq_str_true (v : value) (lit : string) :
  strict_eq_str v lit = true -> v = VStr lit.
Proof.
  destruct v; simpl; try discriminate.
  intro H. apply String.eqb_eq in H. now subst.
Qed.

Lemma is_gauge_cases (v : value) :
  is_gauge v = true -> v = VStr "radialGauge" \/ v = VStr "speedometer".
Proof.
  unfold is_gauge. intro H. apply orb_true_iff in H.
  destruct H as [H|H]; apply strict_eq_str_true in H; auto.
Qed.

Lemma is_point_chart_cases (v : value) :
  is_point_chart v = true -> v = VStr "scatter" \/ v = VStr "bubble".
Proof.
  unfold is_point_chart. intro H. apply orb_true_iff in H.
  destruct H as [H|H]; apply strict_eq_str_true in H; auto.
Qed.

Lemma falsy_nonempty (t : string) : t <> "" -> falsy (VStr t) = false.
Proof.
  intro H. unfold falsy. simpl.
  destruct (String.eqb_spec t ""); [contradiction | reflexivity].
Qed.

(** ** The builder, case by case *)

Lemma normalize_dataset_cases (d : value) :
  (exists nd, normalize_dataset d = Ok nd) \/
  normalize_dataset d =
    McpErr InvalidParams "Each dataset must have a data property".
Proof.
  unfold normalize_dataset.
  destruct (falsy d || falsy (get_prop d "data")); [now right | left; eauto].
Qed.

(** Shaping the datasets either succeeds or fails with [InvalidParams]. *)
Lemma mapM_normalize_dataset (ds : list value) :
  (exists ds', mapM normalize_dataset ds = Ok ds') \/
  mapM normalize_dataset ds =
    McpErr InvalidParams "Each dataset must have a data property".
Proof.
  induction ds as [|d r IH]; simpl.
  - left. eauto.
  - destruct (normalize_dataset_cases d) as [[nd ->] | ->]; simpl.
    + destruct IH as [[ds' ->] | ->]; simpl; [left; eauto | now right].
    + now right.
Qed.

Lemma mapM_normalize_dataset_ok (ds : list value) :
  Forall has_data ds -> exists ds', mapM normalize_dataset ds = Ok ds'.
Proof.
  induction 1 as [|d r [Hd Hdata] _ [ds' IH]]; simpl.
  - eauto.
  - rewrite IH. unfold normalize_dataset, falsy. rewrite Hd, Hdata. simpl. eauto.
Qed.

Lemma generateChartConfig_placeholder (args : value) (ty : string) :
  get_prop args "type" = VStr ty ->
  ty = "graphviz" \/ ty = "wordcloud" ->
  generateChartConfig args = Ok (VObj [("type", VStr ty)]).
Proof.
  intros Hty Hcase.
  destruct (truthy_get_prop_obj args "type") as [fs ->]; [congruence|].
  unfold generateChartConfig.
  change (falsy (VObj fs)) with false. cbv iota.
  rewrite Hty. destruct Hcase as [-> | ->]; reflexivity.
Qed.

Lemma generateChartConfig_datasets (args config : value) :
  generateChartConfig args = Ok config ->
  is_placeholder_type (get_prop args "type") = false ->
  exists ds',
    mapM normalize_dataset (array_elems (get_prop args "datasets")) = Ok ds' /\
    get_prop (get_prop config "data") "datasets" = VArr ds'.
Proof.
  unfold generateChartConfig, is_placeholder_type. intros H Hnp.
  destruct (falsy args); [discriminate|].
  destruct (falsy (get_prop args "type")); [discriminate|].
  destruct (validateChartType (get_prop args "type")); simpl in H; try discriminate.
  rewrite Hnp in H.
  destruct (falsy (get_prop args "datasets") || negb (is_array (get_prop args "datasets")));
    [discriminate|].
  destruct (mapM normalize_dataset (array_elems (get_prop args "datasets"))) as [ds'| |];
    simpl in H; try discriminate.
  exists ds'. split; [reflexivity|].
  destruct (strict_eq_str (get_prop args "type") "radialGauge"
            || strict_eq_str (get_prop args "type") "speedometer").
  - destruct (falsy (first_reading (get_prop args "datasets"))); [discriminate|].
    inversion H; subst. reflexivity.
  - destruct (strict_eq_str (get_prop args "type") "scatter"
              || strict_eq_str (get_prop args "type") "bubble").
    + destruct (forEachM _ _); simpl in H; try discriminate.
      inversion H; subst. reflexivity.
    + inversion H; subst. reflexivity.
Qed.

Lemma generateChartConfig_type (args config : value) :
  generateChartConfig args = Ok config ->
  is_placeholder_type (get_prop args "type") = false ->
  get_prop config "type" = get_prop args "type" /\ is_object config = true.
Proof.
  unfold generateChartConfig, is_placeholder_type. intros H Hnp.
  destruct (falsy args); [discriminate|].
  destruct (falsy (get_prop args "type")); [discriminate|].
  destruct (validateChartType (get_prop args "type")); simpl in H; try discriminate.
  rewrite Hnp in H.
  destruct (falsy (get_prop args "datasets") || negb (is_array (get_prop args "datasets")));
    [discriminate|].
  destruct (mapM normalize_dataset (array_elems (get_prop args "datasets")));
    simpl in H; try discriminate.
  destruct (strict_eq_str (get_prop args "type") "radialGauge"
            || strict_eq_str (get_prop args "type") "speedometer").
  - destruct (falsy (first_reading (get_prop args "datasets"))); [discriminate|].
    inversion H. split; reflexivity.
  - destruct (strict_eq_str (get_prop args "type") "scatter"
              || strict_eq_str (get_prop args "type") "bubble").
    + destruct (forEachM _ _); simpl in H; try discriminate.
      inversion H. split; reflexivity.
    + inversion H. split; reflexivity.
Qed.

Lemma generateChartConfig_ext (a b : props) :
  same_fields a b -> generateChartConfig (VObj a) = generateChartConfig (VObj b).
Proof.
  intro H. unfold generateChartConfig.
  rewrite (H "type"), (H "datasets"), (H "labels"), (H "title"), (H "options");
    simpl; auto 10.
Qed.

(** ** The type check *)

(** C2 (as amended). A request whose [type] is present and not one of the
    twelve chart types fails with [InvalidParams]. When the [type] is truthy
    the message lists the twelve types; a [type] that is present but falsy
    (the empty string, [0], [false], [null]) is stopped by the earlier guard
    with the message [Chart type is required]. *)
Theorem invalid_type_rejected (env : Env) (args : value) :
  get_prop args "type" <> VUndefined ->
  includes ["bar"; "line"; "pie"; "doughnut"; "radar"; "polarArea"; "scatter";
            "bubble"; "radialGauge"; "speedometer"; "graphviz"; "wordcloud"]
           (get_prop args "type") = false ->
  generate_chart env args =
  McpErr InvalidParams
    (if truthy (get_prop args "type")
     then "Invalid chart type. Must be one of: bar, line, pie, doughnut, radar, polarArea, scatter, bubble, radialGauge, speedometer, graphviz, wordcloud"
     else "Chart type is required").
Proof.
  intros Hpresent Hnot.
  destruct (truthy_get_prop_obj _ _ Hpresent) as [fs ->].
  unfold generate_chart, generateChartConfig.
  change (falsy (VObj fs)) with false. cbv iota.
  unfold falsy. destruct (truthy (get_prop (VObj fs) "type")); simpl negb; cbv iota.
  - unfold validateChartType. change validTypes with ["bar"; "line"; "pie"; "doughnut"; "radar"; "polarArea"; "scatter";
            "bubble"; "radialGauge"; "speedometer"; "graphviz"; "wordcloud"].
    rewrite Hnot. reflexivity.
  - reflexivity.
Qed.

(** C2, witness: a misspelt type and an empty type. *)
Lemma invalid_type_rejected_witness :
  generate_chart default_env typo_example =
  McpErr InvalidParams
    "Invalid chart type. Must be one of: bar, line, pie, doughnut, radar, polarArea, scatter, bubble, radialGauge, speedometer, graphviz, wordcloud"
  /\ generate_chart default_env empty_type_example =
     McpErr InvalidParams "Chart type is required".
Proof.
  split.
  - apply (invalid_type_rejected default_env typo_example); [discriminate | reflexivity].
  - apply (invalid_type_rejected default_env empty_type_example);
      [discriminate | reflexivity].
Defined.

(** C2, counterexample. The empty string is a [type] that is present and
    not a chart type, and the message names no chart type at all. *)
Lemma empty_type_message_lists_nothing :
  get_prop empty_type_example "type" <> VUndefined /\
  includes validTypes (get_prop empty_type_example "type") = false /\
  generate_chart default_env empty_type_example =
    McpErr InvalidParams "Chart type is required" /\
  existsb (mentions "Chart type is required") validTypes = false.
Proof. repeat split; try reflexivity. discriminate. Qed.

(** In the variant the two later types are rejected, and the message lists
    ten types. *)
Lemma stdio_variant_rejects_graphviz :
  StdioVariant.validateChartType (VStr "graphviz") =
  McpErr InvalidParams
    "Invalid chart type. Must be one of: bar, line, pie, doughnut, radar, polarArea, scatter, bubble, radialGauge, speedometer".
Proof. reflexivity. Qed.

(** ** Gauge charts *)

(** C3 (as amended). For [radialGauge] and [speedometer], the build fails
    with [InvalidParams] whenever the first data element of the first
    dataset is falsy or absent. When it is truthy and every dataset carries
    a truthy [data], the build succeeds and the [plugins] entry of the
    options is the fixed datalabels block. *)
Theorem gauge_first_reading (args : value) :
  is_gauge (get_prop args "type") = true ->
  (falsy (first_reading (get_prop args "datasets")) = true ->
   fails_with (generateChartConfig args) InvalidParams) /\
  (forall ds,
      get_prop args "datasets" = VArr ds ->
      Forall has_data ds ->
      truthy (first_reading (VArr ds)) = true ->
      exists config,
        generateChartConfig args = Ok config /\
        get_prop (get_prop config "options") "plugins" = gauge_plugins).
Proof.
  intro Hg.
  assert (Hobj : exists fs, args = VObj fs).
  { apply (truthy_get_prop_obj args "type").
    destruct (is_gauge_cases _ Hg) as [-> | ->]; discriminate. }
  destruct Hobj as [fs ->].
  unfold generateChartConfig.
  change (falsy (VObj fs)) with false. cbv iota.
  set (type := get_prop (VObj fs) "type") in *.
  set (datasets := get_prop (VObj fs) "datasets") in *.
  assert (Hty : falsy type = false /\ validateChartType type = Ok tt /\
                (strict_eq_str type "graphviz" || strict_eq_str type "wordcloud") = false /\
                (strict_eq_str type "radialGauge" || strict_eq_str type "speedometer") = true).
  { destruct (is_gauge_cases _ Hg) as [-> | ->]; repeat split; reflexivity. }
  destruct Hty as (-> & -> & H1 & H2). cbv iota. unfold bind at 1. rewrite H1. cbv iota.
  split.
  - intro Hfalsy.
    destruct (falsy datasets || negb (is_array datasets)); [eexists; reflexivity|].
    destruct (mapM_normalize_dataset (array_elems datasets)) as [[ds' ->] | ->];
      simpl bind; [|eexists; reflexivity].
    rewrite H2, Hfalsy. eexists; reflexivity.
  - intros ds Hds Hall Htruthy. rewrite Hds. change (falsy (VArr ds) || negb (is_array (VArr ds))) with false.
    cbv iota. simpl array_elems.
    destruct (mapM_normalize_dataset_ok ds Hall) as [ds' ->]. simpl bind.
    rewrite H2. unfold falsy. rewrite Htruthy. simpl negb. cbv iota.
    eexists. split; [reflexivity|].
    unfold get_prop at 2. simpl obj_get. unfold get_prop. rewrite obj_get_set_same. reflexivity.
Qed.

(** C3, witness: a reading of [0] and a reading of [50]. *)
Lemma gauge_first_reading_witness :
  fails_with (generateChartConfig gauge_zero_example) InvalidParams /\
  exists config,
    generateChartConfig gauge_example = Ok config /\
    get_prop (get_prop config "options") "plugins" = gauge_plugins.
Proof.
  split.
  - apply (proj1 (gauge_first_reading gauge_zero_example eq_refl)). reflexivity.
  - apply (proj2 (gauge_first_reading gauge_example eq_refl)
             [VObj [("data", VArr [VNum 50])]]).
    + reflexivity.
    + constructor; [split; reflexivity | constructor].
    + reflexivity.
Defined.

(** C3, counterexample. The first reading is [5], which is truthy, and the
    build fails because the second dataset has no [data]. *)
Lemma gauge_truthy_reading_rejected :
  is_gauge (get_prop gauge_broken_second_example "type") = true /\
  truthy (first_reading (get_prop gauge_broken_second_example "datasets")) = true /\
  generateChartConfig gauge_broken_second_example =
  McpErr InvalidParams "Each dataset must have a data property".
Proof. repeat split; reflexivity. Qed.

(** ** Scatter and bubble charts *)

Lemma first_point_has_data (d : value) :
  is_array (first_point d) = true -> has_data d.
Proof.
  unfold first_point, has_data.
  destruct d; simpl; try discriminate.
  destruct (obj_get fields "data") as [[| | | |s| | |]|]; simpl; try discriminate; auto.
  destruct s; simpl; discriminate.
Qed.

Lemma forEachM_check_fail (type : value) (ds : list value) :
  Exists (fun d => is_array (first_point d) = false) ds ->
  fails_with (forEachM (check_point_format type) ds) InvalidParams.
Proof.
  induction 1 as [d r Hd | d r _ IH]; simpl.
  - unfold check_point_format at 1. rewrite Hd. simpl. eexists; reflexivity.
  - unfold check_point_format at 1.
    destruct (negb (is_array (first_point d))); simpl; [eexists; reflexivity | exact IH].
Qed.

Lemma forEachM_check_ok (type : value) (ds : list value) :
  Forall (fun d => is_array (first_point d) = true) ds ->
  forEachM (check_point_format type) ds = Ok tt.
Proof.
  induction 1 as [|d r Hd _ IH]; simpl; [reflexivity|].
  unfold check_point_format at 1. rewrite Hd. simpl. exact IH.
Qed.

(** C4. For [scatter] and [bubble], the build fails with [InvalidParams] as
    soon as one dataset's first data element is not an array, and succeeds
    when the first data element of every dataset is an array. *)
Theorem point_format_checked (args : value) (ds : list value) :
  is_point_chart (get_prop args "type") = true ->
  get_prop args "datasets" = VArr ds ->
  (Exists (fun d => is_array (first_point d) = false) ds ->
   fails_with (generateChartConfig args) InvalidParams) /\
  (Forall (fun d => is_array (first_point d) = true) ds ->
   exists config, generateChartConfig args = Ok config).
Proof.
  intros Hp Hds.
  destruct (truthy_get_prop_obj args "datasets") as [fs ->]; [congruence|].
  unfold generateChartConfig.
  change (falsy (VObj fs)) with false. cbv iota.
  rewrite Hds.
  set (type := get_prop (VObj fs) "type") in *.
  assert (Hty : falsy type = false /\ validateChartType type = Ok tt /\
                (strict_eq_str type "graphviz" || strict_eq_str type "wordcloud") = false /\
                (strict_eq_str type "radialGauge" || strict_eq_str type "speedometer") = false /\
                (strict_eq_str type "scatter" || strict_eq_str type "bubble") = true).
  { destruct (is_point_chart_cases _ Hp) as [-> | ->]; repeat split; reflexivity. }
  destruct Hty as (-> & -> & -> & H2 & H3). cbv iota. unfold bind at 1. cbv iota.
  change (falsy (VArr ds) || negb (is_array (VArr ds))) with false. cbv iota.
  simpl array_elems.
  split.
  - intro Hex.
    destruct (mapM_normalize_dataset ds) as [[ds' ->] | ->];
      simpl bind; [|eexists; reflexivity].
    rewrite H2, H3.
    destruct (forEachM_check_fail type ds Hex) as [msg ->]. eexists; reflexivity.
  - intro Hall.
    assert (Hdata : Forall has_data ds).
    { eapply Forall_impl; [|exact Hall]. intros d Hd. now apply first_point_has_data. }
    destruct (mapM_normalize_dataset_ok ds Hdata) as [ds' ->]. simpl bind.
    rewrite H2, H3, (forEachM_check_ok type ds Hall). simpl. eauto.
Qed.

(** C4, witness: a bare number in the second dataset, and a pair. *)
Lemma point_format_checked_witness :
  fails_with (generateChartConfig scatter_bare_example) InvalidParams /\
  exists config, generateChartConfig scatter_example = Ok config.
Proof.
  split.
  - apply (proj1 (point_format_checked scatter_bare_example _ eq_refl eq_refl)).
    right. left. reflexivity.
  - apply (proj2 (point_format_checked scatter_example _ eq_refl eq_refl)).
    constructor; [reflexivity | constructor].
Defined.

(** ** Dataset shaping *)

(** C5. In the configuration built for a chart-family request, the i-th
    dataset holds, under every key, the value of the caller's
    [additionalConfig] when that mapping has the key, and otherwise the
    value the builder wrote itself ([label], [data], [backgroundColor],
    [borderColor]). *)
Theorem additionalConfig_overrides (args config : value) (i : nat)
    (dataset : value) (extra : props) (k : string) :
  generateChartConfig args = Ok config ->
  is_placeholder_type (get_prop args "type") = false ->
  nth_error (array_elems (get_prop args "datasets")) i = Some dataset ->
  get_prop dataset "additionalConfig" = VObj extra ->
  NoDup (map fst extra) ->
  exists nd,
    nth_error (array_elems (get_prop (get_prop config "data") "datasets")) i = Some nd /\
    get_prop nd k =
    match obj_get extra k with
    | Some v => v
    | None => get_prop (VObj (builder_fields dataset)) k
    end.
Proof.
  intros Hok Hnp Hnth Hextra Hnd.
  destruct (generateChartConfig_datasets _ _ Hok Hnp) as (ds' & Hmap & ->).
  destruct (mapM_nth_error _ _ _ _ _ Hmap Hnth) as (nd & Hnd' & Hnorm).
  exists nd. split; [exact Hnd'|].
  unfold normalize_dataset in Hnorm.
  destruct (falsy dataset || falsy (get_prop dataset "data")); [discriminate|].
  inversion Hnorm; subst nd. rewrite Hextra. simpl js_or. simpl own_props.
  unfold get_prop at 1. rewrite (obj_get_spread extra Hnd).
  destruct (obj_get extra k); reflexivity.
Qed.

(** C5, witness: [label] is overridden by [additionalConfig], [borderColor]
    is not. *)
Lemma additionalConfig_overrides_witness :
  exists config nd,
    generateChartConfig bar_override_example = Ok config /\
    nth_error (array_elems (get_prop (get_prop config "data") "datasets")) 0 = Some nd /\
    get_prop nd "label" = VStr "override" /\
    get_prop nd "borderColor" = VStr "red".
Proof.
  pose (d := VObj [("label", VStr "sales"); ("data", VArr [VNum 1; VNum 2]);
                   ("borderColor", VStr "red");
                   ("additionalConfig",
                    VObj [("label", VStr "override"); ("fill", VBool false)])]).
  pose (extra := [("label", VStr "override"); ("fill", VBool false)]).
  assert (Hnd : NoDup (map fst extra)).
  { repeat constructor; simpl; intuition discriminate. }
  destruct (generateChartConfig bar_override_example) as [config| |] eqn:Hc;
    [|discriminate Hc|discriminate Hc].
  exists config.
  destruct (additionalConfig_overrides bar_override_example config 0 d extra "label"
              Hc eq_refl eq_refl eq_refl Hnd) as (nd & Hn & Hlabel).
  destruct (additionalConfig_overrides bar_override_example config 0 d extra "borderColor"
              Hc eq_refl eq_refl eq_refl Hnd) as (nd' & Hn' & Hborder).
  rewrite Hn in Hn'. inversion Hn'; subst nd'.
  exists nd. repeat split; assumption.
Defined.

(** ** Word clouds *)

Lemma to_string_scalar (v : value) :
  is_scalar v = true -> exists s, to_string v = Some s.
Proof. destruct v as [| |[]| | | | |]; simpl; try discriminate; eauto. Qed.

Lemma append_scalar (params : URLSearchParams) (name : string) (v : value) :
  is_scalar v = true ->
  append params name v =
  Ok (params ++ [(name, match to_string v with Some s => s | None => "" end)])%list.
Proof.
  intro H. unfold append, js_String.
  destruct (to_string_scalar v H) as [s ->]. reflexivity.
Qed.

Lemma append_if_truthy_present (args : value) (key name : string)
    (params : URLSearchParams) :
  String.eqb key "colors" = false -> is_flag key = false ->
  param_ok key (get_prop args key) = true ->
  append_if_truthy args key name params =
  Ok (params ++ present_param args (key, name))%list.
Proof.
  intros Hc Hf Hok. unfold append_if_truthy, present_param, param_text. simpl fst. simpl snd.
  unfold param_ok in Hok. rewrite Hc, Hf in Hok. simpl orb in Hok.
  destruct (get_prop args key) eqn:E;
    try (simpl in Hok; discriminate);
    try (simpl truthy; cbv iota; now rewrite app_nil_r);
    apply andb_true_iff in Hok; destruct Hok as [Hs Ht];
    rewrite Ht, Hc; now apply append_scalar.
Qed.

Lemma append_if_defined_present (args : value) (key name : string)
    (params : URLSearchParams) :
  String.eqb key "colors" = false -> is_flag key = true ->
  param_ok key (get_prop args key) = true ->
  append_if_defined args key name params =
  Ok (params ++ present_param args (key, name))%list.
Proof.
  intros Hc Hf Hok. unfold append_if_defined, present_param, param_text. simpl fst. simpl snd.
  unfold param_ok in Hok. rewrite Hc, Hf in Hok. simpl orb in Hok.
  destruct (get_prop args key) eqn:E;
    try (simpl in Hok; discriminate);
    try (simpl; now rewrite app_nil_r);
    rewrite andb_true_r in Hok; simpl is_undefined; simpl negb; cbv iota;
    rewrite Hc; now apply append_scalar.
Qed.

Lemma append_if_truthy_json_present (args : value) (params : URLSearchParams) :
  param_ok "colors" (get_prop args "colors") = true ->
  append_if_truthy_json args "colors" "colors" params =
  Ok (params ++ present_param args ("colors", "colors"))%list.
Proof.
  intros Hok. unfold append_if_truthy_json, present_param, param_text. simpl fst. simpl snd.
  unfold param_ok in Hok. simpl String.eqb in Hok. cbv iota in Hok.
  destruct (get_prop args "colors") eqn:E;
    try (simpl in Hok; discriminate);
    try (simpl; now rewrite app_nil_r).
  reflexivity.
Qed.

Lemma generateChartUrl_wordcloud (env : Env) (args : value) (t : string) :
  get_prop args "text" = VStr t ->
  t <> "" ->
  params_ok args = true ->
  generateChartUrl env (VObj [("type", VStr "wordcloud")]) args =
  Ok (QUICKCHART_WORDCLOUD_URL env ++ "?"
        ++ URLSearchParams_toString (("text", t) :: present_params args)).
Proof.
  intros Htext Hne Hok.
  destruct (truthy_get_prop_obj args "text") as [fs ->]; [congruence|].
  unfold generateChartUrl.
  change (strict_eq_str (get_prop (VObj [("type", VStr "wordcloud")]) "type") "graphviz")
    with false.
  change (strict_eq_str (get_prop (VObj [("type", VStr "wordcloud")]) "type") "wordcloud")
    with true.
  cbv iota.
  change (get_prop_opt (VObj fs) "text") with (get_prop (VObj fs) "text").
  rewrite Htext, (falsy_nonempty t Hne). cbn [orb is_string negb].
  unfold params_ok in Hok. cbn [forallb wordcloud_optional fst] in Hok.
  repeat (apply andb_true_iff in Hok; destruct Hok as [? Hok]).
  unfold append at 1. unfold js_String at 1. cbn [to_string bind app].
  repeat (first [ rewrite append_if_truthy_present by (reflexivity || assumption)
                | rewrite append_if_defined_present by (reflexivity || assumption)
                | rewrite append_if_truthy_json_present by assumption ];
          cbn [bind]).
  unfold present_params. cbn [flat_map wordcloud_optional].
  rewrite <- !app_assoc. rewrite app_nil_r. reflexivity.
Qed.

(** C6 (as amended). For a word-cloud request with a non-empty [text] whose
    optional parameters, where set, are truthy strings, numbers or booleans
    (any string, number or boolean for the three flags, an array for
    [colors]), the URL is the word-cloud endpoint followed by [text] and
    then exactly the parameters the caller set, in the fixed order, each
    coerced to a string and [colors] as a JSON array string. *)
Theorem wordcloud_url (env : Env) (args : value) (t : string) :
  get_prop args "type" = VStr "wordcloud" ->
  get_prop args "text" = VStr t ->
  t <> "" ->
  params_ok args = true ->
  generate_chart env args =
  Ok (QUICKCHART_WORDCLOUD_URL env ++ "?"
        ++ URLSearchParams_toString (("text", t) :: present_params args)).
Proof.
  intros Hty Htext Hne Hok. unfold generate_chart.
  rewrite (generateChartConfig_placeholder args "wordcloud" Hty (or_intror eq_refl)).
  cbn [bind].
  now rewrite (generateChartUrl_wordcloud env args t Htext Hne Hok).
Qed.

(** The example of the specification: only [text] and [maxNumWords] are in
    the query string. *)
Lemma wordcloud_url_witness :
  generate_chart default_env wc_example =
  Ok "https://quickchart.io/wordcloud?text=a+b+c&maxNumWords=5".
Proof.
  apply (wordcloud_url default_env wc_example "a b c");
    [reflexivity | reflexivity | discriminate | reflexivity].
Defined.

(** C6, counterexample. A [text] that is the empty string is rejected
    although it is a string, and a [rotation] of [0] is in the raw arguments
    but not in the query string. *)
Lemma wordcloud_present_but_falsy :
  (let args := VObj [("type", VStr "wordcloud"); ("text", VStr "")] in
   is_string (get_prop args "text") = true /\
   generate_chart default_env args =
   McpErr InvalidParams "Text is required for wordcloud charts") /\
  (let args := VObj [("type", VStr "wordcloud"); ("text", VStr "a b c");
                     ("rotation", VNum 0)] in
   get_prop args "rotation" <> VUndefined /\
   generate_chart default_env args = Ok "https://quickchart.io/wordcloud?text=a+b+c").
Proof. repeat split; try reflexivity. discriminate. Qed.

(** ** Graphs *)

(** C7 (as amended). For a graph request whose [dot] is a non-empty string
    without a lone surrogate, the URL is the graph endpoint with the
    percent-encoded DOT text as [graph], then [layout] and [format]: each is
    the value of the caller converted to a string when that value is
    truthy, and [dot] or [png] when it is absent or falsy, provided that the
    conversion does not throw. When [dot] is absent, empty or not a string,
    [generate_chart] fails with [InvalidParams]. *)
Theorem graphviz_url (env : Env) (args : value) :
  get_prop args "type" = VStr "graphviz" ->
  (forall d l f,
      get_prop args "dot" = VStr d -> d <> "" ->
      has_lone_surrogate d = false ->
      to_string (js_or (get_prop args "graphvizLayout") (VStr "dot")) = Some l ->
      to_string (js_or (get_prop args "graphvizFormat") (VStr "png")) = Some f ->
      generate_chart env args =
      Ok (QUICKCHART_GRAPHVIZ_URL env ++ "?graph=" ++ encodeURIComponent d
            ++ "&layout=" ++ l ++ "&format=" ++ f)) /\
  (falsy (get_prop args "dot") = true \/ is_string (get_prop args "dot") = false ->
   generate_chart env args =
   McpErr InvalidParams "DOT language code is required for graphviz charts").
Proof.
  intro Hty. unfold generate_chart.
  rewrite (generateChartConfig_placeholder args "graphviz" Hty (or_introl eq_refl)).
  cbn [bind].
  destruct (truthy_get_prop_obj args "type") as [fs ->]; [congruence|].
  unfold generateChartUrl.
  change (strict_eq_str (get_prop (VObj [("type", VStr "graphviz")]) "type") "graphviz")
    with true.
  cbv iota.
  change (get_prop_opt (VObj fs) "dot") with (get_prop (VObj fs) "dot").
  split.
  - intros d l f Hdot Hne Hwf Hl Hf.
    rewrite Hdot, (falsy_nonempty d Hne). cbn [orb is_string negb text_of].
    unfold encodeURIComponent_call, js_String. rewrite Hwf, Hl, Hf. reflexivity.
  - intros [H | H].
    + rewrite H. reflexivity.
    + rewrite H. rewrite orb_true_r. reflexivity.
Qed.

(** The example of the specification, where the defaults apply; a layout
    and a format of the caller, the empty format counting as none; and a
    [dot] that is a number. *)
Lemma graphviz_url_witness :
  generate_chart default_env graph_example =
  Ok "https://quickchart.io/graphviz?graph=digraph%20G%20%7B%20A%20-%3E%20B%3B%20%7D&layout=dot&format=png"
  /\ generate_chart default_env
       (VObj [("type", VStr "graphviz"); ("dot", VStr "graph { a -- b }");
              ("graphvizLayout", VStr "neato"); ("graphvizFormat", VStr "")]) =
     Ok "https://quickchart.io/graphviz?graph=graph%20%7B%20a%20--%20b%20%7D&layout=neato&format=png"
  /\ generate_chart default_env (VObj [("type", VStr "graphviz"); ("dot", VNum 7)]) =
     McpErr InvalidParams "DOT language code is required for graphviz charts".
Proof.
  split; [|split].
  - apply (proj1 (graphviz_url default_env graph_example eq_refl)
             "digraph G { A -> B; }" "dot" "png");
      [reflexivity | discriminate | reflexivity | reflexivity | reflexivity].
  - apply (proj1 (graphviz_url default_env
                    (VObj [("type", VStr "graphviz"); ("dot", VStr "graph { a -- b }");
                           ("graphvizLayout", VStr "neato"); ("graphvizFormat", VStr "")])
                    eq_refl)
             "graph { a -- b }" "neato" "png");
      [reflexivity | discriminate | reflexivity | reflexivity | reflexivity].
  - apply (proj2 (graphviz_url default_env
                    (VObj [("type", VStr "graphviz"); ("dot", VNum 7)]) eq_refl)).
    right. reflexivity.
Defined.

(** C7, counterexample. A [dot] that is the empty string is a string, and
    the request is rejected. *)
Lemma graphviz_empty_dot_rejected :
  let args := VObj [("type", VStr "graphviz"); ("dot", VStr "")] in
  is_string (get_prop args "dot") = true /\
  generate_chart default_env args =
  McpErr InvalidParams "DOT language code is required for graphviz charts".
Proof. split; reflexivity. Qed.

(** What the amended statement leaves out: a [dot] with a lone surrogate
    (here U+D800) makes [encodeURIComponent] throw, and a layout that cannot
    be converted to a string makes the template throw; both end in
    [InternalError]. *)
Lemma graphviz_uncaught_errors :
  generate_chart default_env
    (VObj [("type", VStr "graphviz");
           ("dot", VStr (String (ascii_of_nat 237)
                           (String (ascii_of_nat 160)
                              (String (ascii_of_nat 128) EmptyString))))]) =
  McpErr InternalError "Failed to generate chart: URI malformed"
  /\ generate_chart default_env
       (VObj [("type", VStr "graphviz"); ("dot", VStr "graph { a }");
              ("graphvizLayout", VObj [("toString", VNum 1)])]) =
     McpErr InternalError
       "Failed to generate chart: Cannot convert object to primitive value".
Proof. split; reflexivity. Qed.

(** ** The download path *)

Lemma download_normalized_ext (sys : Sys) (env : Env) (a b : props)
    (p : option string) :
  same_fields a b ->
  download_normalized sys env (VObj a) p = download_normalized sys env (VObj b) p.
Proof.
  intro H. unfold download_normalized, resolve_outputPath, default_outputPath.
  rewrite (generateChartConfig_ext a b H).
  rewrite (H "type"), (H "datasets"); simpl; auto 10.
Qed.

Lemma lift_nested_get (config : value) (k k' : string) (n : props) :
  get_prop (VObj (lift_nested config k n)) k' =
  if String.eqb k k'
       && (truthy (get_prop config "data") && typeof_object (get_prop config "data")
           && truthy (get_prop (get_prop config "data") k)
           && falsy (get_prop (VObj n) k))
  then get_prop (get_prop config "data") k
  else get_prop (VObj n) k'.
Proof.
  unfold lift_nested.
  destruct (truthy (get_prop config "data") && typeof_object (get_prop config "data")
            && truthy (get_prop (get_prop config "data") k)
            && falsy (get_prop (VObj n) k)).
  - rewrite andb_true_r. unfold get_prop at 1. rewrite obj_get_set.
    destruct (String.eqb k k'); reflexivity.
  - rewrite andb_false_r. reflexivity.
Qed.

Lemma normalizedConfig_get (fs : props) (k : string) :
  NoDup (map fst fs) ->
  In k ["type"; "datasets"; "labels"] ->
  get_prop (normalizedConfig (VObj fs)) k =
  if falsy (get_prop (VObj fs) k) && nested_available (VObj fs) k
  then get_prop (get_prop (VObj fs) "data") k
  else get_prop (VObj fs) k.
Proof.
  intros Hnd Hin. unfold normalizedConfig, nested_available. simpl own_props.
  rewrite (obj_spread_nil fs Hnd).
  rewrite !lift_nested_get.
  simpl in Hin. destruct Hin as [<- | [<- | [<- | []]]]; simpl String.eqb; cbv iota;
    simpl andb; rewrite ?lift_nested_get; simpl String.eqb; simpl andb; cbv iota;
    rewrite andb_comm; reflexivity.
Qed.

Lemma normalizedConfig_other (fs : props) (k : string) :
  NoDup (map fst fs) ->
  ~ In k ["type"; "datasets"; "labels"] ->
  get_prop (normalizedConfig (VObj fs)) k = get_prop (VObj fs) k.
Proof.
  intros Hnd Hin. unfold normalizedConfig. simpl own_props.
  rewrite (obj_spread_nil fs Hnd).
  rewrite !lift_nested_get.
  assert (H1 : String.eqb "type" k = false).
  { apply String.eqb_neq. intro. apply Hin. simpl. auto. }
  assert (H2 : String.eqb "datasets" k = false).
  { apply String.eqb_neq. intro. apply Hin. simpl. auto. }
  assert (H3 : String.eqb "labels" k = false).
  { apply String.eqb_neq. intro. apply Hin. simpl. auto. }
  rewrite H1, H2, H3. reflexivity.
Qed.

Lemma normalizedConfig_is_obj (config : value) :
  exists n, normalizedConfig config = VObj n.
Proof. unfold normalizedConfig. eauto. Qed.

Lemma normalizedConfig_flat (flat : props) :
  NoDup (map fst flat) -> ~ In "data" (map fst flat) ->
  normalizedConfig (VObj flat) = VObj flat.
Proof.
  intros Hnd Hdata.
  assert (H : get_prop (VObj flat) "data" = VUndefined).
  { unfold get_prop. now rewrite (obj_get_absent flat "data" Hdata). }
  unfold normalizedConfig, lift_nested. simpl own_props.
  rewrite (obj_spread_nil flat Hnd), !H. reflexivity.
Qed.

Lemma download_nested_flat (sys : Sys) (env : Env) (flat : props) (p : option string) :
  NoDup (map fst flat) -> ~ In "data" (map fst flat) ->
  download_chart sys env (nest_datasets flat) p = download_chart sys env (VObj flat) p.
Proof.
  intros Hnd Hdata. unfold download_chart, download_chart_body, nest_datasets.
  change (falsy (VObj ?x) || negb (typeof_object (VObj ?x))) with false. cbv iota.
  rewrite (normalizedConfig_flat flat Hnd Hdata).
  set (d := get_prop (VObj flat) "datasets").
  set (fn := obj_set (obj_remove flat "datasets") "data" (VObj [("datasets", d)])).
  assert (Hfn : NoDup (map fst fn)) by (apply NoDup_obj_set, NoDup_obj_remove, Hnd).
  destruct (normalizedConfig_is_obj (VObj fn)) as [n Hn].
  assert (Hget : forall k, get_prop (VObj n) k = get_prop (normalizedConfig (VObj fn)) k)
    by (now rewrite Hn).
  assert (Hdat : get_prop (VObj fn) "data" = VObj [("datasets", d)]).
  { unfold fn, get_prop. now rewrite obj_get_set_same. }
  assert (Htop : forall k, k <> "datasets" -> k <> "data" ->
                           get_prop (VObj fn) k = get_prop (VObj flat) k).
  { intros k H1 H2. unfold fn, get_prop.
    rewrite obj_get_set_other by congruence.
    rewrite obj_get_remove_other by congruence. reflexivity. }
  assert (Hds : get_prop (VObj fn) "datasets" = VUndefined).
  { unfold fn, get_prop. rewrite obj_get_set_other by discriminate.
    now rewrite obj_get_remove_same. }
  assert (Hty : get_prop (VObj n) "type" = get_prop (VObj flat) "type").
  { rewrite Hget, normalizedConfig_get by (simpl; auto).
    unfold nested_available. rewrite Hdat. simpl. rewrite andb_false_r.
    apply Htop; discriminate. }
  assert (Hla : get_prop (VObj n) "labels" = get_prop (VObj flat) "labels").
  { rewrite Hget, normalizedConfig_get by (simpl; auto).
    unfold nested_available. rewrite Hdat. simpl. rewrite andb_false_r.
    apply Htop; discriminate. }
  assert (Hdsn : get_prop (VObj n) "datasets" = if truthy d then d else VUndefined).
  { rewrite Hget, normalizedConfig_get by (simpl; auto).
    unfold nested_available. rewrite Hdat, Hds. simpl. destruct (truthy d); reflexivity. }
  assert (Hoth : forall k, k = "title" \/ k = "options" ->
                           get_prop (VObj n) k = get_prop (VObj flat) k).
  { intros k Hk. rewrite Hget, normalizedConfig_other.
    - apply Htop; destruct Hk; subst; discriminate.
    - exact Hfn.
    - simpl. intros [H|[H|[H|[]]]]; destruct Hk; subst; discriminate. }
  rewrite Hn.
  destruct (truthy d) eqn:Htd.
  - rewrite (download_normalized_ext sys env n flat p); [reflexivity|].
    intros k Hk. simpl in Hk.
    destruct Hk as [<- | [<- | [<- | [<- | [<- | []]]]]]; auto.
  - unfold download_normalized. rewrite Hdsn. fold d. unfold falsy. rewrite Htd.
    simpl negb. rewrite !orb_true_r. reflexivity.
Qed.

(** C8 (as amended). In [download_chart], each of [type], [datasets] and
    [labels] nested under an object [data] is lifted to the top level
    exactly when the nested value is truthy and the top-level field is
    absent or falsy; a truthy top-level field is kept. A configuration that
    nests its [datasets] under [data] runs exactly as the flat
    configuration does: same outcome, same events, hence the same URL. *)
Theorem nested_fields_lifted :
  (forall (fs : props) (k : string),
      NoDup (map fst fs) ->
      In k ["type"; "datasets"; "labels"] ->
      get_prop (normalizedConfig (VObj fs)) k =
      if falsy (get_prop (VObj fs) k) && nested_available (VObj fs) k
      then get_prop (get_prop (VObj fs) "data") k
      else get_prop (VObj fs) k) /\
  (forall (sys : Sys) (env : Env) (flat : props) (p : option string),
      NoDup (map fst flat) ->
      ~ In "data" (map fst flat) ->
      download_chart sys env (nest_datasets flat) p
      = download_chart sys env (VObj flat) p).
Proof.
  split.
  - exact normalizedConfig_get.
  - exact download_nested_flat.
Qed.

(** C8, witness: [datasets] nested under [data]. *)
Lemma nested_fields_lifted_witness :
  get_prop (normalizedConfig (VObj nested_example)) "datasets"
  = VArr [VObj [("data", VArr [VNum 1; VNum 2])]]
  /\ download_chart (Posix.sys ["/tmp"]) default_env (VObj nested_example)
       (Some "/tmp/chart.png")
     = download_chart (Posix.sys ["/tmp"]) default_env (VObj flat_example)
         (Some "/tmp/chart.png").
Proof.
  split.
  - rewrite (proj1 nested_fields_lifted nested_example "datasets").
    + reflexivity.
    + repeat constructor; simpl; intuition discriminate.
    + simpl. auto.
  - apply (proj2 nested_fields_lifted (Posix.sys ["/tmp"]) default_env flat_example).
    + repeat constructor; simpl; intuition discriminate.
    + simpl. intuition discriminate.
Defined.

(** C8, counterexample. The top-level [type] is present (the empty string)
    and the nested [type] replaces it. *)
Lemma falsy_top_level_type_overridden :
  obj_get conflicting_type_example "type" = Some (VStr "") /\
  get_prop (normalizedConfig (VObj conflicting_type_example)) "type" = VStr "bar".
Proof. split; reflexivity. Qed.

Lemma resolve_outputPath_trace (sys : Sys) (n : value) (p : option string)
    (t : list event) :
  exists evs,
    snd (resolve_outputPath sys n p t) = (t ++ evs)%list /\
    existsb is_build evs = false /\ existsb is_fetch_or_write evs = false /\
    fst (resolve_outputPath sys n p t) = fst (resolve_outputPath sys n p []) /\
    snd (resolve_outputPath sys n p []) = evs.
Proof.
  assert (Hd : exists evs,
    snd (default_outputPath sys n t) = (t ++ evs)%list /\
    existsb is_build evs = false /\ existsb is_fetch_or_write evs = false /\
    fst (default_outputPath sys n t) = fst (default_outputPath sys n []) /\
    snd (default_outputPath sys n []) = evs).
  { unfold default_outputPath, access, io_bind, emit, io_ret, io_lift.
    destruct (access_W_OK sys (path_join sys (homedir sys) "Desktop"));
      destruct (js_String (js_or (get_prop n "type") (VStr "chart")));
      simpl; rewrite <- ?app_assoc; simpl; eexists; (split; [reflexivity|]);
      repeat split; reflexivity. }
  unfold resolve_outputPath.
  destruct p as [s|]; [destruct (String.eqb s "")|]; try exact Hd.
  exists []. unfold io_ret. simpl. rewrite app_nil_r. repeat split; reflexivity.
Qed.

(** C9. For a configuration that passes the validation after
    normalisation, when the directory of the resolved output path fails the
    access check, [download_chart] fails with [InvalidParams], and the run
    ends there: the builder has not been called. *)
Theorem unwritable_directory (sys : Sys) (env : Env) (config : value)
    (p : option string) (outputPath : string) (t0 : list event) :
  truthy config = true ->
  typeof_object config = true ->
  truthy (get_prop (normalizedConfig config) "type") = true ->
  truthy (get_prop (normalizedConfig config) "datasets") = true ->
  resolve_outputPath sys (normalizedConfig config) p [] = (Ok outputPath, t0) ->
  access_W_OK sys (path_dirname sys outputPath) = false ->
  download_chart sys env config p =
  (McpErr InvalidParams
     ("Output directory does not exist or is not writable: "
        ++ path_dirname sys outputPath),
   (t0 ++ [EvAccess (path_dirname sys outputPath)])%list)
  /\ existsb is_build (snd (download_chart sys env config p)) = false.
Proof.
  intros Hc Ho Hty Hds Hres Hacc.
  assert (Hrun : download_chart sys env config p =
    (McpErr InvalidParams
       ("Output directory does not exist or is not writable: "
          ++ path_dirname sys outputPath),
     (t0 ++ [EvAccess (path_dirname sys outputPath)])%list)).
  { unfold download_chart, download_chart_body, download_normalized.
    unfold falsy. rewrite Hc, Ho, Hty, Hds. cbn [negb orb].
    unfold io_bind at 1. rewrite Hres.
    unfold access, io_bind, emit, io_ret, io_lift. rewrite Hacc. reflexivity. }
  split; [exact Hrun|].
  rewrite Hrun. simpl snd.
  destruct (resolve_outputPath_trace sys (normalizedConfig config) p [])
    as (evs & _ & Hb & _ & _ & Hevs).
  rewrite Hres in Hevs. simpl in Hevs. subst evs.
  rewrite existsb_app, Hb. reflexivity.
Qed.

(** C9, witness: the type [foo] would be rejected by the builder, and the
    error is the one of the directory. *)
Lemma unwritable_directory_witness :
  download_chart (Posix.sys ["/tmp"]) default_env unknown_type_example
    (Some "/var/out/chart.png")
  = (McpErr InvalidParams
       "Output directory does not exist or is not writable: /var/out",
     [EvAccess "/var/out"])
  /\ existsb is_build
       (snd (download_chart (Posix.sys ["/tmp"]) default_env unknown_type_example
               (Some "/var/out/chart.png"))) = false.
Proof.
  apply (unwritable_directory (Posix.sys ["/tmp"]) default_env unknown_type_example
           (Some "/var/out/chart.png") "/var/out/chart.png" []);
    reflexivity.
Defined.

(** Without the raw arguments the encoder rejects both placeholder
    configurations. *)
Lemma generateChartUrl_without_args (env : Env) :
  generateChartUrl env (VObj [("type", VStr "graphviz")]) VUndefined
  = McpErr InvalidParams "DOT language code is required for graphviz charts"
  /\ generateChartUrl env (VObj [("type", VStr "wordcloud")]) VUndefined
     = McpErr InvalidParams "Text is required for wordcloud charts".
Proof. split; reflexivity. Qed.

Lemma default_outputPath_as_value (sys : Sys) (n : value)
    (k : string -> IO string) (k' : value -> IO string) (t : list event) :
  (forall p, k' (VStr p) = k p) ->
  io_bind (io_bind (default_outputPath sys n) (fun p => io_ret (VStr p))) k' t =
  io_bind (default_outputPath sys n) k t.
Proof.
  intro Hk. unfold io_bind at 1 2 3.
  destruct (default_outputPath sys n t) as [[p| |] t']; cbn; [now rewrite Hk | |];
    reflexivity.
Qed.

Lemma download_chart_request_body_typed (sys : Sys) (env : Env) (arguments : value) :
  is_nullish arguments = false ->
  ill_typed_path (get_prop arguments "outputPath") = false ->
  download_chart_request_body sys env arguments [] =
  download_chart_body sys env (get_prop arguments "config")
    (path_argument (get_prop arguments "outputPath")) [].
Proof.
  intros Hnull Hpath.
  unfold download_chart_request_body, download_chart_body, download_normalized.
  rewrite Hnull.
  destruct (falsy (get_prop arguments "config")
            || negb (typeof_object (get_prop arguments "config"))); [reflexivity|].
  destruct (falsy (get_prop (normalizedConfig (get_prop arguments "config")) "type")
            || falsy (get_prop (normalizedConfig (get_prop arguments "config")) "datasets"));
    [reflexivity|].
  unfold ill_typed_path in Hpath.
  destruct (get_prop arguments "outputPath") as [| |b|z|p|xs|fs|c] eqn:Hv;
    cbn [path_argument resolve_outputPath];
    try (cbn in Hpath; discriminate);
    try (apply default_outputPath_as_value; intro; reflexivity).
  - destruct b; [cbn in Hpath; discriminate|].
    apply default_outputPath_as_value; intro; reflexivity.
  - unfold falsy, truthy in *. destruct (Z.eqb z 0); [|cbn in Hpath; discriminate].
    cbn [negb]. apply default_outputPath_as_value; intro; reflexivity.
  - unfold falsy, truthy. destruct (String.eqb p ""); cbn [negb].
    + apply default_outputPath_as_value; intro; reflexivity.
    + reflexivity.
Qed.

(** On arguments of the declared type the branch is [download_chart]. *)
Lemma download_chart_request_typed (sys : Sys) (env : Env) (arguments : value) :
  is_nullish arguments = false ->
  ill_typed_path (get_prop arguments "outputPath") = false ->
  download_chart_request sys env arguments =
  download_chart sys env (get_prop arguments "config")
    (path_argument (get_prop arguments "outputPath")).
Proof.
  intros Hnull Hpath. unfold download_chart_request, download_chart.
  now rewrite (download_chart_request_body_typed sys env arguments Hnull Hpath).
Qed.

(** A truthy output path that is not a string ends the branch before any
    event, at the validations or at [path.dirname]. *)
Lemma download_chart_request_ill_typed_trace (sys : Sys) (env : Env)
    (arguments : value) :
  ill_typed_path (get_prop arguments "outputPath") = true ->
  snd (download_chart_request sys env arguments) = [].
Proof.
  intro Hpath. unfold download_chart_request, download_chart_request_body.
  destruct (is_nullish arguments); [reflexivity|].
  destruct (falsy (get_prop arguments "config")
            || negb (typeof_object (get_prop arguments "config"))); [reflexivity|].
  destruct (falsy (get_prop (normalizedConfig (get_prop arguments "config")) "type")
            || falsy (get_prop (normalizedConfig (get_prop arguments "config")) "datasets"));
    [reflexivity|].
  unfold ill_typed_path in Hpath. apply andb_true_iff in Hpath.
  destruct Hpath as [Ht Hs]. unfold falsy. rewrite Ht. cbn [negb].
  destruct (get_prop arguments "outputPath"); try discriminate; reflexivity.
Qed.

Lemma placeholder_config_not_nullish (arguments : value) :
  is_placeholder_type
    (get_prop (normalizedConfig (get_prop arguments "config")) "type") = true ->
  is_nullish arguments = false.
Proof. destruct arguments; try reflexivity; discriminate. Qed.

(** The rejection on arguments of the declared type. *)
Lemma download_chart_placeholder (sys : Sys) (env : Env)
    (config : value) (p : option string) :
  is_placeholder_type (get_prop (normalizedConfig config) "type") = true ->
  fails_with (fst (download_chart sys env config p)) InvalidParams /\
  existsb is_fetch_or_write (snd (download_chart sys env config p)) = false.
Proof.
  intros Hp.
  assert (Hty : get_prop (normalizedConfig config) "type" = VStr "graphviz" \/
                get_prop (normalizedConfig config) "type" = VStr "wordcloud").
  { unfold is_placeholder_type in Hp. apply orb_true_iff in Hp.
    destruct Hp as [H | H]; apply strict_eq_str_true in H; auto. }
  unfold download_chart, download_chart_body.
  destruct (falsy config || negb (typeof_object config)).
  { simpl. split; [eexists; reflexivity | reflexivity]. }
  unfold download_normalized.
  destruct (falsy (get_prop (normalizedConfig config) "type")
            || falsy (get_prop (normalizedConfig config) "datasets")).
  { simpl. split; [eexists; reflexivity | reflexivity]. }
  assert (Hbuild : exists ty, generateChartConfig (normalizedConfig config)
                   = Ok (VObj [("type", VStr ty)]) /\ (ty = "graphviz" \/ ty = "wordcloud")).
  { destruct Hty as [H|H].
    - exists "graphviz". split; [|auto]. apply generateChartConfig_placeholder; auto.
    - exists "wordcloud". split; [|auto]. apply generateChartConfig_placeholder; auto. }
  destruct Hbuild as (ty & Hb & Hcase).
  assert (Hurl : fails_with (generateChartUrl env (VObj [("type", VStr ty)]) VUndefined)
                   InvalidParams).
  { destruct Hcase as [-> | ->]; eexists; reflexivity. }
  destruct Hurl as [msg Hurl].
  assert (Hstr : exists s, js_String (js_or (get_prop (normalizedConfig config) "type")
                                        (VStr "chart")) = Ok s).
  { destruct Hty as [-> | ->]; eexists; reflexivity. }
  destruct Hstr as [s Hs].
  unfold resolve_outputPath, default_outputPath, access, io_bind, emit, io_ret, io_lift.
  rewrite Hb, Hurl, Hs.
  destruct p as [q|]; [destruct (String.eqb q "")|];
    repeat match goal with
    | |- context [access_W_OK ?a ?b] => destruct (access_W_OK a b)
    end; simpl; (split; [eexists; reflexivity | reflexivity]).
Qed.

(** C10 (as amended). When the normalised type is [graphviz] or
    [wordcloud], [download_chart] never reaches the fetch nor the write,
    whatever the rest of the request and the file system are, and it fails
    with [InvalidParams] whenever the output path is absent, falsy or a
    string. *)
Theorem download_rejects_graphviz_wordcloud (sys : Sys) (env : Env)
    (arguments : value) :
  is_placeholder_type
    (get_prop (normalizedConfig (get_prop arguments "config")) "type") = true ->
  existsb is_fetch_or_write (snd (download_chart_request sys env arguments)) = false /\
  (ill_typed_path (get_prop arguments "outputPath") = false ->
   fails_with (fst (download_chart_request sys env arguments)) InvalidParams).
Proof.
  intro Hp. pose proof (placeholder_config_not_nullish arguments Hp) as Hnull.
  destruct (ill_typed_path (get_prop arguments "outputPath")) eqn:Hpath.
  - split; [|discriminate].
    now rewrite (download_chart_request_ill_typed_trace sys env arguments Hpath).
  - rewrite (download_chart_request_typed sys env arguments Hnull Hpath).
    destruct (download_chart_placeholder sys env (get_prop arguments "config")
                (path_argument (get_prop arguments "outputPath")) Hp) as [H1 H2].
    split; [exact H2 | intros _; exact H1].
Qed.

(** C10, witness: a graph request with a writable output directory. *)
Lemma download_rejects_graphviz_wordcloud_witness :
  existsb is_fetch_or_write
    (snd (download_chart_request (Posix.sys ["/tmp"]) default_env
            graph_download_request)) = false
  /\ fails_with (fst (download_chart_request (Posix.sys ["/tmp"]) default_env
                        graph_download_request)) InvalidParams.
Proof.
  destruct (download_rejects_graphviz_wordcloud (Posix.sys ["/tmp"]) default_env
              graph_download_request eq_refl) as [H1 H2].
  split; [exact H1 | exact (H2 eq_refl)].
Defined.

(** C10, counterexample. With an output path that is a number the same
    configuration is answered [InternalError]: [path.dirname] throws on it,
    outside the inner [try]. *)
Lemma download_graphviz_numeric_path :
  is_placeholder_type
    (get_prop (normalizedConfig (get_prop graph_download_numeric_path "config")) "type")
  = true /\
  fst (download_chart_request (Posix.sys ["/tmp"]) default_env
         graph_download_numeric_path) =
  McpErr InternalError ("Failed to download chart: " ++ Posix.type_error (VNum 42)) /\
  ~ fails_with (fst (download_chart_request (Posix.sys ["/tmp"]) default_env
                       graph_download_numeric_path)) InvalidParams.
Proof.
  split; [reflexivity | split; [reflexivity|]].
  intros [m H]. vm_compute in H. discriminate.
Qed.

(** ** Strings *)

Lemma append_assoc (a b c : string) : (a ++ b) ++ c = a ++ (b ++ c).
Proof. induction a as [|x a IH]; simpl; [reflexivity | now rewrite IH]. Qed.

Lemma append_nil_r (a : string) : a ++ "" = a.
Proof. induction a as [|x a IH]; simpl; [reflexivity | now rewrite IH]. Qed.

Lemma length_append (a b : string) :
  String.length (a ++ b) = String.length a + String.length b.
Proof. induction a as [|x a IH]; simpl; [reflexivity | now rewrite IH]. Qed.

Lemma join_cons2 (sep a b : string) (l : list string) :
  join sep (a :: b :: l) = a ++ sep ++ join sep (b :: l).
Proof. reflexivity. Qed.

Lemma length_join_cons2 (sep a b : string) (l : list string) :
  String.length (join sep (a :: b :: l))
  = String.length a + String.length sep + String.length (join sep (b :: l)).
Proof. rewrite join_cons2, !length_append. lia. Qed.

(** ** Percent-encoding round trip *)

Lemma decode_pct (c : ascii) (r : string) :
  Harness.decodeURIComponent (pct c ++ r) =
  option_map (String c) (Harness.decodeURIComponent r).
Proof.
  destruct c as [[] [] [] [] [] [] [] []];
    cbn; destruct (Harness.decodeURIComponent r); reflexivity.
Qed.

Lemma decode_plain (c : ascii) (r : string) :
  Ascii.eqb c "%" = false ->
  Harness.decodeURIComponent (String c r) =
  option_map (String c) (Harness.decodeURIComponent r).
Proof.
  intro H. cbn [Harness.decodeURIComponent]. rewrite H. reflexivity.
Qed.

Lemma unreserved_not_percent (c : ascii) :
  uri_unreserved c = true -> Ascii.eqb c "%" = false.
Proof.
  destruct (Ascii.eqb_spec c "%") as [->|]; [discriminate | reflexivity].
Qed.

Lemma decode_encode (s : string) :
  Harness.decodeURIComponent (encodeURIComponent s) = Some s.
Proof.
  induction s as [|c r IH]; [reflexivity|].
  cbn [encodeURIComponent].
  destruct (uri_unreserved c) eqn:Hu.
  - change (Harness.decodeURIComponent (String c (encodeURIComponent r))
            = Some (String c r)).
    rewrite (decode_plain c _ (unreserved_not_percent c Hu)), IH. reflexivity.
  - rewrite decode_pct, IH. reflexivity.
Qed.

Lemma strip_prefix_app (p s : string) : Harness.strip_prefix p (p ++ s) = Some s.
Proof.
  induction p as [|c p IH]; simpl.
  - destruct s; reflexivity.
  - now rewrite Ascii.eqb_refl.
Qed.

(** ** Reading JSON strings and numbers back *)

Lemma parse_chars_escape_char (c : ascii) (tail : string) :
  Harness.parse_chars (json_escape_char c ++ tail) =
  match Harness.parse_chars tail with
  | Some (t, rest) => Some (String c t, rest)
  | None => None
  end.
Proof.
  destruct c as [[] [] [] [] [] [] [] []];
    match goal with
    | |- context [json_escape_char ?c] =>
        let e := eval vm_compute in (json_escape_char c) in
        change (json_escape_char c) with e
    end;
    cbn [String.append]; simpl;
    destruct (Harness.parse_chars tail) as [[t rest]|]; reflexivity.
Qed.

Lemma parse_chars_escape (s rest : string) :
  Harness.parse_chars (json_escape s ++ dquote ++ rest) = Some (s, rest).
Proof.
  induction s as [|c s IH].
  - reflexivity.
  - cbn [json_escape]. rewrite append_assoc, parse_chars_escape_char, IH. reflexivity.
Qed.

Lemma span_digits_uint (d : Decimal.uint) (rest : string) :
  starts_digit rest = false ->
  Harness.span_digits (NilEmpty.string_of_uint d ++ rest)
  = (NilEmpty.string_of_uint d, rest).
Proof.
  intro Hr. induction d; cbn [NilEmpty.string_of_uint]; simpl String.append;
    try (cbn [Harness.span_digits]; change (Harness.is_digit _) with true; cbv iota;
         rewrite IHd; reflexivity).
  destruct rest as [|c r]; [reflexivity|].
  cbn [Harness.span_digits]. cbn [starts_digit] in Hr. rewrite Hr. reflexivity.
Qed.

Lemma span_digits_nzuint (d : Decimal.uint) (rest : string) :
  starts_digit rest = false ->
  Harness.span_digits (NilZero.string_of_uint d ++ rest)
  = (NilZero.string_of_uint d, rest).
Proof.
  intro Hr. destruct d; try apply (span_digits_uint _ rest Hr).
  change (NilZero.string_of_uint Decimal.Nil) with "0".
  simpl String.append. cbn [Harness.span_digits]. change (Harness.is_digit "0") with true. cbv iota.
  destruct rest as [|c r]; [reflexivity|].
  cbn [Harness.span_digits]. cbn [starts_digit] in Hr. rewrite Hr. reflexivity.
Qed.

Lemma uint_first_digit (d : Decimal.uint) :
  exists c s, NilZero.string_of_uint d = String c s /\ Harness.is_digit c = true.
Proof. destruct d; cbn; eauto. Qed.

Lemma Z_to_string_cases (z : Z) :
  exists d, Z_to_string z = NilZero.string_of_uint d \/
            Z_to_string z = String "-" (NilZero.string_of_uint d).
Proof.
  unfold Z_to_string. destruct (Z.to_int z) as [d|d]; exists d; [left | right]; reflexivity.
Qed.

Lemma span_number_Z (z : Z) (rest : string) :
  starts_digit rest = false ->
  Harness.span_number (Z_to_string z ++ rest) = (Z_to_string z, rest).
Proof.
  intro Hr. destruct (Z_to_string_cases z) as [d [-> | ->]].
  - destruct (uint_first_digit d) as (c & s & Hs & Hc).
    pose proof (span_digits_nzuint d rest Hr) as H.
    rewrite Hs in *. simpl String.append in *.
    unfold Harness.span_number.
    destruct (Ascii.eqb c "-") eqn:E; [|exact H].
    apply Ascii.eqb_eq in E. subst c. discriminate Hc.
  - simpl String.append. cbn [Harness.span_number]. rewrite Ascii.eqb_refl.
    rewrite (span_digits_nzuint d rest Hr). reflexivity.
Qed.

Lemma to_int_not_nil (z : Z) :
  Z.to_int z <> Decimal.Pos Decimal.Nil /\ Z.to_int z <> Decimal.Neg Decimal.Nil.
Proof.
  destruct z as [|p|p]; simpl; split; try discriminate;
    intro H; inversion H as [H']; now apply Unsigned.to_uint_nonnil in H'.
Qed.

Lemma parse_number_Z (z : Z) (rest : string) :
  starts_digit rest = false ->
  Harness.starts_fraction rest = false ->
  Harness.parse_number (Z_to_string z ++ rest) = Some (z, rest).
Proof.
  intros Hd Hf. unfold Harness.parse_number.
  rewrite (span_number_Z z rest Hd).
  unfold Z_to_string at 1.
  destruct (to_int_not_nil z) as [H1 H2].
  rewrite (NilZero.isi _ H1 H2).
  rewrite DecimalZ.of_to, String.eqb_refl, Hf. reflexivity.
Qed.

Lemma ends_value_number (rest : string) :
  ends_value rest = true ->
  starts_digit rest = false /\ Harness.starts_fraction rest = false.
Proof.
  destruct rest as [|c r]; [split; reflexivity|].
  cbn [ends_value starts_digit Harness.starts_fraction]. intro H.
  apply orb_true_iff in H. destruct H as [H|H]; [apply orb_true_iff in H; destruct H as [H|H]|];
    apply Ascii.eqb_eq in H; subst c; split; reflexivity.
Qed.

Lemma ends_value_skip (rest : string) :
  ends_value rest = true -> Harness.skip_ws rest = rest.
Proof.
  destruct rest as [|c r]; [reflexivity|].
  cbn [ends_value]. intro H.
  apply orb_true_iff in H. destruct H as [H|H]; [apply orb_true_iff in H; destruct H as [H|H]|];
    apply Ascii.eqb_eq in H; subst c; reflexivity.
Qed.

Lemma number_start_facts (c : ascii) :
  number_start c = true ->
  Harness.is_ws c = false /\
  Nat.eqb (nat_of_ascii c) 34 = false /\
  Ascii.eqb c "[" = false /\ Ascii.eqb c "{" = false /\
  Ascii.eqb "n" c = false /\ Ascii.eqb "t" c = false /\ Ascii.eqb "f" c = false /\
  Ascii.eqb c "]" = false /\ Ascii.eqb c "}" = false.
Proof.
  destruct c as [[] [] [] [] [] [] [] []]; vm_compute; intro H;
    try discriminate H; repeat split.
Qed.

Lemma Z_to_string_start (z : Z) :
  exists c s, Z_to_string z = String c s /\ number_start c = true.
Proof.
  destruct (Z_to_string_cases z) as [d [-> | ->]].
  - destruct (uint_first_digit d) as (c & s & -> & Hc).
    exists c, s. split; [reflexivity|]. unfold number_start. now rewrite Hc.
  - eexists _, _. split; reflexivity.
Qed.

Lemma parse_value_number (f : nat) (z : Z) (rest : string) :
  ends_value rest = true ->
  Harness.parse_value (S f) (Z_to_string z ++ rest) = Some (VNum z, rest).
Proof.
  intro He. destruct (ends_value_number rest He) as [Hd Hf].
  pose proof (parse_number_Z z rest Hd Hf) as Hn.
  destruct (Z_to_string_start z) as (c & s & Hs & Hc).
  rewrite Hs in *. simpl String.append in *.
  destruct (number_start_facts c Hc) as (H1 & H2 & H3 & H4 & H5 & H6 & H7 & _).
  cbn [Harness.parse_value Harness.skip_ws]. rewrite H1, H2, H3, H4.
  cbn [Harness.strip_prefix]. rewrite H5, H6, H7, Hn. reflexivity.
Qed.

Lemma value_start_facts (c : ascii) :
  value_start c = true ->
  Harness.is_ws c = false /\ Ascii.eqb c "]" = false /\ Ascii.eqb c "}" = false.
Proof.
  destruct c as [[] [] [] [] [] [] [] []]; vm_compute; intro H;
    try discriminate H; repeat split.
Qed.

Lemma print_start (v : value) :
  exists c s, print v = String c s /\ value_start c = true.
Proof.
  destruct v as [| |[]|z|s|xs|fs|f]; try (eexists _, _; split; reflexivity).
  destruct (Z_to_string_start z) as (c & s & Hs & Hc).
  exists c, s. split; [exact Hs|]. unfold value_start. now rewrite Hc.
Qed.

Lemma skip_ws_print (v : value) (rest : string) :
  Harness.skip_ws (print v ++ rest) = print v ++ rest.
Proof.
  destruct (print_start v) as (c & s & -> & Hc).
  destruct (value_start_facts c Hc) as (H & _).
  simpl String.append. cbn [Harness.skip_ws]. now rewrite H.
Qed.

Lemma parse_value_scalar (f : nat) (v : value) (rest : string) :
  match v with VArr _ | VObj _ => False | _ => True end ->
  ends_value rest = true ->
  Harness.parse_value (S f) (print v ++ rest) = Some (image v, rest).
Proof.
  intros Hs He. destruct v as [| |[]|z|s|xs|fs|[]]; try contradiction;
    try reflexivity.
  - apply (parse_value_number f z rest He).
  - change (print (VStr s)) with (dquote ++ json_escape s ++ dquote).
    rewrite !append_assoc.
    change (dquote ++ json_escape s ++ dquote ++ rest)
      with (String (ascii_of_nat 34) (json_escape s ++ dquote ++ rest)).
    cbn [Harness.parse_value Harness.skip_ws].
    change (Harness.is_ws (ascii_of_nat 34)) with false. cbv iota.
    change (Nat.eqb (nat_of_ascii (ascii_of_nat 34)) 34) with true. cbv iota.
    now rewrite parse_chars_escape.
Qed.

(** ** Reading JSON values back *)

Lemma need_arr (xs : list value) : need (VArr xs) = S (need_elements xs).
Proof. reflexivity. Qed.

Lemma need_obj (fs : props) : need (VObj fs) = S (need_members (members fs)).
Proof.
  cbn [need]. f_equal.
  induction fs as [|[k v] r IH]; [reflexivity|].
  cbn [members filter snd]. destruct (printable v); [|exact IH].
  cbn [need_members fold_right snd]. now rewrite IH.
Qed.

Lemma stringify_printable (v : value) :
  printable v = true -> JSON_stringify v = Some (print v).
Proof.
  unfold print. destruct v as [| |[]| | | | |]; simpl; try discriminate; reflexivity.
Qed.

Lemma stringify_unprintable (v : value) :
  printable v = false -> JSON_stringify v = None.
Proof. destruct v; simpl; try discriminate; reflexivity. Qed.

Lemma image_printable (v : value) :
  printable v = true -> image v = Harness.json_image v.
Proof. destruct v; simpl; try discriminate; reflexivity. Qed.

Lemma stringify_arr (xs : list value) :
  JSON_stringify (VArr xs) = Some ("[" ++ join "," (map print xs) ++ "]").
Proof. reflexivity. Qed.

Lemma json_image_arr (xs : list value) :
  Harness.json_image (VArr xs) = VArr (map image xs).
Proof. reflexivity. Qed.

Lemma flat_map_members (fs : props) :
  flat_map (fun kv => match JSON_stringify (snd kv) with
                      | Some s => [json_quote (fst kv) ++ ":" ++ s]
                      | None => []
                      end) fs
  = map print_member (members fs).
Proof.
  induction fs as [|[k v] r IH]; [reflexivity|].
  cbn [flat_map members filter map fst snd].
  destruct (printable v) eqn:Hp.
  - rewrite (stringify_printable v Hp). cbn [map app]. now rewrite IH.
  - rewrite (stringify_unprintable v Hp). exact IH.
Qed.

Lemma stringify_obj (fs : props) :
  JSON_stringify (VObj fs)
  = Some ("{" ++ join "," (map print_member (members fs)) ++ "}").
Proof. cbn [JSON_stringify]. now rewrite flat_map_members. Qed.

Lemma flat_map_image (fs : props) :
  flat_map (fun kv => match snd kv with
                      | VUndefined | VFun _ => []
                      | _ => [(fst kv, Harness.json_image (snd kv))]
                      end) fs
  = map image_member (members fs).
Proof.
  induction fs as [|[k v] r IH]; [reflexivity|].
  cbn [flat_map members filter map fst snd].
  destruct v; cbn [printable map app]; rewrite IH; reflexivity.
Qed.

Lemma json_image_obj (fs : props) :
  Harness.json_image (VObj fs) = VObj (map image_member (members fs)).
Proof. cbn [Harness.json_image]. now rewrite flat_map_image. Qed.

Lemma wf_arr (xs : list value) : wf_value (VArr xs) -> Forall wf_value xs.
Proof.
  simpl. induction xs as [|x r IH]; intro H; constructor; [apply H | apply IH, H].
Qed.

Lemma wf_obj (fs : props) :
  wf_value (VObj fs) ->
  NoDup (map fst fs) /\ Forall (fun kv => wf_value (snd kv)) fs.
Proof.
  simpl. intros [Hnd H]. split; [exact Hnd|].
  clear Hnd. induction fs as [|x r IH]; constructor; [apply H | apply IH, H].
Qed.

Lemma skip_ws_comma (t : string) : Harness.skip_ws ("," ++ t) = String "," t.
Proof. reflexivity. Qed.

Lemma parse_elements_print (xs : list value) :
  Forall reads_back xs ->
  xs <> [] ->
  forall fuel rest,
    need_elements xs <= fuel ->
    Harness.parse_elements fuel (join "," (map print xs) ++ "]" ++ rest)
    = Some (map image xs, rest).
Proof.
  induction 1 as [|x r Hx Hr IH]; [congruence|].
  intros _ fuel rest Hfuel.
  destruct fuel as [|f]; [simpl in Hfuel; lia|].
  cbn [need_elements fold_right] in Hfuel. fold (need_elements r) in Hfuel.
  assert (Hfx : need x <= f) by lia.
  assert (Hfr : need_elements r <= f) by lia.
  destruct r as [|y r'].
  - cbn [map join String.concat].
    cbn [Harness.parse_elements].
    rewrite (Hx f ("]" ++ rest) Hfx eq_refl). reflexivity.
  - cbn [map]. rewrite join_cons2, !append_assoc.
    cbn [Harness.parse_elements].
    rewrite (Hx f ("," ++ join "," (print y :: map print r') ++ "]" ++ rest) Hfx eq_refl).
    rewrite skip_ws_comma. cbv iota.
    change (Ascii.eqb "," "]") with false. change (Ascii.eqb "," ",") with true. cbv iota.
    change (map print (y :: r')) with (print y :: map print r') in IH.
    rewrite (IH ltac:(discriminate) f rest Hfr). reflexivity.
Qed.

Lemma parse_members_print (fs : props) :
  Forall (fun kv => reads_back (snd kv)) fs ->
  fs <> [] ->
  forall fuel rest,
    need_members fs <= fuel ->
    Harness.parse_members fuel (join "," (map print_member fs) ++ "}" ++ rest)
    = Some (map image_member fs, rest).
Proof.
  induction 1 as [|[k v] r Hx Hr IH]; [congruence|].
  intros _ fuel rest Hfuel.
  destruct fuel as [|f]; [simpl in Hfuel; lia|].
  cbn [need_members fold_right snd] in Hfuel. fold (need_members r) in Hfuel.
  cbn [snd] in Hx.
  assert (Hfx : need v <= f) by lia.
  assert (Hfr : need_members r <= f) by lia.
  assert (Hstep : forall tail,
    ends_value tail = true ->
    Harness.parse_members (S f) (print_member (k, v) ++ tail)
    = match Harness.skip_ws tail with
      | String d r2 =>
          if Ascii.eqb d "}" then Some ([(k, image v)], r2)
          else if Ascii.eqb d "," then
            match Harness.parse_members f r2 with
            | Some (fs', rest2) => Some ((k, image v) :: fs', rest2)
            | None => None
            end
          else None
      | EmptyString => None
      end).
  { intros tail Ht. unfold print_member, json_quote. cbn [fst snd].
    rewrite !append_assoc.
    change (dquote ++ json_escape k ++ dquote ++ ":" ++ print v ++ tail)
      with (String (ascii_of_nat 34) (json_escape k ++ dquote ++ ":" ++ print v ++ tail)).
    cbn [Harness.parse_members Harness.skip_ws].
    change (Harness.is_ws (ascii_of_nat 34)) with false. cbv iota.
    change (Nat.eqb (nat_of_ascii (ascii_of_nat 34)) 34) with true. cbv iota.
    rewrite parse_chars_escape.
    simpl String.append. cbn [Harness.skip_ws].
    change (Harness.is_ws ":") with false. cbv iota.
    change (Ascii.eqb ":" ":") with true. cbv iota.
    rewrite (Hx f tail Hfx Ht). reflexivity. }
  destruct r as [|y r'].
  - cbn [map join String.concat].
    rewrite (Hstep ("}" ++ rest) eq_refl). reflexivity.
  - cbn [map]. rewrite join_cons2, !append_assoc.
    rewrite (Hstep ("," ++ join "," (print_member y :: map print_member r') ++ "}" ++ rest)
               eq_refl).
    rewrite skip_ws_comma. cbv iota.
    change (Ascii.eqb "," "}") with false. change (Ascii.eqb "," ",") with true. cbv iota.
    change (map print_member (y :: r')) with (print_member y :: map print_member r') in IH.
    rewrite (IH ltac:(discriminate) f rest Hfr). reflexivity.
Qed.

Lemma join_print_start (xs : list value) (tail : string) :
  xs <> [] ->
  exists c s, join "," (map print xs) ++ tail = String c s /\ value_start c = true.
Proof.
  destruct xs as [|x r]; [congruence|]. intros _.
  destruct (print_start x) as (c & s & Hs & Hc).
  destruct r as [|y r'].
  - cbn [map join String.concat]. rewrite Hs. simpl. eauto.
  - cbn [map]. rewrite join_cons2, Hs. simpl. eauto.
Qed.

Lemma join_member_start (fs : props) (tail : string) :
  fs <> [] ->
  exists s, join "," (map print_member fs) ++ tail = String (ascii_of_nat 34) s.
Proof.
  destruct fs as [|[k v] r]; [congruence|]. intros _.
  destruct r as [|y r'].
  - cbn [map join String.concat]. unfold print_member, json_quote. simpl. eauto.
  - cbn [map]. rewrite join_cons2. unfold print_member at 1, json_quote. simpl. eauto.
Qed.

Lemma in_members_keys (fs : props) (k : string) :
  In k (map fst (members fs)) -> In k (map fst fs).
Proof.
  induction fs as [|[k0 v] r IH]; simpl; [tauto|].
  destruct (printable v); simpl; intuition.
Qed.

Lemma NoDup_members (fs : props) :
  NoDup (map fst fs) -> NoDup (map fst (map image_member (members fs))).
Proof.
  rewrite map_map. cbn [image_member fst].
  change (map (fun x : string * value => fst x) (members fs)) with (map fst (members fs)).
  induction fs as [|[k v] r IH]; simpl; intro H; [constructor|].
  inversion H as [|? ? Hnotin Hnd]; subst.
  destruct (printable v); simpl; [|auto].
  constructor; [|auto]. intro Hin. apply Hnotin. now apply in_members_keys.
Qed.

Lemma parse_value_bracket (f : nat) (t : string) :
  Harness.parse_value (S f) ("[" ++ t) =
  match Harness.skip_ws t with
  | String d r' =>
      if Ascii.eqb d "]" then Some (VArr [], r')
      else match Harness.parse_elements f t with
           | Some (xs, rest) => Some (VArr xs, rest)
           | None => None
           end
  | EmptyString => None
  end.
Proof. reflexivity. Qed.

Lemma parse_value_brace (f : nat) (t : string) :
  Harness.parse_value (S f) ("{" ++ t) =
  match Harness.skip_ws t with
  | String d r' =>
      if Ascii.eqb d "}" then Some (VObj [], r')
      else match Harness.parse_members f t with
           | Some (fs, rest) => Some (VObj (obj_spread [] fs), rest)
           | None => None
           end
  | EmptyString => None
  end.
Proof. reflexivity. Qed.

Theorem parse_print (v : value) : wf_value v -> reads_back v.
Proof.
  induction v as [| |b|n|s|xs IH|fs IH|c] using value_ind'; intro Hwf;
    try (intros fuel rest Hfuel He; destruct fuel as [|f]; [simpl in Hfuel; lia|];
         now apply parse_value_scalar).
  - (* arrays *)
    intros fuel rest Hfuel He. rewrite need_arr in Hfuel.
    destruct fuel as [|f]; [lia|]. apply le_S_n in Hfuel.
    assert (Hall : Forall reads_back xs).
    { apply wf_arr in Hwf. clear Hfuel. induction IH as [|x r Hx _ IHr];
        constructor; inversion Hwf; subst; auto. }
    unfold print, image. rewrite stringify_arr, json_image_arr.
    destruct xs as [|x r]; [reflexivity|].
    rewrite !append_assoc.
    destruct (join_print_start (x :: r) ("]" ++ rest) ltac:(discriminate))
      as (c & s & Hs & Hc).
    destruct (value_start_facts c Hc) as (Hws & Hcl & _).
    pose proof (parse_elements_print (x :: r) Hall ltac:(discriminate) f rest Hfuel) as Hp.
    rewrite parse_value_bracket, Hp, Hs.
    cbn [Harness.skip_ws]. rewrite Hws, Hcl. reflexivity.
  - (* objects *)
    intros fuel rest Hfuel He. rewrite need_obj in Hfuel.
    destruct fuel as [|f]; [lia|]. apply le_S_n in Hfuel.
    destruct (wf_obj fs Hwf) as [Hnd Hwfs].
    assert (Hall : Forall (fun kv => reads_back (snd kv)) (members fs)).
    { unfold members. apply Forall_forall. intros kv Hin.
      apply filter_In in Hin. destruct Hin as [Hin _].
      rewrite Forall_forall in IH, Hwfs. auto. }
    unfold print, image. rewrite stringify_obj, json_image_obj.
    destruct (members fs) as [|m ms] eqn:Hm; [reflexivity|].
    rewrite !append_assoc.
    destruct (join_member_start (m :: ms) ("}" ++ rest) ltac:(discriminate)) as (s & Hs).
    pose proof (parse_members_print (m :: ms) Hall ltac:(discriminate) f rest
                  Hfuel) as Hp.
    rewrite parse_value_brace, Hp, Hs.
    cbn [Harness.skip_ws].
    change (Harness.is_ws (ascii_of_nat 34)) with false. cbv iota.
    change (Ascii.eqb (ascii_of_nat 34) "}") with false. cbv iota.
    rewrite obj_spread_nil; [reflexivity|].
    rewrite <- Hm. now apply NoDup_members.
Qed.

Lemma need_elements_bound (xs : list value) :
  Forall (fun x => need x + 1 <= 2 * String.length (print x)) xs ->
  need_elements xs <= 2 * String.length (join "," (map print xs)).
Proof.
  induction 1 as [|x r Hx Hr IH]; [simpl; lia|].
  cbn [need_elements fold_right]. fold (need_elements r).
  destruct r as [|y r'].
  - cbn [map join String.concat need_elements fold_right]. lia.
  - cbn [map]. rewrite length_join_cons2.
    change (map print (y :: r')) with (print y :: map print r') in IH.
    cbn [String.length]. lia.
Qed.

Lemma need_members_bound (fs : props) :
  Forall (fun kv => need (snd kv) + 1 <= 2 * String.length (print (snd kv))) fs ->
  need_members fs <= 2 * String.length (join "," (map print_member fs)).
Proof.
  induction 1 as [|[k v] r Hx Hr IH]; [simpl; lia|].
  cbn [need_members fold_right snd]. fold (need_members r). cbn [snd] in Hx.
  assert (Hm : String.length (print v) + 1 <= String.length (print_member (k, v))).
  { unfold print_member. cbn [fst snd]. rewrite !length_append. cbn [String.length]. lia. }
  destruct r as [|y r'].
  - cbn [map join String.concat need_members fold_right]. lia.
  - cbn [map]. rewrite length_join_cons2.
    change (map print_member (y :: r')) with (print_member y :: map print_member r') in IH.
    cbn [String.length]. lia.
Qed.

Lemma need_bound (v : value) : need v + 1 <= 2 * String.length (print v).
Proof.
  induction v as [| |b|z|s|xs IH|fs IH|c] using value_ind'.
  - cbn; lia.
  - cbn; lia.
  - destruct b; cbn; lia.
  - destruct (Z_to_string_start z) as (c & s & Hs & _).
    change (print (VNum z)) with (Z_to_string z). rewrite Hs. cbn [need String.length]. lia.
  - change (print (VStr s)) with (dquote ++ json_escape s ++ dquote).
    rewrite !length_append. cbn [need dquote String.length]. lia.
  - rewrite need_arr. unfold print. rewrite stringify_arr.
    pose proof (need_elements_bound xs IH).
    rewrite !length_append. cbn [String.length]. lia.
  - rewrite need_obj. unfold print. rewrite stringify_obj.
    assert (Hall : Forall (fun kv => need (snd kv) + 1
                                     <= 2 * String.length (print (snd kv))) (members fs)).
    { unfold members. apply Forall_forall. intros kv Hin.
      apply filter_In in Hin. destruct Hin as [Hin _].
      rewrite Forall_forall in IH. auto. }
    pose proof (need_members_bound (members fs) Hall).
    rewrite !length_append. cbn [String.length]. lia.
  - cbn; lia.
Qed.

(** [JSON.parse(JSON.stringify(v))] is the JSON image of [v]. *)
Theorem JSON_parse_stringify (v : value) (s : string) :
  wf_value v ->
  JSON_stringify v = Some s ->
  Harness.JSON_parse s = Some (Harness.json_image v).
Proof.
  intros Hwf Hs.
  assert (Hp : printable v = true) by (destruct v; simpl in *; congruence || reflexivity).
  rewrite (stringify_printable v Hp) in Hs. inversion Hs; subst s.
  unfold Harness.JSON_parse.
  pose proof (need_bound v) as Hn.
  pose proof (parse_print v Hwf (2 * String.length (print v) + 2) "" ltac:(lia) eq_refl)
    as H.
  rewrite append_nil_r in H. rewrite H.
  rewrite (image_printable v Hp). reflexivity.
Qed.

(** The [c=] parameter of a chart URL decodes to the JSON image of the
    configuration. *)
Theorem decode_chart_url_image (env : Env) (config : value) (s : string) :
  wf_value config ->
  JSON_stringify config = Some s ->
  Harness.decode_chart_url env (QUICKCHART_BASE_URL env ++ "?c=" ++ encodeURIComponent s)
  = Some (Harness.json_image config).
Proof.
  intros Hwf Hs. unfold Harness.decode_chart_url.
  rewrite <- append_assoc, strip_prefix_app, decode_encode.
  now apply JSON_parse_stringify.
Qed.

(** ** What the builder preserves *)

Section BuilderPreserves.

Variable P : value -> Prop.

Hypothesis P_undefined : P VUndefined.
Hypothesis P_string : forall s, P (VStr s).
Hypothesis P_bool : forall b, P (VBool b).
Hypothesis P_get : forall v k, P v -> P (get_prop v k).
Hypothesis P_own : forall v, P v -> values_sat P (own_props v).
Hypothesis P_elems : forall v, P v -> Forall P (array_elems v).
Hypothesis P_obj : forall fs, NoDup (map fst fs) -> values_sat P fs -> P (VObj fs).
Hypothesis P_arr :
  forall xs, Forall (fun x => P x /\ is_object x = true) xs -> P (VArr xs).

Lemma values_sat_set (fs : props) (k : string) (v : value) :
  values_sat P fs -> P v -> values_sat P (obj_set fs k v).
Proof.
  intros H Hv. induction H as [|[k0 v0] r H0 Hr IH]; simpl.
  - repeat constructor. exact Hv.
  - destruct (String.eqb k0 k); constructor; auto.
Qed.

Lemma values_sat_spread (extra : props) :
  values_sat P extra ->
  forall base, values_sat P base -> values_sat P (obj_spread base extra).
Proof.
  unfold obj_spread. induction 1 as [|[k v] r Hv _ IH]; intros base Hb; simpl; [exact Hb|].
  apply IH. now apply values_sat_set.
Qed.

Lemma P_js_or (a b : value) : P a -> P b -> P (js_or a b).
Proof. unfold js_or. destruct (truthy a); auto. Qed.

Lemma P_empty_obj : P (VObj []).
Proof. apply P_obj; constructor. Qed.

Lemma P_normalize_dataset (d nd : value) :
  P d -> normalize_dataset d = Ok nd -> P nd /\ is_object nd = true.
Proof.
  intros Hd. unfold normalize_dataset.
  destruct (falsy d || falsy (get_prop d "data")); [discriminate|].
  intro H. inversion H; subst nd. split; [|reflexivity].
  apply P_obj.
  - apply NoDup_obj_spread. repeat constructor; simpl; intuition discriminate.
  - apply values_sat_spread.
    + apply P_own, P_js_or; [now apply P_get | exact P_empty_obj].
    + unfold builder_fields.
      apply Forall_cons; [apply P_js_or; [now apply P_get | apply P_string]|].
      apply Forall_cons; [now apply P_get|].
      apply Forall_cons; [now apply P_get|].
      apply Forall_cons; [now apply P_get | constructor].
Qed.

Lemma P_mapM_normalize (ds ds' : list value) :
  Forall P ds -> mapM normalize_dataset ds = Ok ds' ->
  Forall (fun x => P x /\ is_object x = true) ds'.
Proof.
  intro H. revert ds'. induction H as [|d r Hd _ IH]; intros ds' Hm; simpl in Hm.
  - inversion Hm. constructor.
  - destruct (normalize_dataset d) as [nd| |] eqn:En; simpl in Hm; try discriminate.
    destruct (mapM normalize_dataset r) as [r'| |]; simpl in Hm; try discriminate.
    inversion Hm; subst. constructor; [eapply P_normalize_dataset; eauto | auto].
Qed.

Lemma P_generateChartConfig (args config : value) :
  (is_gauge (get_prop args "type") = true -> P gauge_plugins) ->
  P args -> generateChartConfig args = Ok config -> P config.
Proof.
  intros Hgauge HP. unfold generateChartConfig.
  destruct (falsy args); [discriminate|].
  destruct (falsy (get_prop args "type")); [discriminate|].
  destruct (validateChartType (get_prop args "type")); simpl; try discriminate.
  assert (Hty : P (get_prop args "type")) by now apply P_get.
  destruct (strict_eq_str (get_prop args "type") "graphviz"
            || strict_eq_str (get_prop args "type") "wordcloud").
  { intro H. inversion H. apply P_obj; repeat constructor; auto. }
  destruct (falsy (get_prop args "datasets") || negb (is_array (get_prop args "datasets")));
    [discriminate|].
  destruct (mapM normalize_dataset (array_elems (get_prop args "datasets")))
    as [ds'| |] eqn:Em; simpl; try discriminate.
  assert (Hds : P (VArr ds')).
  { apply P_arr. eapply P_mapM_normalize; [|exact Em]. now apply P_elems, P_get. }
  set (options := match get_prop args "options" with VUndefined => VObj [] | o => o end).
  assert (Hopt : P options).
  { unfold options. pose proof (P_get args "options" HP) as H.
    destruct (get_prop args "options"); auto. exact P_empty_obj. }
  set (titled := if truthy (get_prop args "title")
                 then VObj [("title", VObj [("display", VBool true);
                                            ("text", get_prop args "title")])]
                 else get_prop args "title").
  assert (Htitled : P titled).
  { unfold titled. pose proof (P_get args "title" HP) as H.
    destruct (truthy (get_prop args "title")); [|exact H].
    apply P_obj; [repeat constructor; simpl; intuition discriminate|].
    apply Forall_cons; [|constructor]. cbn [snd].
    apply P_obj; [repeat constructor; simpl; intuition discriminate|].
    apply Forall_cons; [apply P_bool|]. apply Forall_cons; [exact H | constructor]. }
  set (config_options := obj_spread (obj_spread [] (own_props options)) (own_props titled)).
  assert (Hco_nd : NoDup (map fst config_options)).
  { unfold config_options. apply NoDup_obj_spread, NoDup_obj_spread. constructor. }
  assert (Hco : values_sat P config_options).
  { unfold config_options. apply values_sat_spread; [now apply P_own|].
    apply values_sat_spread; [now apply P_own | constructor]. }
  assert (Hdata : P (VObj [("labels", js_or (get_prop args "labels") (VArr []));
                           ("datasets", VArr ds')])).
  { apply P_obj; [repeat constructor; simpl; intuition discriminate|].
    apply Forall_cons; [|apply Forall_cons; [exact Hds | constructor]].
    apply P_js_or; [now apply P_get | apply P_arr; constructor]. }
  assert (Hplain : P (VObj [("type", get_prop args "type");
                            ("data", VObj [("labels", js_or (get_prop args "labels") (VArr []));
                                           ("datasets", VArr ds')]);
                            ("options", VObj config_options)])).
  { apply P_obj; [repeat constructor; simpl; intuition discriminate|].
    apply Forall_cons; [exact Hty|].
    apply Forall_cons; [exact Hdata|].
    apply Forall_cons; [now apply P_obj | constructor]. }
  fold (is_gauge (get_prop args "type")). fold (is_point_chart (get_prop args "type")).
  destruct (is_gauge (get_prop args "type")).
  - destruct (falsy (first_reading (get_prop args "datasets"))); [discriminate|].
    intro H. inversion H; subst config.
    apply P_obj; [repeat constructor; simpl; intuition discriminate|].
    apply Forall_cons; [exact Hty|].
    apply Forall_cons; [exact Hdata|].
    apply Forall_cons; [|constructor].
    apply P_obj.
    + apply NoDup_obj_set, NoDup_obj_spread. constructor.
    + apply values_sat_set; [|now apply Hgauge].
      apply values_sat_spread; [exact Hco | constructor].
  - destruct (is_point_chart (get_prop args "type")).
    + destruct (forEachM _ _); simpl; try discriminate.
      intro H. inversion H; subst config. exact Hplain.
    + intro H. inversion H; subst config. exact Hplain.
Qed.

End BuilderPreserves.

Lemma wf_arr_intro (xs : list value) : Forall wf_value xs -> wf_value (VArr xs).
Proof. simpl. induction 1; simpl; auto. Qed.

Lemma wf_obj_intro (fs : props) :
  NoDup (map fst fs) -> values_sat wf_value fs -> wf_value (VObj fs).
Proof.
  simpl. intros Hnd H. split; [exact Hnd|].
  clear Hnd. induction H; simpl; auto.
Qed.

Lemma values_sat_get (P : value -> Prop) (fs : props) (k : string) (v : value) :
  values_sat P fs -> obj_get fs k = Some v -> P v.
Proof.
  induction 1 as [|[k0 v0] r H0 _ IH]; simpl; [discriminate|].
  destruct (String.eqb k0 k); [intro H; inversion H; subst; exact H0 | exact IH].
Qed.

Lemma values_sat_index_from (P : value -> Prop) (xs : list value) (i : nat) :
  Forall P xs -> values_sat P (index_from i xs).
Proof.
  intro H. revert i. induction H; intro i; simpl; constructor; auto.
  apply IHForall.
Qed.

Lemma Forall_chars_of (P : value -> Prop) (s : string) :
  (forall t, P (VStr t)) -> Forall P (chars_of s).
Proof. intro H. induction s; simpl; constructor; auto. Qed.

Lemma wf_get_prop (v : value) (k : string) : wf_value v -> wf_value (get_prop v k).
Proof.
  destruct v; try exact (fun _ => I). intro H.
  destruct (wf_obj _ H) as [_ Hv]. unfold get_prop.
  destruct (obj_get fields k) eqn:E; [|exact I].
  eapply values_sat_get; eauto.
Qed.

Lemma wf_own_props (v : value) : wf_value v -> values_sat wf_value (own_props v).
Proof.
  destruct v; intro H; try constructor.
  - apply values_sat_index_from, Forall_chars_of. intro. exact I.
  - apply values_sat_index_from, wf_arr, H.
  - apply (wf_obj _ H).
Qed.

Lemma wf_array_elems (v : value) : wf_value v -> Forall wf_value (array_elems v).
Proof. destruct v; simpl; try constructor. apply wf_arr. Qed.

Lemma wf_gauge_plugins : wf_value gauge_plugins.
Proof.
  unfold gauge_plugins. simpl. repeat split; repeat constructor; simpl; intuition discriminate.
Qed.

Lemma wf_generateChartConfig (args config : value) :
  wf_value args -> generateChartConfig args = Ok config -> wf_value config.
Proof.
  apply (P_generateChartConfig wf_value); try (intros; exact I).
  - exact wf_get_prop.
  - exact wf_own_props.
  - exact wf_array_elems.
  - exact wf_obj_intro.
  - intros xs H. apply wf_arr_intro. eapply Forall_impl; [|exact H]. now intros x [Hx _].
  - intros _. exact wf_gauge_plugins.
Qed.

Lemma carried_arr (xs : list value) :
  carried (VArr xs) <-> Forall (fun x => x <> VUndefined /\ carried x) xs.
Proof.
  simpl. induction xs as [|x r IH]; split; intro H.
  - constructor.
  - exact I.
  - constructor; [apply H | apply IH, H].
  - inversion H; subst. split; [assumption | now apply IH].
Qed.

Lemma carried_obj (fs : props) : carried (VObj fs) <-> values_sat carried fs.
Proof.
  simpl. induction fs as [|x r IH]; split; intro H.
  - constructor.
  - exact I.
  - constructor; [apply H | apply IH, H].
  - inversion H; subst. split; [assumption | now apply IH].
Qed.

Lemma carried_get_prop (v : value) (k : string) : carried v -> carried (get_prop v k).
Proof.
  destruct v; try exact (fun _ => I). intro H.
  apply carried_obj in H. unfold get_prop.
  destruct (obj_get fields k) eqn:E; [|exact I].
  eapply values_sat_get; eauto.
Qed.

Lemma carried_own_props (v : value) : carried v -> values_sat carried (own_props v).
Proof.
  destruct v; intro H; try constructor.
  - apply values_sat_index_from, Forall_chars_of. intro. exact I.
  - apply values_sat_index_from. apply carried_arr in H.
    eapply Forall_impl; [|exact H]. now intros x [_ Hx].
  - now apply carried_obj.
Qed.

Lemma carried_array_elems (v : value) : carried v -> Forall carried (array_elems v).
Proof.
  destruct v; simpl; try constructor. intro H.
  change (carried (VArr xs)) in H. apply carried_arr in H.
  eapply Forall_impl; [|exact H]. now intros x [_ Hx].
Qed.

Lemma carried_generateChartConfig (args config : value) :
  is_gauge (get_prop args "type") = false ->
  carried args -> generateChartConfig args = Ok config -> carried config.
Proof.
  intro Hng.
  apply (P_generateChartConfig carried); try (intros; exact I).
  - exact carried_get_prop.
  - exact carried_own_props.
  - exact carried_array_elems.
  - intros fs _ H. now apply carried_obj.
  - intros xs H. apply carried_arr. eapply Forall_impl; [|exact H].
    intros x [Hx Ho]. split; [|exact Hx]. destruct x; discriminate.
  - rewrite Hng. discriminate.
Qed.

Lemma json_input_carried (v : value) : json_input v -> carried v.
Proof.
  induction v as [| |b|z|s|xs IH|fs IH|c] using value_ind'; try exact (fun _ => I);
    try (intros []).
  - intro H. apply carried_arr. simpl in H.
    induction IH as [|x r Hx _ IHr]; constructor.
    + destruct H as [H _]. split; [destruct x; simpl in H; try contradiction; discriminate
                                  | now apply Hx].
    + apply IHr, H.
  - intro H. apply carried_obj. simpl in H.
    induction IH as [|x r Hx _ IHr]; constructor.
    + now apply Hx, H.
    + apply IHr, H.
Qed.

Lemma json_image_carried (v : value) :
  carried v -> Harness.json_image v = Harness.drop_undefined v.
Proof.
  induction v as [| |b|z|s|xs IH|fs IH|c] using value_ind'; try reflexivity.
  - intro H. apply carried_arr in H. cbn [Harness.json_image Harness.drop_undefined].
    f_equal. induction IH as [|x r Hx _ IHr]; [reflexivity|].
    inversion H as [|? ? [Hne Hc] Hr]; subst. cbn [map]. rewrite IHr by assumption.
    f_equal. rewrite <- (Hx Hc). destruct x; try reflexivity; [congruence | destruct Hc].
  - intro H. apply carried_obj in H. cbn [Harness.json_image Harness.drop_undefined].
    f_equal. induction IH as [|[k x] r Hx _ IHr]; [reflexivity|].
    inversion H as [|? ? Hc Hr]; subst. cbn [flat_map fst snd] in *.
    rewrite IHr by assumption. f_equal.
    destruct x; try reflexivity; try (rewrite <- (Hx Hc); reflexivity). destruct Hc.
Qed.

(** ** The round trip of the chart URL *)

(** The URL of a built chart configuration: the configuration is
    well-formed, it has a JSON text, and the URL carries that text. *)
Lemma chart_url_built (env : Env) (args config : value) :
  wf_value args ->
  is_placeholder_type (get_prop args "type") = false ->
  generateChartConfig args = Ok config ->
  wf_value config /\
  JSON_stringify config = Some (print config) /\
  generateChartUrl env config args =
    Ok (QUICKCHART_BASE_URL env ++ "?c=" ++ encodeURIComponent (print config)).
Proof.
  intros Hwf Hnp Hc.
  pose proof (wf_generateChartConfig args config Hwf Hc) as Hwc.
  destruct (generateChartConfig_type args config Hc Hnp) as [Hty Hobj].
  unfold is_placeholder_type in Hnp. apply orb_false_iff in Hnp. destruct Hnp as [Hg Hw].
  assert (Hs : JSON_stringify config = Some (print config)).
  { apply stringify_printable. destruct config; try discriminate. reflexivity. }
  repeat split; [exact Hwc | exact Hs |].
  unfold generateChartUrl. rewrite Hty, Hg, Hw, Hs. reflexivity.
Qed.



(** C1, the failing input. The configuration built for a [radialGauge]
    request carries the datalabels formatter; the URL does not: decoding
    the [c=] parameter gives a structure without it, which differs from the
    configuration even when properties holding [undefined] are ignored. The
    URL is the one of the configuration without the formatter, so no
    decoder can give the formatter back. *)
Theorem gauge_formatter_lost :
  generateChartConfig gauge_example = Ok gauge_config /\
  generateChartUrl default_env gauge_config gauge_example = Ok gauge_url /\
  Harness.decode_chart_url default_env gauge_url = Some gauge_decoded /\
  formatter_of gauge_config = VFun FormatterIdentity /\
  formatter_of gauge_decoded = VUndefined /\
  gauge_decoded <> Harness.drop_undefined gauge_config /\
  generateChartUrl default_env gauge_decoded gauge_example = Ok gauge_url.
Proof.
  repeat split; try (vm_compute; reflexivity).
  vm_compute. intro H. inversion H.
Qed.

(* ------------------------------------------------------------------ *)
(** ** Outcomes of the builder *)

Lemma chart_type_cases (type : value) :
  is_chart_type type = true ->
  truthy type = true /\ includes validTypes type = true /\
  is_placeholder_type type = false.
Proof.
  unfold is_chart_type, includes, is_placeholder_type, strict_eq_str.
  destruct type as [| | | |s| | |]; try discriminate.
  cbn [existsb StdioVariant.validTypes validTypes]. intro H.
  repeat (apply orb_true_iff in H; destruct H as [H | H]);
    try discriminate; apply String.eqb_eq in H; subst; auto.
Qed.

Lemma plain_type_cases (type : value) :
  is_plain_type type = true ->
  is_chart_type type = true /\ is_gauge type = false /\ is_point_chart type = false.
Proof.
  unfold is_plain_type, is_chart_type, includes, is_gauge, is_point_chart, strict_eq_str.
  destruct type as [| | | |s| | |]; try discriminate.
  cbn [existsb]. intro H.
  repeat (apply orb_true_iff in H; destruct H as [H | H]);
    try discriminate; apply String.eqb_eq in H; subst; auto.
Qed.

Lemma validate_chart_type (type : value) :
  is_chart_type type = true -> validateChartType type = Ok tt.
Proof.
  intro H. destruct (chart_type_cases type H) as (_ & Hin & _).
  unfold validateChartType. now rewrite Hin.
Qed.

Lemma chart_type_object (args : value) :
  is_chart_type (get_prop args "type") = true -> exists fs, args = VObj fs.
Proof.
  intro H. apply (truthy_get_prop_obj args "type").
  intro E. rewrite E in H. discriminate.
Qed.

Lemma forEachM_check_cases (type : value) (ds : list value) :
  forEachM (check_point_format type) ds = Ok tt \/
  fails_with (forEachM (check_point_format type) ds) InvalidParams.
Proof.
  induction ds as [|d r IH]; simpl; [now left|].
  unfold check_point_format at 1 3.
  destruct (negb (is_array (first_point d))); simpl; [right; eexists; reflexivity | exact IH].
Qed.

Lemma generateChartConfig_cases (args : value) :
  (exists fs, generateChartConfig args = Ok (VObj fs)) \/
  fails_with (generateChartConfig args) InvalidParams.
Proof.
  unfold generateChartConfig.
  destruct (falsy args); [right; eexists; reflexivity|].
  destruct (falsy (get_prop args "type")); [right; eexists; reflexivity|].
  unfold validateChartType.
  destruct (negb (includes validTypes (get_prop args "type")));
    [right; eexists; reflexivity|]. cbn [bind].
  destruct (strict_eq_str (get_prop args "type") "graphviz"
            || strict_eq_str (get_prop args "type") "wordcloud"); [left; eauto|].
  destruct (falsy (get_prop args "datasets") || negb (is_array (get_prop args "datasets")));
    [right; eexists; reflexivity|].
  destruct (mapM_normalize_dataset (array_elems (get_prop args "datasets")))
    as [[ds' ->] | ->]; cbn [bind]; [|right; eexists; reflexivity].
  destruct (strict_eq_str (get_prop args "type") "radialGauge"
            || strict_eq_str (get_prop args "type") "speedometer").
  - destruct (falsy (first_reading (get_prop args "datasets")));
      [right; eexists; reflexivity | left; eauto].
  - destruct (strict_eq_str (get_prop args "type") "scatter"
              || strict_eq_str (get_prop args "type") "bubble"); [|left; eauto].
    destruct (forEachM_check_cases (get_prop args "type")
                (array_elems (get_prop args "datasets"))) as [-> | [m ->]];
      cbn [bind]; [left; eauto | right; eexists; reflexivity].
Qed.

(** X1. Whatever its argument is, [generateChartConfig] throws nothing but
    an [McpError] with the code [InvalidParams], and what it returns is an
    object. *)
Theorem builder_throws_only_InvalidParams (args : value) :
  (forall m, generateChartConfig args <> JsErr m) /\
  (forall c m, generateChartConfig args = McpErr c m -> c = InvalidParams) /\
  (forall config, generateChartConfig args = Ok config -> is_object config = true).
Proof.
  destruct (generateChartConfig_cases args) as [[fs H] | [m H]]; rewrite H;
    repeat split; intros; try discriminate;
    match goal with E : _ = _ |- _ => inversion E; reflexivity end.
Qed.

Lemma mapM_length {A B : Type} (f : A -> result B) (l : list A) :
  forall l', mapM f l = Ok l' -> length l' = length l.
Proof.
  induction l as [|x r IH]; simpl; intros l' H.
  - now inversion H.
  - destruct (f x); simpl in H; try discriminate.
    destruct (mapM f r); simpl in H; try discriminate.
    inversion H; subst. simpl. f_equal. now apply IH.
Qed.

Lemma has_or_lacks_data (ds : list value) :
  Forall has_data ds \/ Exists lacks_data ds.
Proof.
  induction ds as [|d r [IH | IH]];
    [left; constructor | |right; constructor 2; exact IH].
  destruct (truthy d) eqn:Hd;
    [|right; constructor 1; left; unfold falsy; now rewrite Hd].
  destruct (truthy (get_prop d "data")) eqn:Hdata;
    [|right; constructor 1; right; unfold falsy; now rewrite Hdata].
  left. constructor; [split; assumption | exact IH].
Qed.

Lemma mapM_normalize_dataset_lacking (ds : list value) :
  Exists lacks_data ds ->
  mapM normalize_dataset ds =
    McpErr InvalidParams "Each dataset must have a data property".
Proof.
  induction 1 as [d r Hd | d r _ IH]; simpl.
  - unfold normalize_dataset.
    replace (falsy d || falsy (get_prop d "data")) with true; [reflexivity|].
    symmetry. apply orb_true_iff. exact Hd.
  - destruct (normalize_dataset_cases d) as [[nd ->] | ->]; simpl; [|reflexivity].
    now rewrite IH.
Qed.

Lemma generateChartConfig_not_array (args : value) :
  is_chart_type (get_prop args "type") = true ->
  is_array (get_prop args "datasets") = false ->
  generateChartConfig args = McpErr InvalidParams "Datasets must be a non-empty array".
Proof.
  intros H Hds. destruct (chart_type_cases _ H) as (Ht & Hin & Hnp).
  destruct (chart_type_object args H) as [fs ->].
  unfold generateChartConfig.
  change (falsy (VObj fs)) with false. cbv iota.
  unfold falsy at 1. rewrite Ht. cbn [negb].
  rewrite (validate_chart_type _ H). cbn [bind].
  unfold is_placeholder_type in Hnp. rewrite Hnp, Hds.
  now rewrite orb_true_r.
Qed.

(** The builder on one of the ten chart types, once [datasets] is known to
    be an array. *)
Lemma generateChartConfig_array (args : value) (ds : list value) :
  is_chart_type (get_prop args "type") = true ->
  get_prop args "datasets" = VArr ds ->
  generateChartConfig args =
    let type := get_prop args "type" in
    let title := get_prop args "title" in
    let options :=
      match get_prop args "options" with VUndefined => VObj [] | o => o end in
    ds' <- mapM normalize_dataset ds ;;
    let config_options :=
      obj_spread (obj_spread [] (own_props options))
        (own_props (if truthy title
                    then VObj [("title", VObj [("display", VBool true); ("text", title)])]
                    else title)) in
    let config :=
      [("type", type);
       ("data", VObj [("labels", js_or (get_prop args "labels") (VArr []));
                      ("datasets", VArr ds')]);
       ("options", VObj config_options)] in
    if is_gauge type then
      if falsy (first_reading (VArr ds)) then
        McpErr InvalidParams (text_of type ++ " requires a single numeric value")
      else
        Ok (VObj (obj_set config "options"
                    (VObj (obj_set (obj_spread [] config_options)
                             "plugins" gauge_plugins))))
    else if is_point_chart type then
      forEachM (check_point_format type) ds ;;;
      Ok (VObj config)
    else Ok (VObj config).
Proof.
  intros H Hds. destruct (chart_type_cases _ H) as (Ht & Hin & Hnp).
  destruct (chart_type_object args H) as [fs ->].
  unfold generateChartConfig.
  change (falsy (VObj fs)) with false. cbv iota.
  unfold falsy at 1. rewrite Ht. cbn [negb].
  rewrite (validate_chart_type _ H). cbn [bind].
  unfold is_placeholder_type in Hnp. rewrite Hnp, Hds.
  reflexivity.
Qed.

Lemma generateChartConfig_lacking (args : value) (ds : list value) :
  is_chart_type (get_prop args "type") = true ->
  get_prop args "datasets" = VArr ds ->
  Exists lacks_data ds ->
  generateChartConfig args =
    McpErr InvalidParams "Each dataset must have a data property".
Proof.
  intros H Hds Hex.
  rewrite (generateChartConfig_array args ds H Hds). cbv zeta.
  now rewrite (mapM_normalize_dataset_lacking ds Hex).
Qed.

(** X2. For each of the ten chart types, the build fails with
    [InvalidParams] and the message of the datasets when [datasets] is not
    an array, and with the message of the data property as soon as one
    dataset is falsy or has a falsy [data], whatever the other datasets and
    the type-specific checks would say. *)
Theorem datasets_checked (args : value) :
  is_chart_type (get_prop args "type") = true ->
  (is_array (get_prop args "datasets") = false ->
   generateChartConfig args =
     McpErr InvalidParams "Datasets must be a non-empty array") /\
  (forall ds, get_prop args "datasets" = VArr ds -> Exists lacks_data ds ->
   generateChartConfig args =
     McpErr InvalidParams "Each dataset must have a data property").
Proof.
  intro H. split.
  - now apply generateChartConfig_not_array.
  - intros ds. now apply generateChartConfig_lacking.
Qed.

(** X2, witness: a gauge request whose second dataset has no data. *)
Lemma datasets_checked_witness :
  generateChartConfig
    (VObj [("type", VStr "radialGauge");
           ("datasets", VArr [VObj [("data", VArr [VNum 7])]; VObj [("label", VStr "b")]])])
  = McpErr InvalidParams "Each dataset must have a data property".
Proof.
  apply (proj2 (datasets_checked
                  (VObj [("type", VStr "radialGauge");
                         ("datasets", VArr [VObj [("data", VArr [VNum 7])];
                                            VObj [("label", VStr "b")]])])
                  eq_refl)
               [VObj [("data", VArr [VNum 7])]; VObj [("label", VStr "b")]]);
    [reflexivity|].
  constructor 2. constructor 1. right. reflexivity.
Defined.

(** X3. For [bar], [line], [pie], [doughnut], [radar] and [polarArea], the
    build succeeds exactly when [datasets] is an array whose elements all
    carry data; the empty array is such an array. *)
Theorem plain_type_success (args : value) :
  is_plain_type (get_prop args "type") = true ->
  (exists config, generateChartConfig args = Ok config) <->
  (exists ds, get_prop args "datasets" = VArr ds /\ Forall has_data ds).
Proof.
  intro Hp. destruct (plain_type_cases _ Hp) as (H & Hg & Hpt). split.
  - intros [config Hc].
    destruct (get_prop args "datasets") as [| | | | |ds| |] eqn:Hds;
      try (rewrite (generateChartConfig_not_array args H) in Hc;
             [discriminate | now rewrite Hds]).
    exists ds. split; [reflexivity|].
    destruct (has_or_lacks_data ds) as [Hall | Hex]; [exact Hall|].
    rewrite (generateChartConfig_lacking args ds H Hds Hex) in Hc. discriminate.
  - intros (ds & Hds & Hall).
    rewrite (generateChartConfig_array args ds H Hds). cbv zeta.
    destruct (mapM_normalize_dataset_ok ds Hall) as [ds' ->]. cbn [bind].
    rewrite Hg, Hpt. eauto.
Qed.

(** X3, witness: a pie chart without any dataset is built. *)
Lemma plain_type_success_witness :
  exists config,
    generateChartConfig (VObj [("type", VStr "pie"); ("datasets", VArr [])]) = Ok config.
Proof.
  apply (proj2 (plain_type_success (VObj [("type", VStr "pie"); ("datasets", VArr [])])
                  eq_refl)).
  exists []. split; [reflexivity | constructor].
Defined.

(* ------------------------------------------------------------------ *)
(** ** The built configuration *)

(** X4. A configuration built for one of the ten chart types has the three
    keys [type], [data] and [options] in this order: the type is the
    caller's, the labels are the caller's or the empty array, and there are
    as many datasets as the caller gave. *)
Theorem built_config_shape (args config : value) :
  is_chart_type (get_prop args "type") = true ->
  generateChartConfig args = Ok config ->
  exists ds ds' opts,
    get_prop args "datasets" = VArr ds /\ length ds' = length ds /\
    config =
      VObj [("type", get_prop args "type");
            ("data", VObj [("labels", js_or (get_prop args "labels") (VArr []));
                           ("datasets", VArr ds')]);
            ("options", VObj opts)].
Proof.
  intros H Hc.
  destruct (get_prop args "datasets") as [| | | | |ds| |] eqn:Hds;
    try (rewrite (generateChartConfig_not_array args H) in Hc;
           [discriminate | now rewrite Hds]).
  rewrite (generateChartConfig_array args ds H Hds) in Hc. cbv zeta in Hc.
  destruct (mapM normalize_dataset ds) as [ds'| |] eqn:Hmap; cbn [bind] in Hc;
    try discriminate.
  exists ds, ds'. pose proof (mapM_length _ _ _ Hmap) as Hlen.
  destruct (is_gauge (get_prop args "type")).
  - destruct (falsy (first_reading (VArr ds))); [discriminate|].
    inversion Hc; subst. eexists.
    split; [reflexivity | split; [exact Hlen | reflexivity]].
  - destruct (is_point_chart (get_prop args "type")).
    + destruct (forEachM _ ds); cbn [bind] in Hc; try discriminate.
      inversion Hc; subst. eexists.
      split; [reflexivity | split; [exact Hlen | reflexivity]].
    + inversion Hc; subst. eexists.
      split; [reflexivity | split; [exact Hlen | reflexivity]].
Qed.

(** X4, witness: the scatter example. *)
Lemma built_config_shape_witness :
  exists config ds ds' opts,
    generateChartConfig scatter_example = Ok config /\
    get_prop scatter_example "datasets" = VArr ds /\ length ds' = length ds /\
    config =
      VObj [("type", VStr "scatter");
            ("data", VObj [("labels", VArr []); ("datasets", VArr ds')]);
            ("options", VObj opts)].
Proof.
  destruct (generateChartConfig scatter_example) as [config| |] eqn:Hc;
    [|discriminate Hc|discriminate Hc].
  destruct (built_config_shape scatter_example config eq_refl Hc)
    as (ds & ds' & opts & H1 & H2 & H3).
  exists config, ds, ds', opts. repeat split; assumption.
Defined.

Lemma own_props_falsy (v : value) : falsy v = true -> own_props v = [].
Proof.
  destruct v as [| |b|n|s|xs|fs|c]; try reflexivity; try discriminate.
  unfold falsy. simpl. rewrite negb_involutive. intro H.
  apply String.eqb_eq in H. now subst.
Qed.

Lemma to_uint_not_nil (n : nat) : Nat.to_uint n <> Decimal.Nil.
Proof.
  intro H. pose proof (Unsigned.of_to n) as Hn. rewrite H in Hn.
  simpl in Hn. subst n. discriminate.
Qed.

Lemma nat_to_string_inj (a b : nat) : nat_to_string a = nat_to_string b -> a = b.
Proof.
  unfold nat_to_string. intro H.
  apply (f_equal NilZero.uint_of_string) in H.
  rewrite !NilZero.usu in H by apply to_uint_not_nil.
  inversion H. now apply Unsigned.to_uint_inj.
Qed.

Lemma in_keys_index_from (xs : list value) :
  forall i k, In k (map fst (index_from i xs)) ->
              exists j, i <= j /\ k = nat_to_string j.
Proof.
  induction xs as [|x r IH]; simpl; intros i k H; [contradiction|].
  destruct H as [<- | H]; [exists i; split; [lia | reflexivity]|].
  destruct (IH _ _ H) as (j & Hj & ->). exists j. split; [lia | reflexivity].
Qed.

Lemma NoDup_index_from (xs : list value) :
  forall i, NoDup (map fst (index_from i xs)).
Proof.
  induction xs as [|x r IH]; simpl; intro i; constructor; [|apply IH].
  intro H. destruct (in_keys_index_from _ _ _ H) as (j & Hj & E).
  apply nat_to_string_inj in E. lia.
Qed.

Lemma NoDup_own_props (v : value) : wf_value v -> NoDup (map fst (own_props v)).
Proof.
  destruct v; simpl own_props; intro H;
    try constructor; try apply NoDup_index_from.
  now apply wf_obj in H.
Qed.

Lemma NoDup_caller_options (args : value) :
  wf_value args -> NoDup (map fst (caller_options args)).
Proof.
  intro H. unfold caller_options. apply NoDup_own_props.
  pose proof (wf_get_prop args "options" H) as Ho.
  destruct (get_prop args "options"); try exact Ho.
  split; [constructor | exact I].
Qed.

(** X5. In the options of a built configuration, a truthy [title] of the
    request replaces the [title] of the caller's options by the title block,
    a gauge type replaces the caller's [plugins] by the datalabels block, and
    every other option is the caller's; a request without [options] counts
    as one with empty options. *)
Theorem options_merged (args config : value) :
  is_chart_type (get_prop args "type") = true ->
  wf_value args ->
  generateChartConfig args = Ok config ->
  get_prop (get_prop config "options") "title" =
    (if truthy (get_prop args "title") then title_block (get_prop args "title")
     else get_prop (VObj (caller_options args)) "title") /\
  get_prop (get_prop config "options") "plugins" =
    (if is_gauge (get_prop args "type") then gauge_plugins
     else get_prop (VObj (caller_options args)) "plugins") /\
  forall k, k <> "title" -> k <> "plugins" ->
    get_prop (get_prop config "options") k = get_prop (VObj (caller_options args)) k.
Proof.
  intros H Hwf Hc.
  pose proof (NoDup_caller_options args Hwf) as Hnd.
  destruct (get_prop args "datasets") as [| | | | |ds| |] eqn:Hds;
    try (rewrite (generateChartConfig_not_array args H) in Hc;
           [discriminate | now rewrite Hds]).
  rewrite (generateChartConfig_array args ds H Hds) in Hc. cbv zeta in Hc.
  destruct (mapM normalize_dataset ds) as [ds'| |] eqn:Hmap; cbn [bind] in Hc;
    try discriminate.
  change (own_props (match get_prop args "options" with
                     | VUndefined => VObj []
                     | o => o
                     end)) with (caller_options args) in Hc.
  set (opts := caller_options args) in *.
  rewrite (obj_spread_nil opts Hnd) in Hc.
  set (titled := own_props (if truthy (get_prop args "title")
                            then VObj [("title", VObj [("display", VBool true);
                                                        ("text", get_prop args "title")])]
                            else get_prop args "title")) in *.
  assert (Hnt : NoDup (map fst titled)).
  { subst titled. destruct (truthy (get_prop args "title")) eqn:Ht.
    - simpl. constructor; [intros []| constructor].
    - rewrite own_props_falsy; [constructor | unfold falsy; now rewrite Ht]. }
  assert (Hget : forall k, get_prop (VObj (obj_spread opts titled)) k =
            if String.eqb k "title" && truthy (get_prop args "title")
            then title_block (get_prop args "title") else get_prop (VObj opts) k).
  { intro k. unfold get_prop at 1. rewrite (obj_get_spread titled Hnt).
    subst titled. destruct (truthy (get_prop args "title")) eqn:Ht.
    - cbn [own_props obj_get]. rewrite (String.eqb_sym k "title").
      destruct (String.eqb "title" k); reflexivity.
    - rewrite own_props_falsy; [|unfold falsy; now rewrite Ht].
      rewrite andb_false_r. reflexivity. }
  assert (Hns : NoDup (map fst (obj_spread opts titled)))
    by (apply NoDup_obj_spread; exact Hnd).
  assert (Hopt : get_prop config "options" =
            if is_gauge (get_prop args "type")
            then VObj (obj_set (obj_spread opts titled) "plugins" gauge_plugins)
            else VObj (obj_spread opts titled)).
  { destruct (is_gauge (get_prop args "type")).
    - destruct (falsy (first_reading (VArr ds))); [discriminate|].
      inversion Hc; subst. rewrite (obj_spread_nil _ Hns). reflexivity.
    - destruct (is_point_chart (get_prop args "type")).
      + destruct (forEachM _ ds); cbn [bind] in Hc; try discriminate.
        inversion Hc; subst. reflexivity.
      + inversion Hc; subst. reflexivity. }
  rewrite Hopt. clear Hopt Hc.
  assert (Hset : forall k,
            get_prop (VObj (obj_set (obj_spread opts titled) "plugins" gauge_plugins)) k =
            if String.eqb "plugins" k then gauge_plugins
            else get_prop (VObj (obj_spread opts titled)) k).
  { intro k. unfold get_prop. rewrite obj_get_set.
    destruct (String.eqb "plugins" k); reflexivity. }
  repeat split.
  - destruct (is_gauge (get_prop args "type")); [rewrite Hset|]; rewrite Hget; reflexivity.
  - destruct (is_gauge (get_prop args "type")); [rewrite Hset; reflexivity|].
    rewrite Hget. reflexivity.
  - intros k Hk1 Hk2.
    assert (E1 : String.eqb k "title" = false) by now apply String.eqb_neq.
    assert (E2 : String.eqb "plugins" k = false)
      by (apply String.eqb_neq; congruence).
    destruct (is_gauge (get_prop args "type")); [rewrite Hset, E2|];
      rewrite Hget, E1; reflexivity.
Qed.

(** X5, witness: a gauge request with a title and with options of its own:
    the title and the plugins of the options are replaced, the legend is
    kept; and a line request with a title and no options. *)
Lemma options_merged_witness :
  (exists config,
      generateChartConfig gauge_options_example = Ok config /\
      get_prop (get_prop config "options") "title" = title_block (VStr "Load") /\
      get_prop (get_prop config "options") "plugins" = gauge_plugins /\
      get_prop (get_prop config "options") "legend" = VBool false) /\
  (exists config,
      generateChartConfig line_example = Ok config /\
      get_prop (get_prop config "options") "title" = title_block (VStr "Sales") /\
      get_prop (get_prop config "options") "plugins" = VUndefined).
Proof.
  split.
  - destruct (generateChartConfig gauge_options_example) as [config| |] eqn:Hc;
      [|discriminate Hc|discriminate Hc].
    assert (Hwf : wf_value gauge_options_example) 
      by (cbn; repeat split; repeat constructor; simpl; intuition discriminate).
    destruct (options_merged gauge_options_example config eq_refl Hwf Hc)
      as (H1 & H2 & H3).
    exists config. split; [reflexivity | split; [exact H1 | split; [exact H2|]]].
    apply (H3 "legend"); discriminate.
  - destruct (generateChartConfig line_example) as [config| |] eqn:Hc;
      [|discriminate Hc|discriminate Hc].
    assert (Hwf : wf_value line_example) 
      by (cbn; repeat split; repeat constructor; simpl; intuition discriminate).
    destruct (options_merged line_example config eq_refl Hwf Hc)
      as (H1 & H2 & _).
    exists config. split; [reflexivity | split; [exact H1 | exact H2]].
Defined.

(* ------------------------------------------------------------------ *)
(** ** The chart URL *)

Lemma string_forallb_app (p : ascii -> bool) (a b : string) :
  string_forallb p (a ++ b) = string_forallb p a && string_forallb p b.
Proof.
  induction a as [|c r IH]; simpl; [reflexivity|].
  now rewrite IH, andb_assoc.
Qed.

Lemma pct_safe (c : ascii) : string_forallb url_safe (pct c) = true.
Proof. destruct c as [[] [] [] [] [] [] [] []]; reflexivity. Qed.

Lemma encodeURIComponent_safe (s : string) :
  string_forallb url_safe (encodeURIComponent s) = true.
Proof.
  induction s as [|c r IH]; [reflexivity|].
  cbn [encodeURIComponent]. rewrite string_forallb_app, IH, andb_true_r.
  destruct (uri_unreserved c) eqn:Hc; [|apply pct_safe].
  cbn [string_forallb]. unfold url_safe. now rewrite Hc.
Qed.

(** Outside graphs and word clouds the encoder does not read the
    arguments: it is the encoder of the variant. *)
Lemma generateChartUrl_chart (env : Env) (config args : value) :
  is_placeholder_type (get_prop config "type") = false ->
  generateChartUrl env config args =
    Ok (StdioVariant.generateChartUrl env config).
Proof.
  unfold is_placeholder_type, generateChartUrl. intro H.
  apply orb_false_iff in H. destruct H as [-> ->]. reflexivity.
Qed.

(** X6. For a request whose type is neither [graphviz] nor [wordcloud],
    [generate_chart] never fails with [InternalError]: it fails with
    [InvalidParams], or it returns the chart endpoint followed by [?c=] and
    a value made of unreserved characters and percent escapes only, so that
    the whole configuration is one query parameter. *)
Theorem generate_chart_chart_family (env : Env) (args : value) :
  is_placeholder_type (get_prop args "type") = false ->
  fails_with (generate_chart env args) InvalidParams \/
  exists q,
    generate_chart env args = Ok (QUICKCHART_BASE_URL env ++ "?c=" ++ q) /\
    string_forallb url_safe q = true.
Proof.
  intro Hnp. unfold generate_chart.
  destruct (generateChartConfig_cases args) as [[fs Hc] | [m Hm]].
  - rewrite Hc. cbn [bind].
    destruct (generateChartConfig_type _ _ Hc Hnp) as [Hty _].
    rewrite generateChartUrl_chart by now rewrite Hty.
    right. eexists. split; [reflexivity|]. apply encodeURIComponent_safe.
  - rewrite Hm. left. eexists. reflexivity.
Qed.

(** X6, witness: the bar example. *)
Lemma generate_chart_chart_family_witness :
  fails_with (generate_chart default_env bar_override_example) InvalidParams \/
  exists q,
    generate_chart default_env bar_override_example
      = Ok (QUICKCHART_BASE_URL default_env ++ "?c=" ++ q) /\
    string_forallb url_safe q = true.
Proof. apply generate_chart_chart_family. reflexivity. Defined.

(** X7. For a request whose type is neither [graphviz] nor [wordcloud], the
    answer of [generate_chart] depends on the fields [type], [datasets],
    [labels], [title] and [options] only: every other field of the request
    is ignored. *)
Theorem chart_url_reads_five_fields (env : Env) (a b : props) :
  same_fields a b ->
  is_placeholder_type (get_prop (VObj a) "type") = false ->
  generate_chart env (VObj a) = generate_chart env (VObj b).
Proof.
  intros Hab Hnp. unfold generate_chart.
  rewrite (generateChartConfig_ext a b Hab).
  destruct (generateChartConfig (VObj b)) as [config| |] eqn:Hc; cbn [bind];
    try reflexivity.
  assert (Hnp' : is_placeholder_type (get_prop (VObj b) "type") = false).
  { rewrite <- (Hab "type"); [exact Hnp | simpl; auto]. }
  destruct (generateChartConfig_type _ _ Hc Hnp') as [Hty _].
  rewrite !generateChartUrl_chart by now rewrite Hty.
  reflexivity.
Qed.

(** X7, witness: a bar request with a [dot], a [width] and a [text] gets
    the answer of the request without them. *)
Lemma chart_url_reads_five_fields_witness :
  generate_chart default_env (VObj bar_with_others)
  = generate_chart default_env (VObj bar_plain).
Proof.
  apply chart_url_reads_five_fields; [|reflexivity].
  intros k Hin. simpl in Hin.
  destruct Hin as [<- | [<- | [<- | [<- | [<- | []]]]]]; reflexivity.
Defined.



(* ------------------------------------------------------------------ *)
(** ** Normalisation, again *)

Lemma NoDup_lift_nested (config : value) (k : string) (n : props) :
  NoDup (map fst n) -> NoDup (map fst (lift_nested config k n)).
Proof.
  intro H. unfold lift_nested.
  destruct (_ && _); [now apply NoDup_obj_set | exact H].
Qed.

(** Once a configuration is normalised, no lifting step applies to it. *)
Lemma lift_nested_settled (fs n : props) (k : string) :
  NoDup (map fst fs) ->
  In k ["type"; "datasets"; "labels"] ->
  normalizedConfig (VObj fs) = VObj n ->
  lift_nested (VObj n) k n = n.
Proof.
  intros Hnd Hin Hn. unfold lift_nested.
  assert (Hdata : get_prop (VObj n) "data" = get_prop (VObj fs) "data").
  { rewrite <- Hn. apply normalizedConfig_other; [exact Hnd|].
    simpl. intuition discriminate. }
  assert (Hk := normalizedConfig_get fs k Hnd Hin). rewrite Hn in Hk.
  rewrite Hdata, Hk. unfold nested_available.
  destruct (truthy (get_prop (VObj fs) "data")); [|reflexivity].
  destruct (typeof_object (get_prop (VObj fs) "data")); [|reflexivity].
  destruct (truthy (get_prop (get_prop (VObj fs) "data") k)) eqn:Hnested; [|reflexivity].
  cbn [andb]. unfold falsy.
  destruct (truthy (get_prop (VObj fs) k)) eqn:Htop; cbn [negb andb].
  - rewrite Htop. reflexivity.
  - rewrite Hnested. reflexivity.
Qed.

(** X10. Normalising a configuration object twice gives what normalising it
    once gives: a configuration that [download_chart] has normalised can be
    passed to it again unchanged. *)
Theorem normalizedConfig_idempotent (fs : props) :
  NoDup (map fst fs) ->
  normalizedConfig (normalizedConfig (VObj fs)) = normalizedConfig (VObj fs).
Proof.
  intro Hnd.
  destruct (normalizedConfig_is_obj (VObj fs)) as [n Hn].
  assert (Hn' : NoDup (map fst n)).
  { unfold normalizedConfig in Hn. inversion Hn. simpl own_props.
    rewrite (obj_spread_nil fs Hnd). now repeat apply NoDup_lift_nested. }
  rewrite Hn. unfold normalizedConfig at 1. simpl own_props.
  rewrite (obj_spread_nil n Hn').
  rewrite (lift_nested_settled fs n "datasets" Hnd) by (simpl; auto || exact Hn).
  rewrite (lift_nested_settled fs n "labels" Hnd) by (simpl; auto || exact Hn).
  rewrite (lift_nested_settled fs n "type" Hnd) by (simpl; auto || exact Hn).
  reflexivity.
Qed.

(** X10, witness: the nested example. *)
Lemma normalizedConfig_idempotent_witness :
  normalizedConfig (normalizedConfig (VObj nested_example))
  = normalizedConfig (VObj nested_example).
Proof.
  apply normalizedConfig_idempotent.
  repeat constructor; simpl; intuition discriminate.
Defined.

(* ------------------------------------------------------------------ *)
(** ** The download run *)

Lemma passes_validation_true (config : value) :
  passes_validation config = true ->
  falsy config || negb (typeof_object config) = false /\
  falsy (get_prop (normalizedConfig config) "type")
  || falsy (get_prop (normalizedConfig config) "datasets") = false.
Proof.
  unfold passes_validation, falsy. intro H.
  repeat (apply andb_true_iff in H; destruct H as [H ?]).
  repeat match goal with E : _ = true |- _ => rewrite E; clear E end.
  split; reflexivity.
Qed.

Lemma passes_validation_false (config : value) :
  passes_validation config = false ->
  falsy config || negb (typeof_object config) = true \/
  falsy (get_prop (normalizedConfig config) "type")
  || falsy (get_prop (normalizedConfig config) "datasets") = true.
Proof.
  unfold passes_validation, falsy.
  destruct (truthy config); [|now left].
  destruct (typeof_object config); [|now left].
  destruct (truthy (get_prop (normalizedConfig config) "type")); [|now right].
  destruct (truthy (get_prop (normalizedConfig config) "datasets")); [discriminate|].
  now right.
Qed.

Lemma validation_fails_InvalidParams (sys : Sys) (env : Env) (config : value)
    (p : option string) :
  passes_validation config = false ->
  snd (download_chart sys env config p) = [] /\
  fails_with (fst (download_chart sys env config p)) InvalidParams.
Proof.
  intro Hv. unfold download_chart, download_chart_body, download_normalized.
  destruct (falsy config || negb (typeof_object config)) eqn:H1.
  - split; [reflexivity | eexists; reflexivity].
  - destruct (passes_validation_false config Hv) as [H | H]; [congruence|].
    rewrite H. split; [reflexivity | eexists; reflexivity].
Qed.

(** A truthy output path that is not a string stops the branch at
    [path.dirname], after the validations and before any event. *)
Lemma download_chart_request_ill_typed (sys : Sys) (env : Env) (arguments : value) :
  is_nullish arguments = false ->
  passes_validation (get_prop arguments "config") = true ->
  ill_typed_path (get_prop arguments "outputPath") = true ->
  download_chart_request sys env arguments =
  (McpErr InternalError
     ("Failed to download chart: "
        ++ message_or_unknown (path_type_error sys (get_prop arguments "outputPath"))),
   []).
Proof.
  intros Hnull Hv Hpath.
  destruct (passes_validation_true _ Hv) as [H1 H2].
  unfold download_chart_request, download_chart_request_body.
  rewrite Hnull, H1, H2.
  unfold ill_typed_path in Hpath. apply andb_true_iff in Hpath.
  destruct Hpath as [Ht Hs]. unfold falsy. rewrite Ht. cbn [negb].
  destruct (get_prop arguments "outputPath"); try discriminate; reflexivity.
Qed.

Lemma download_chart_request_nullish (sys : Sys) (env : Env) (arguments : value) :
  is_nullish arguments = true ->
  download_chart_request sys env arguments =
  (McpErr InternalError
     ("Failed to download chart: "
        ++ message_or_unknown (destructure_error sys arguments)),
   []).
Proof.
  intro Hnull. unfold download_chart_request, download_chart_request_body.
  rewrite Hnull. reflexivity.
Qed.

Lemma download_chart_first_event (sys : Sys) (env : Env) (config : value)
    (p : option string) :
  passes_validation config = true ->
  exists path rest, snd (download_chart sys env config p) = EvAccess path :: rest.
Proof.
  intro Hv. destruct (passes_validation_true config Hv) as [H1 H2].
  unfold download_chart, download_chart_body, download_normalized. rewrite H1, H2.
  unfold resolve_outputPath, default_outputPath, fetch_and_write, access,
    io_bind, emit, io_ret, io_lift.
  repeat break_match; cbn [snd app]; eexists; eexists; reflexivity.
Qed.

(** X11. A run of [download_chart] leaves no event (no access check, no
    line on the console, no fetch, no write) exactly when the arguments are
    [undefined] or [null], the configuration fails one of the two
    validations, or the output path is truthy and not a string; in every
    other case the first event is an access check. Without events the
    answer is [InvalidParams] when a validation fails, and [InternalError]
    when the arguments cannot be destructured or the output path of a valid
    configuration is not a string. *)
Theorem validation_precedes_effects (sys : Sys) (env : Env) (arguments : value) :
  (snd (download_chart_request sys env arguments) = [] <->
   stops_before_effects arguments = true) /\
  (stops_before_effects arguments = false ->
   exists path rest,
     snd (download_chart_request sys env arguments) = EvAccess path :: rest) /\
  (is_nullish arguments = false ->
   passes_validation (get_prop arguments "config") = false ->
   fails_with (fst (download_chart_request sys env arguments)) InvalidParams) /\
  (is_nullish arguments = true \/
   (passes_validation (get_prop arguments "config") = true /\
    ill_typed_path (get_prop arguments "outputPath") = true) ->
   fails_with (fst (download_chart_request sys env arguments)) InternalError).
Proof.
  assert (Hinvalid : is_nullish arguments = false ->
            passes_validation (get_prop arguments "config") = false ->
            snd (download_chart_request sys env arguments) = [] /\
            fails_with (fst (download_chart_request sys env arguments)) InvalidParams).
  { intros Hnull Hv.
    unfold download_chart_request, download_chart_request_body. rewrite Hnull.
    destruct (passes_validation_false _ Hv) as [H | H].
    - rewrite H. split; [reflexivity | eexists; reflexivity].
    - destruct (falsy (get_prop arguments "config")
                || negb (typeof_object (get_prop arguments "config")));
        [split; [reflexivity | eexists; reflexivity]|].
      rewrite H. split; [reflexivity | eexists; reflexivity]. }
  assert (Hfirst : stops_before_effects arguments = false ->
            exists path rest,
              snd (download_chart_request sys env arguments) = EvAccess path :: rest).
  { unfold stops_before_effects. intro H.
    apply orb_false_iff in H. destruct H as [H Hpath].
    apply orb_false_iff in H. destruct H as [Hnull Hv].
    apply negb_false_iff in Hv.
    rewrite (download_chart_request_typed sys env arguments Hnull Hpath).
    now apply download_chart_first_event. }
  split; [|split; [exact Hfirst | split]].
  - destruct (stops_before_effects arguments) eqn:Hstop.
    + split; [reflexivity | intros _].
      unfold stops_before_effects in Hstop.
      destruct (is_nullish arguments) eqn:Hnull.
      { now rewrite (download_chart_request_nullish sys env arguments Hnull). }
      destruct (passes_validation (get_prop arguments "config")) eqn:Hv.
      * cbn [negb orb] in Hstop.
        now rewrite (download_chart_request_ill_typed sys env arguments Hnull Hv Hstop).
      * apply (Hinvalid eq_refl eq_refl).
    + split; [|discriminate]. intro H.
      destruct (Hfirst eq_refl) as (path & rest & Hsnd). congruence.
  - intros Hnull Hv. apply (Hinvalid Hnull Hv).
  - intros [Hnull | [Hv Hpath]].
    + rewrite (download_chart_request_nullish sys env arguments Hnull).
      eexists; reflexivity.
    + destruct (is_nullish arguments) eqn:Hnull.
      * rewrite (download_chart_request_nullish sys env arguments Hnull).
        eexists; reflexivity.
      * rewrite (download_chart_request_ill_typed sys env arguments Hnull Hv Hpath).
        eexists; reflexivity.
Qed.

Lemma date_char_facts (c : ascii) :
  is_date_char c = true ->
  Ascii.eqb c ":" = false /\ Ascii.eqb c "." = false /\ Ascii.eqb c "T" = false.
Proof. destruct c as [[] [] [] [] [] [] [] []]; cbv; intuition discriminate. Qed.

Lemma replace_colons_app (a b : string) :
  replace_colons (a ++ b) = replace_colons a ++ replace_colons b.
Proof. induction a as [|c r IH]; simpl; [reflexivity | now rewrite IH]. Qed.

Lemma replace_colons_date (s : string) :
  string_forallb is_date_char s = true -> replace_colons s = s.
Proof.
  induction s as [|c r IH]; simpl; [reflexivity|]. intro H.
  apply andb_true_iff in H. destruct H as [Hc Hr].
  destruct (date_char_facts c Hc) as (-> & _ & _). now rewrite IH.
Qed.

Lemma cut_fraction_date (s rest : string) :
  string_forallb is_date_char s = true ->
  cut_fraction (s ++ rest) = s ++ cut_fraction rest.
Proof.
  induction s as [|c r IH]; simpl; [reflexivity|]. intro H.
  apply andb_true_iff in H. destruct H as [Hc Hr].
  destruct (date_char_facts c Hc) as (_ & -> & _). simpl. now rewrite IH.
Qed.

Lemma replace_first_T_date (s rest : string) :
  string_forallb is_date_char s = true ->
  replace_first_T (s ++ rest) = s ++ replace_first_T rest.
Proof.
  induction s as [|c r IH]; simpl; [reflexivity|]. intro H.
  apply andb_true_iff in H. destruct H as [Hc Hr].
  destruct (date_char_facts c Hc) as (_ & _ & ->). now rewrite IH.
Qed.

(** X12. When the clock gives an ISO timestamp, date, [T], hours, minutes
    and seconds separated by colons, a dot, a fraction and [Z], the
    timestamp of the default file name is the date, an underscore, and the
    time with dashes in place of the colons; the fraction and the [Z] are
    dropped. *)
Theorem timestamp_format (sys : Sys) (date hh mm ss frac : string) :
  string_forallb is_date_char date = true ->
  string_forallb is_date_char hh = true ->
  string_forallb is_date_char mm = true ->
  string_forallb is_date_char ss = true ->
  string_forallb is_date_char frac = true ->
  now_iso sys = date ++ "T" ++ hh ++ ":" ++ mm ++ ":" ++ ss ++ "." ++ frac ++ "Z" ->
  timestamp sys = date ++ "_" ++ hh ++ "-" ++ mm ++ "-" ++ ss.
Proof.
  intros Hd Hh Hm Hs Hf Hnow. unfold timestamp. rewrite Hnow.
  rewrite replace_colons_app, (replace_colons_date date Hd).
  change ("T" ++ hh ++ ":" ++ mm ++ ":" ++ ss ++ "." ++ frac ++ "Z")
    with (String "T" (hh ++ String ":" (mm ++ String ":" (ss ++ String "." (frac ++ "Z"))))).
  cbn [replace_colons]. change (Ascii.eqb "T" ":") with false. cbv iota.
  rewrite replace_colons_app, (replace_colons_date hh Hh).
  cbn [replace_colons]. change (Ascii.eqb ":" ":") with true. cbv iota.
  rewrite replace_colons_app, (replace_colons_date mm Hm).
  cbn [replace_colons]. cbv iota.
  rewrite replace_colons_app, (replace_colons_date ss Hs).
  cbn [replace_colons]. change (Ascii.eqb "." ":") with false. cbv iota.
  rewrite replace_colons_app, (replace_colons_date frac Hf).
  rewrite (cut_fraction_date date _ Hd).
  cbn [cut_fraction]. change (Ascii.eqb "T" ".") with false. cbn [andb].
  rewrite (cut_fraction_date hh _ Hh).
  cbn [cut_fraction]. change (Ascii.eqb "-" ".") with false. cbn [andb].
  rewrite (cut_fraction_date mm _ Hm).
  cbn [cut_fraction]. cbn [andb].
  rewrite (cut_fraction_date ss _ Hs).
  cbn [cut_fraction]. change (Ascii.eqb "." ".") with true.
  assert (Hne : String.eqb (frac ++ replace_colons "Z") "" = false).
  { destruct frac; reflexivity. }
  rewrite Hne. cbn [negb andb].
  rewrite (replace_first_T_date date _ Hd).
  cbn [replace_first_T]. change (Ascii.eqb "T" "T") with true. cbv iota.
  rewrite !append_nil_r. reflexivity.
Qed.

(** X12, witness: the clock of the example machine. *)
Lemma timestamp_format_witness :
  timestamp (Posix.sys []) = "2024-05-06_07-08-09".
Proof.
  apply (timestamp_format (Posix.sys []) "2024-05-06" "07" "08" "09" "123");
    reflexivity.
Defined.

(** A configuration that is built and encoded without arguments is a chart
    of the ten types, and its URL is the one [generate_chart] returns. *)
Lemma generate_chart_built (env : Env) (n cfg : value) (url : string) :
  generateChartConfig n = Ok cfg ->
  generateChartUrl env cfg VUndefined = Ok url ->
  is_placeholder_type (get_prop n "type") = false /\ generate_chart env n = Ok url.
Proof.
  intros Hc Hu.
  destruct (is_placeholder_type (get_prop n "type")) eqn:Hp.
  - exfalso. unfold is_placeholder_type in Hp. apply orb_true_iff in Hp.
    destruct (generateChartUrl_without_args env) as [Hg Hw].
    destruct Hp as [Hp | Hp]; apply strict_eq_str_true in Hp;
      rewrite (generateChartConfig_placeholder n _ Hp) in Hc by auto;
      inversion Hc; subst cfg; congruence.
  - split; [reflexivity|]. unfold generate_chart. rewrite Hc. cbn [bind].
    destruct (generateChartConfig_type _ _ Hc Hp) as [Hty _].
    rewrite generateChartUrl_chart in Hu |- * by now rewrite Hty.
    now rewrite Hu.
Qed.

Lemma generate_chart_inv (env : Env) (n : value) (url : string) :
  is_placeholder_type (get_prop n "type") = false ->
  generate_chart env n = Ok url ->
  exists cfg, generateChartConfig n = Ok cfg /\
              generateChartUrl env cfg VUndefined = Ok url.
Proof.
  intros Hp H. unfold generate_chart in H.
  destruct (generateChartConfig n) as [cfg| |] eqn:Hc; cbn [bind] in H; try discriminate.
  exists cfg. split; [reflexivity|].
  destruct (generateChartConfig_type _ _ Hc Hp) as [Hty _].
  rewrite generateChartUrl_chart in H |- * by now rewrite Hty.
  inversion H. reflexivity.
Qed.

(** From the fetch on, the run is the fetch and the write under the two
    [catch] blocks. *)
Lemma download_chart_transfer (sys : Sys) (env : Env) (config : value)
    (p : option string) (outputPath url : string) :
  reaches_fetch sys env config p outputPath url ->
  download_chart sys env config p =
    match fetch_and_write sys url outputPath
            (events_before_fetch sys config p outputPath) with
    | (Ok _, t) => (Ok ("Chart saved to " ++ outputPath), t)
    | (McpErr c m, t) => (McpErr c m, t)
    | (JsErr m, t) =>
        (McpErr InternalError ("Failed to download chart: " ++ message_or_unknown m), t)
    end.
Proof.
  intros (Hv & Hres & Hacc & Hp & Hurl).
  destruct (passes_validation_true config Hv) as [H1 H2].
  destruct (generate_chart_inv env _ url Hp Hurl) as (cfg & Hc & Hu).
  unfold download_chart, download_chart_body, events_before_fetch. rewrite H1.
  unfold download_normalized. rewrite H2.
  unfold io_bind at 1.
  destruct (resolve_outputPath sys (normalizedConfig config) p []) as [r t0].
  simpl in Hres. subst r. cbn [snd].
  unfold access, io_bind, emit, io_ret, io_lift. rewrite Hacc, Hc, Hu. cbn [negb].
  rewrite <- app_assoc. cbn [app].
  destruct (fetch_and_write sys url outputPath _) as [[u| |] t]; reflexivity.
Qed.

(** X13. When the fetch or the write fails, the error code decides the
    answer, whichever of the two failed: [EACCES] and [EROFS] give
    [InvalidParams] with a permission message about the output path,
    [ENOENT] gives [InvalidParams] with a missing-directory message, and
    every other failure gives [InternalError] with the message of the
    error. *)
Theorem transfer_failure_reported (sys : Sys) (env : Env) (config : value)
    (p : option string) (outputPath url code message : string) :
  reaches_fetch sys env config p outputPath url ->
  transfer_fails sys url outputPath code message ->
  fst (download_chart sys env config p) =
    if String.eqb code "EACCES" || String.eqb code "EROFS" then
      McpErr InvalidParams ("Cannot write to " ++ outputPath ++ ": Permission denied")
    else if String.eqb code "ENOENT" then
      McpErr InvalidParams ("Cannot write to " ++ outputPath ++ ": Directory does not exist")
    else
      McpErr InternalError ("Failed to download chart: " ++ message_or_unknown message).
Proof.
  intros Hr Hf. rewrite (download_chart_transfer _ _ _ _ _ _ Hr).
  unfold fetch_and_write, io_bind, emit, io_lift, io_ret, translate_write_error.
  destruct Hf as [-> | (data & -> & ->)];
    destruct (String.eqb code "EACCES" || String.eqb code "EROFS");
    try reflexivity; destruct (String.eqb code "ENOENT"); reflexivity.
Qed.

(** X13, witness: a write refused by a read-only disk. *)
Lemma transfer_failure_reported_witness :
  fst (download_chart readonly_sys default_env (VObj flat_example) (Some "/tmp/c.png"))
  = McpErr InvalidParams "Cannot write to /tmp/c.png: Permission denied".
Proof.
  eapply (transfer_failure_reported readonly_sys default_env (VObj flat_example)
            (Some "/tmp/c.png") "/tmp/c.png" _ "EROFS" "read-only file system").
  - repeat split; vm_compute; reflexivity.
  - right. exists "PNG". split; reflexivity.
Defined.

(** X14. When the fetch fails, the run ends with the fetch: the events are
    those before the fetch and the fetch of the URL that [generate_chart]
    returns for the normalised configuration, and nothing is written. *)
Theorem failed_fetch_writes_nothing (sys : Sys) (env : Env) (config : value)
    (p : option string) (outputPath url code message : string) :
  reaches_fetch sys env config p outputPath url ->
  axios_get sys url = IoFail code message ->
  snd (download_chart sys env config p) =
    (events_before_fetch sys config p outputPath ++ [EvFetch url])%list.
Proof.
  intros Hr Hf. rewrite (download_chart_transfer _ _ _ _ _ _ Hr).
  unfold fetch_and_write, io_bind, emit, io_lift, io_ret, translate_write_error.
  rewrite Hf.
  destruct (String.eqb code "EACCES" || String.eqb code "EROFS");
    try reflexivity; destruct (String.eqb code "ENOENT"); reflexivity.
Qed.

(** X14, witness: a machine without network. *)
Lemma failed_fetch_writes_nothing_witness :
  exists url,
    snd (download_chart offline_sys default_env (VObj flat_example) (Some "/tmp/c.png"))
    = [EvAccess "/tmp"; EvBuild; EvFetch url].
Proof.
  eexists.
  eapply (failed_fetch_writes_nothing offline_sys default_env (VObj flat_example)
            (Some "/tmp/c.png") "/tmp/c.png" _ "ECONNREFUSED" "connect ECONNREFUSED").
  - repeat split; vm_compute; reflexivity.
  - reflexivity.
Defined.

(** X15. [download_chart] answers with a text exactly when the
    configuration passes the validations, the directory of the output path
    passes the access check, the normalised configuration is one of the ten
    chart types for which [generate_chart] returns a URL, the fetch of that
    URL succeeds and the write of the fetched bytes to the output path
    succeeds; the text then names the output path. *)
Theorem download_success (sys : Sys) (env : Env) (config : value)
    (p : option string) (text : string) :
  fst (download_chart sys env config p) = Ok text <->
  exists outputPath url data,
    reaches_fetch sys env config p outputPath url /\
    axios_get sys url = IoOk data /\
    writeFile sys outputPath data = IoOk tt /\
    text = "Chart saved to " ++ outputPath.
Proof.
  split.
  - intro H.
    destruct (passes_validation config) eqn:Hv.
    2:{ destruct (validation_fails_InvalidParams sys env config p Hv) as [_ [m Hm]].
        congruence. }
    destruct (passes_validation_true config Hv) as [H1 H2].
    revert H.
    unfold download_chart, download_chart_body, download_normalized. rewrite H1, H2.
    unfold io_bind at 1.
    destruct (resolve_outputPath sys (normalizedConfig config) p []) as [r t0] eqn:Hres.
    destruct r as [outputPath| |]; try (cbn; discriminate).
    unfold access, io_bind, emit, io_ret, io_lift, fetch_and_write.
    destruct (access_W_OK sys (path_dirname sys outputPath)) eqn:Hacc;
      cbn [negb]; [|cbn; discriminate].
    destruct (generateChartConfig (normalizedConfig config)) as [cfg| |] eqn:Hc;
      try (cbn; discriminate).
    destruct (generateChartUrl env cfg VUndefined) as [url| |] eqn:Hu;
      try (cbn; discriminate).
    destruct (axios_get sys url) as [data|code m] eqn:Hget.
    2:{ unfold translate_write_error. repeat break_match; cbn; discriminate. }
    destruct (writeFile sys outputPath data) as [[]|code m] eqn:Hw.
    2:{ unfold translate_write_error. repeat break_match; cbn; discriminate. }
    cbn [fst]. intro H. inversion H; subst text.
    destruct (generate_chart_built env _ cfg url Hc Hu) as [Hp Hg].
    exists outputPath, url, data. repeat split; try assumption.
    now rewrite Hres.
  - intros (outputPath & url & data & Hr & Hget & Hw & ->).
    rewrite (download_chart_transfer _ _ _ _ _ _ Hr).
    unfold fetch_and_write, io_bind, emit, io_lift, io_ret.
    rewrite Hget, Hw. reflexivity.
Qed.

(* ------------------------------------------------------------------ *)
(** ** The variant servers *)

(** X16. On each of the ten chart types, the builder of [src/index.ts] and
    [src/http-server.ts] returns or throws what the builder of the main
    server does, whatever the rest of the request is. *)
Theorem variant_builder_agrees (args : value) :
  is_chart_type (get_prop args "type") = true ->
  StdioVariant.generateChartConfig args = generateChartConfig args.
Proof.
  intro H. destruct (chart_type_cases _ H) as (Ht & Hin & Hnp).
  destruct (chart_type_object args H) as [fs ->].
  unfold generateChartConfig, StdioVariant.generateChartConfig.
  change (falsy (VObj fs)) with false. cbv iota.
  unfold falsy at 1 4. rewrite Ht. cbn [negb].
  rewrite (validate_chart_type _ H). cbn [bind].
  unfold is_placeholder_type in Hnp. rewrite Hnp.
  unfold StdioVariant.validateChartType. unfold is_chart_type in H. rewrite H.
  reflexivity.
Qed.

(** X16, witness: the gauge request with options. *)
Lemma variant_builder_agrees_witness :
  StdioVariant.generateChartConfig gauge_options_example
  = generateChartConfig gauge_options_example.
Proof. apply variant_builder_agrees. reflexivity. Defined.

(** X17. In the variant the datasets are checked before the type: a request
    with a truthy type outside the ten chart types is answered with the
    message of the datasets when [datasets] is not an array, and with the
    list of the ten types only when it is one. *)
Theorem variant_check_order (args : value) :
  truthy (get_prop args "type") = true ->
  is_chart_type (get_prop args "type") = false ->
  StdioVariant.generateChartConfig args =
    (if is_array (get_prop args "datasets")
     then McpErr InvalidParams
            ("Invalid chart type. Must be one of: " ++ join ", " StdioVariant.validTypes)
     else McpErr InvalidParams "Datasets must be a non-empty array").
Proof.
  intros Ht Hc.
  destruct (truthy_get_prop_obj args "type") as [fs ->].
  { intro E. rewrite E in Ht. discriminate. }
  unfold StdioVariant.generateChartConfig.
  change (falsy (VObj fs)) with false. cbv iota.
  unfold falsy at 1. rewrite Ht. cbn [negb].
  destruct (is_array (get_prop (VObj fs) "datasets")) eqn:Ha.
  - unfold falsy. rewrite (truthy_is_array _ Ha). cbn [negb orb].
    unfold StdioVariant.validateChartType. unfold is_chart_type in Hc. rewrite Hc.
    reflexivity.
  - now rewrite orb_true_r.
Qed.

(** X17, witness: a word-cloud request sent to the variant is told about
    its datasets. *)
Lemma variant_check_order_witness :
  StdioVariant.generateChartConfig (VObj [("type", VStr "wordcloud"); ("text", VStr "a b")])
  = McpErr InvalidParams "Datasets must be a non-empty array".
Proof.
  apply (variant_check_order (VObj [("type", VStr "wordcloud"); ("text", VStr "a b")]));
    reflexivity.
Defined.

Lemma variant_builder_cases (args : value) :
  (exists config, StdioVariant.generateChartConfig args = Ok config) \/
  fails_with (StdioVariant.generateChartConfig args) InvalidParams.
Proof.
  unfold StdioVariant.generateChartConfig.
  destruct (falsy args); [right; eexists; reflexivity|].
  destruct (falsy (get_prop args "type")); [right; eexists; reflexivity|].
  destruct (falsy (get_prop args "datasets") || negb (is_array (get_prop args "datasets")));
    [right; eexists; reflexivity|].
  cbv zeta. unfold StdioVariant.validateChartType.
  destruct (negb (includes StdioVariant.validTypes (get_prop args "type")));
    [right; eexists; reflexivity|]. cbn [bind].
  destruct (mapM_normalize_dataset (array_elems (get_prop args "datasets")))
    as [[ds' ->] | ->]; cbn [bind]; [|right; eexists; reflexivity].
  destruct (strict_eq_str (get_prop args "type") "radialGauge"
            || strict_eq_str (get_prop args "type") "speedometer").
  - destruct (falsy (first_reading (get_prop args "datasets")));
      [right; eexists; reflexivity | left; eauto].
  - destruct (strict_eq_str (get_prop args "type") "scatter"
              || strict_eq_str (get_prop args "type") "bubble"); [|left; eauto].
    destruct (forEachM_check_cases (get_prop args "type")
                (array_elems (get_prop args "datasets"))) as [-> | [m ->]];
      cbn [bind]; [left; eauto | right; eexists; reflexivity].
Qed.


(* ------------------------------------------------------------------ *)
(** ** Word clouds, with or without a text *)


Lemma append_extends (name : string) (v : value) :
  extends_or_throws (fun params => append params name v).
Proof.
  intro params. unfold append, js_String.
  destruct (to_string v); cbn [bind]; [left; eauto | now right].
Qed.

Lemma append_if_truthy_extends (args : value) (key name : string) :
  extends_or_throws (append_if_truthy args key name).
Proof.
  intro params. unfold append_if_truthy.
  destruct (truthy (get_prop args key)); [apply append_extends|].
  left. exists []. now rewrite app_nil_r.
Qed.

Lemma append_if_defined_extends (args : value) (key name : string) :
  extends_or_throws (append_if_defined args key name).
Proof.
  intro params. unfold append_if_defined.
  destruct (negb (is_undefined (get_prop args key))); [apply append_extends|].
  left. exists []. now rewrite app_nil_r.
Qed.

Lemma append_if_truthy_json_extends (args : value) (key name : string) :
  extends_or_throws (append_if_truthy_json args key name).
Proof.
  intro params. unfold append_if_truthy_json.
  destruct (truthy (get_prop args key)); [apply append_extends|].
  left. exists []. now rewrite app_nil_r.
Qed.

Lemma bind_extends (f : URLSearchParams -> result URLSearchParams)
    (k : URLSearchParams -> result string) (Q : result string -> Prop)
    (first : string * string) (rest : URLSearchParams) :
  extends_or_throws f ->
  Q (JsErr "Cannot convert object to primitive value") ->
  (forall rest', Q (k (first :: rest'))) ->
  Q (bind (f (first :: rest)) k).
Proof.
  intros Hf Hthrow Hk.
  destruct (Hf (first :: rest)) as [[extra ->] | ->]; cbn [bind]; [|exact Hthrow].
  apply (Hk (rest ++ extra)%list).
Qed.

Lemma generateChartUrl_wordcloud_cases (env : Env) (args : value) (t : string) :
  get_prop args "text" = VStr t ->
  t <> "" ->
  (exists params,
      generateChartUrl env (VObj [("type", VStr "wordcloud")]) args =
      Ok (QUICKCHART_WORDCLOUD_URL env ++ "?"
            ++ URLSearchParams_toString (("text", t) :: params))) \/
  generateChartUrl env (VObj [("type", VStr "wordcloud")]) args =
    JsErr "Cannot convert object to primitive value".
Proof.
  intros Htext Hne.
  destruct (truthy_get_prop_obj args "text") as [fs ->]; [congruence|].
  unfold generateChartUrl.
  change (strict_eq_str (get_prop (VObj [("type", VStr "wordcloud")]) "type") "graphviz")
    with false.
  change (strict_eq_str (get_prop (VObj [("type", VStr "wordcloud")]) "type") "wordcloud")
    with true.
  cbv iota.
  change (get_prop_opt (VObj fs) "text") with (get_prop (VObj fs) "text").
  rewrite Htext, (falsy_nonempty t Hne). cbn [orb is_string negb].
  unfold append at 1. unfold js_String at 1. cbn [to_string bind app].
  pose (Q := fun r : result string =>
               (exists params,
                   r = Ok (QUICKCHART_WORDCLOUD_URL env ++ "?"
                             ++ URLSearchParams_toString (("text", t) :: params))) \/
               r = JsErr "Cannot convert object to primitive value").
  assert (Hthrow : Q (JsErr "Cannot convert object to primitive value"))
    by (right; reflexivity).
  repeat (refine (bind_extends _ _ Q _ _ _ Hthrow _);
          [ first [ apply append_if_truthy_extends
                  | apply append_if_defined_extends
                  | apply append_if_truthy_json_extends ]
          | intros ? ]).
  left. eexists. reflexivity.
Qed.

(** X19. A word-cloud request without a usable [text] (falsy, or not a
    string) fails with [InvalidParams], whatever else it carries; with a
    non-empty [text], it never fails with [InvalidParams]: it returns the
    word-cloud endpoint with [text] as the first parameter, or fails with
    [InternalError] because a parameter cannot be coerced to a string. *)
Theorem wordcloud_outcome (env : Env) (args : value) :
  get_prop args "type" = VStr "wordcloud" ->
  (falsy (get_prop args "text") = true \/ is_string (get_prop args "text") = false ->
   generate_chart env args =
     McpErr InvalidParams "Text is required for wordcloud charts") /\
  (forall t, get_prop args "text" = VStr t -> t <> "" ->
   (exists params,
       generate_chart env args =
       Ok (QUICKCHART_WORDCLOUD_URL env ++ "?"
             ++ URLSearchParams_toString (("text", t) :: params))) \/
   generate_chart env args =
     McpErr InternalError
       "Failed to generate chart: Cannot convert object to primitive value").
Proof.
  intro Hty. unfold generate_chart.
  rewrite (generateChartConfig_placeholder args "wordcloud" Hty (or_intror eq_refl)).
  cbn [bind]. split.
  - intro Hbad.
    destruct (truthy_get_prop_obj args "type") as [fs ->]; [congruence|].
    unfold generateChartUrl.
    change (strict_eq_str (get_prop (VObj [("type", VStr "wordcloud")]) "type") "graphviz")
      with false.
    change (strict_eq_str (get_prop (VObj [("type", VStr "wordcloud")]) "type") "wordcloud")
      with true.
    cbv iota.
    change (get_prop_opt (VObj fs) "text") with (get_prop (VObj fs) "text").
    replace (falsy (get_prop (VObj fs) "text")
             || negb (is_string (get_prop (VObj fs) "text"))) with true; [reflexivity|].
    symmetry. apply orb_true_iff.
    destruct Hbad as [H | H]; [now left | right; now rewrite H].
  - intros t Htext Hne.
    destruct (generateChartUrl_wordcloud_cases env args t Htext Hne) as [[params ->] | ->];
      [left; eauto | right; reflexivity].
Qed.

(** X19, witness: a numeric [text]. *)
Lemma wordcloud_outcome_witness :
  generate_chart default_env
    (VObj [("type", VStr "wordcloud"); ("text", VNum 7); ("width", VNum 300)])
  = McpErr InvalidParams "Text is required for wordcloud charts".
Proof.
  apply (proj1 (wordcloud_outcome default_env
                  (VObj [("type", VStr "wordcloud"); ("text", VNum 7); ("width", VNum 300)])
                  eq_refl)).
  right. reflexivity.
Defined.
